(** * Patternle: rule evaluator, puzzle validator and generation orchestrator

    A shallow embedding of the rule engine of the repository,
    [src/lib/rules/types.ts], [src/lib/rules/evaluators.ts],
    [src/lib/rules/validation.ts] and [src/lib/puzzle-generator.ts],
    followed by the properties proved about it.

    Numbers.  A JavaScript [number] is modelled by the type [number] below:
    an exact rational, one of the two infinities, or NaN.  Comparisons,
    [Math.abs], [Math.round] and [Number.isInteger] are exact in JavaScript
    and here.  The four arithmetic operations are exact here and rounded to
    binary64 in JavaScript; the two agree whenever the operands and the
    result are integers of magnitude at most 2^53, or more generally
    whenever the exact result is a binary64 number.  A property whose truth
    depends on the value of an arithmetic result is therefore stated either
    under hypotheses that keep every intermediate result in that range, or
    over an arbitrary arithmetic (see [checkConstantRatioWith]); the other
    properties relate results of the same computation to each other and do
    not depend on the rounding.  The sign of zero is not modelled.
    [undefined] read from an array is [None]; where the source uses it as
    an arithmetic operand it is NaN, as in JavaScript.

    Inputs.  Rule parameters are finite numbers, [exponent] and positions
    are integers, counts, lengths and [primarySequenceIndex] are natural
    numbers.  The operation kinds and power types are the members of their
    TypeScript unions.  A string is held as the bytes of its UTF-8
    encoding: [stringLength] counts UTF-16 code units from them, as
    [.length] does, and [charCodeAt] is read byte by byte, which is exact
    for ASCII strings such as date keys of the form YYYY-MM-DD.

    Effects.  An exception is a value of [thrown] carried by [result].  The
    proposal source is an oracle giving the outcome of each call; the
    orchestrator threads a [World] holding the number of calls made and
    the console output.  Promises are run to completion in program order. *)

From Stdlib Require Import String Ascii.
From Stdlib Require Import ZArith QArith Qround Qpower Qabs Qfield.
From Stdlib Require Import List Bool Lia Lqa Decimal.
From Stdlib Require DecimalPos DecimalN.
Import ListNotations.

Local Open Scope Z_scope.

(* ================================================================== *)
(** ** JavaScript numbers *)
(* ================================================================== *)

Inductive number : Type :=
| Num (q : Q)
| Inf (negative : bool)
| NaN.

Definition ofZ (z : Z) : number := Num (inject_Z z).
Definition ofNat (n : nat) : number := ofZ (Z.of_nat n).

Definition Qis_zero (q : Q) : bool := Qnum q =? 0.
Definition Qis_neg (q : Q) : bool := Qnum q <? 0.
Definition Qlt_bool (p q : Q) : bool := negb (Qle_bool q p).

Definition nneg (x : number) : number :=
  match x with
  | Num q => Num (- q)
  | Inf s => Inf (negb s)
  | NaN => NaN
  end.

Definition nadd (x y : number) : number :=
  match x, y with
  | NaN, _ | _, NaN => NaN
  | Num p, Num q => Num (p + q)
  | Inf s, Inf t => if Bool.eqb s t then Inf s else NaN
  | Inf s, Num _ => Inf s
  | Num _, Inf t => Inf t
  end.

Definition nsub (x y : number) : number := nadd x (nneg y).

Definition nmul (x y : number) : number :=
  match x, y with
  | NaN, _ | _, NaN => NaN
  | Num p, Num q => Num (p * q)
  | Inf s, Inf t => Inf (xorb s t)
  | Inf s, Num q => if Qis_zero q then NaN else Inf (xorb s (Qis_neg q))
  | Num p, Inf t => if Qis_zero p then NaN else Inf (xorb (Qis_neg p) t)
  end.

Definition ndiv (x y : number) : number :=
  match x, y with
  | NaN, _ | _, NaN => NaN
  | Num p, Num q =>
      if Qis_zero q
      then (if Qis_zero p then NaN else Inf (Qis_neg p))
      else Num (p / q)
  | Num _, Inf _ => Num 0%Q
  | Inf s, Num q => Inf (xorb s (Qis_neg q))
  | Inf _, Inf _ => NaN
  end.

(** [Math.abs] *)
Definition nabs (x : number) : number :=
  match x with
  | Num q => Num (Qabs q)
  | Inf _ => Inf false
  | NaN => NaN
  end.

(** [x < y] *)
Definition nlt (x y : number) : bool :=
  match x, y with
  | NaN, _ | _, NaN => false
  | Num p, Num q => Qlt_bool p q
  | Inf s, Inf t => s && negb t
  | Inf s, Num _ => s
  | Num _, Inf t => negb t
  end.

(** [x > y] *)
Definition ngt (x y : number) : bool := nlt y x.

(** [x === y] on two numbers *)
Definition nseq (x y : number) : bool :=
  match x, y with
  | Num p, Num q => Qeq_bool p q
  | Inf s, Inf t => Bool.eqb s t
  | _, _ => false
  end.

(** [Math.round]: the nearest integer, ties towards +Infinity *)
Definition Qround_half_up (q : Q) : Z := Qfloor (q + (1 # 2)).

Definition nround (x : number) : number :=
  match x with
  | Num q => ofZ (Qround_half_up q)
  | other => other
  end.

Definition Qis_integer (q : Q) : bool := Qeq_bool q (inject_Z (Qfloor q)).

(** [Number.isInteger] *)
Definition isInteger (x : number) : bool :=
  match x with
  | Num q => Qis_integer q
  | _ => false
  end.

(** [Math.max] and [Math.min] of two numbers *)
Definition nmax (x y : number) : number :=
  match x, y with
  | NaN, _ | _, NaN => NaN
  | _, _ => if nlt x y then y else x
  end.

Definition nmin (x y : number) : number :=
  match x, y with
  | NaN, _ | _, NaN => NaN
  | _, _ => if nlt y x then y else x
  end.

(** [b ** e] for a finite base and an integer exponent. *)
Definition npow (b : Q) (e : Z) : number :=
  if Qis_zero b && (e <? 0) then Inf false else Num (Qpower b e).

(** An array read [arr[i]] used as an arithmetic operand. *)
Definition toNumber (v : option number) : number :=
  match v with
  | Some x => x
  | None => NaN
  end.

(** [x !== y] where either side may be [null] or [undefined] ([None]):
    the sides are different unless both are numbers that are [===]. *)
Definition strictNe (x y : option number) : bool :=
  match x, y with
  | Some a, Some b => negb (nseq a b)
  | _, _ => true
  end.

Definition strictEq (x y : option number) : bool := negb (strictNe x y).

(** Sameness of two numbers as values (NaN is the same value as NaN). *)
Definition sameValue (x y : number) : Prop :=
  match x, y with
  | Num p, Num q => (p == q)%Q
  | Inf s, Inf t => s = t
  | NaN, NaN => True
  | _, _ => False
  end.

Declare Scope js_scope.
Delimit Scope js_scope with js.
Bind Scope js_scope with number.
Infix "+" := nadd : js_scope.
Infix "-" := nsub : js_scope.
Infix "*" := nmul : js_scope.
Infix "/" := ndiv : js_scope.

(** [x ?? d] *)
Definition orElse {A : Type} (x : option A) (d : A) : A :=
  match x with
  | Some v => v
  | None => d
  end.
Notation "x ?? d" := (orElse x d) (at level 45, left associativity).

(* ================================================================== *)
(** ** Exceptions *)
(* ================================================================== *)

(** What a [throw] can carry in the modelled code. *)
Inductive thrown : Type :=
| UnknownRule (token : string)   (* new Error(`Unknown rule type: ${ruleType}`) *)
| TypeError                      (* property read on undefined *)
| ProposalFailure.               (* the proposal source rejected *)

Inductive result (A : Type) : Type :=
| Ok (v : A)
| Throw (e : thrown).
Arguments Ok {A} v.
Arguments Throw {A} e.

Definition bind {A B : Type} (r : result A) (k : A -> result B) : result B :=
  match r with
  | Ok v => k v
  | Throw e => Throw e
  end.

Notation "x <- r ;; k" := (bind r (fun x => k))
  (at level 61, r at next level, right associativity).

(* ================================================================== *)
(** ** types.ts *)
(* ================================================================== *)

(** The string enum [RuleProgramType].  At run time a value of this type
    is a string; [UNRECOGNIZED] stands for any token that is none of the
    fourteen members, which is what the [default] case of the evaluator's
    switch receives. *)
Inductive RuleProgramType : Type :=
| ARITHMETIC_SEQUENCE
| GEOMETRIC_SEQUENCE
| LINEAR_DIFF
| SECOND_ORDER_CONSTANT
| ALTERNATING_OPS
| ALTERNATING_PARITY
| POSITIONAL_FORMULA
| CUBIC_POSITIONAL
| RECURSIVE_LINEAR
| FIBONACCI_LIKE
| TRIBONACCI_LIKE
| DIGIT_SUM_BASED
| MULTIPLY_THEN_ADD
| POWER_BASED
| UNRECOGNIZED (token : string).

Module Op.
Inductive kind : Type := add | subtract | multiply.
Record t : Type := make { op : kind; value : Q }.
End Op.

Inductive PowerType : Type := n_to_k | k_to_n | n_squared_plus.

(** [RuleProgramParams].  Every field is optional.  Numeric parameters are
    finite numbers; [exponent] is taken to be an integer, so that
    [position ** exponent] stays rational. *)
Module Params.
Record t : Type := make {
  difference : option Q;
  ratio : option Q;
  initialDiff : option Q;
  diffIncrement : option Q;
  secondDifference : option Q;
  operations : option (list Op.t);
  oddMultiplier : option Q;
  oddAddend : option Q;
  evenMultiplier : option Q;
  evenAddend : option Q;
  a : option Q;
  b : option Q;
  c : option Q;
  cubicA : option Q;
  cubicB : option Q;
  cubicC : option Q;
  cubicD : option Q;
  multiplier : option Q;
  addend : option Q;
  prevMultiplier : option Q;
  prev2Multiplier : option Q;
  digitSumMultiplier : option Q;
  digitSumAddend : option Q;
  multiplyFactor : option Q;
  addFactor : option Q;
  base : option Q;
  exponent : option Z;
  powerType : option PowerType;
  startingValues : option (list Q)
}.

(** The object literal [{}]. *)
Definition empty : t :=
  make None None None None None None None None None None
       None None None None None None None None None None
       None None None None None None None None None.

(** Functional updates [{ ...p, field: v }]. *)
Definition with_c (p : t) (v : Q) : t :=
  make (difference p) (ratio p) (initialDiff p) (diffIncrement p)
      (secondDifference p) (operations p) (oddMultiplier p) (oddAddend p)
      (evenMultiplier p) (evenAddend p) (a p) (b p) (Some v) (cubicA p)
      (cubicB p) (cubicC p) (cubicD p) (multiplier p) (addend p)
      (prevMultiplier p) (prev2Multiplier p) (digitSumMultiplier p)
      (digitSumAddend p) (multiplyFactor p) (addFactor p) (base p)
      (exponent p) (powerType p) (startingValues p).

Definition with_cubicD (p : t) (v : Q) : t :=
  make (difference p) (ratio p) (initialDiff p) (diffIncrement p)
      (secondDifference p) (operations p) (oddMultiplier p) (oddAddend p)
      (evenMultiplier p) (evenAddend p) (a p) (b p) (c p) (cubicA p)
      (cubicB p) (cubicC p) (Some v) (multiplier p) (addend p)
      (prevMultiplier p) (prev2Multiplier p) (digitSumMultiplier p)
      (digitSumAddend p) (multiplyFactor p) (addFactor p) (base p)
      (exponent p) (powerType p) (startingValues p).

Definition with_base (p : t) (v : Q) : t :=
  make (difference p) (ratio p) (initialDiff p) (diffIncrement p)
      (secondDifference p) (operations p) (oddMultiplier p) (oddAddend p)
      (evenMultiplier p) (evenAddend p) (a p) (b p) (c p) (cubicA p)
      (cubicB p) (cubicC p) (cubicD p) (multiplier p) (addend p)
      (prevMultiplier p) (prev2Multiplier p) (digitSumMultiplier p)
      (digitSumAddend p) (multiplyFactor p) (addFactor p) (Some v)
      (exponent p) (powerType p) (startingValues p).

Definition with_secondDifference (p : t) (v : Q) : t :=
  make (difference p) (ratio p) (initialDiff p) (diffIncrement p) (Some v)
      (operations p) (oddMultiplier p) (oddAddend p) (evenMultiplier p)
      (evenAddend p) (a p) (b p) (c p) (cubicA p) (cubicB p) (cubicC p)
      (cubicD p) (multiplier p) (addend p) (prevMultiplier p)
      (prev2Multiplier p) (digitSumMultiplier p) (digitSumAddend p)
      (multiplyFactor p) (addFactor p) (base p) (exponent p) (powerType p)
      (startingValues p).

Definition with_initialDiff (p : t) (v : Q) : t :=
  make (difference p) (ratio p) (Some v) (diffIncrement p)
      (secondDifference p) (operations p) (oddMultiplier p) (oddAddend p)
      (evenMultiplier p) (evenAddend p) (a p) (b p) (c p) (cubicA p)
      (cubicB p) (cubicC p) (cubicD p) (multiplier p) (addend p)
      (prevMultiplier p) (prev2Multiplier p) (digitSumMultiplier p)
      (digitSumAddend p) (multiplyFactor p) (addFactor p) (base p)
      (exponent p) (powerType p) (startingValues p).

Definition with_diffIncrement (p : t) (v : Q) : t :=
  make (difference p) (ratio p) (initialDiff p) (Some v)
      (secondDifference p) (operations p) (oddMultiplier p) (oddAddend p)
      (evenMultiplier p) (evenAddend p) (a p) (b p) (c p) (cubicA p)
      (cubicB p) (cubicC p) (cubicD p) (multiplier p) (addend p)
      (prevMultiplier p) (prev2Multiplier p) (digitSumMultiplier p)
      (digitSumAddend p) (multiplyFactor p) (addFactor p) (base p)
      (exponent p) (powerType p) (startingValues p).

Definition with_prevMultiplier (p : t) (v : Q) : t :=
  make (difference p) (ratio p) (initialDiff p) (diffIncrement p)
      (secondDifference p) (operations p) (oddMultiplier p) (oddAddend p)
      (evenMultiplier p) (evenAddend p) (a p) (b p) (c p) (cubicA p)
      (cubicB p) (cubicC p) (cubicD p) (multiplier p) (addend p) (Some v)
      (prev2Multiplier p) (digitSumMultiplier p) (digitSumAddend p)
      (multiplyFactor p) (addFactor p) (base p) (exponent p) (powerType p)
      (startingValues p).

Definition with_prev2Multiplier (p : t) (v : Q) : t :=
  make (difference p) (ratio p) (initialDiff p) (diffIncrement p)
      (secondDifference p) (operations p) (oddMultiplier p) (oddAddend p)
      (evenMultiplier p) (evenAddend p) (a p) (b p) (c p) (cubicA p)
      (cubicB p) (cubicC p) (cubicD p) (multiplier p) (addend p)
      (prevMultiplier p) (Some v) (digitSumMultiplier p)
      (digitSumAddend p) (multiplyFactor p) (addFactor p) (base p)
      (exponent p) (powerType p) (startingValues p).

Definition with_a (p : t) (v : Q) : t :=
  make (difference p) (ratio p) (initialDiff p) (diffIncrement p)
      (secondDifference p) (operations p) (oddMultiplier p) (oddAddend p)
      (evenMultiplier p) (evenAddend p) (Some v) (b p) (c p) (cubicA p)
      (cubicB p) (cubicC p) (cubicD p) (multiplier p) (addend p)
      (prevMultiplier p) (prev2Multiplier p) (digitSumMultiplier p)
      (digitSumAddend p) (multiplyFactor p) (addFactor p) (base p)
      (exponent p) (powerType p) (startingValues p).

Definition with_b (p : t) (v : Q) : t :=
  make (difference p) (ratio p) (initialDiff p) (diffIncrement p)
      (secondDifference p) (operations p) (oddMultiplier p) (oddAddend p)
      (evenMultiplier p) (evenAddend p) (a p) (Some v) (c p) (cubicA p)
      (cubicB p) (cubicC p) (cubicD p) (multiplier p) (addend p)
      (prevMultiplier p) (prev2Multiplier p) (digitSumMultiplier p)
      (digitSumAddend p) (multiplyFactor p) (addFactor p) (base p)
      (exponent p) (powerType p) (startingValues p).

Definition with_difference (p : t) (v : Q) : t :=
  make (Some v) (ratio p) (initialDiff p) (diffIncrement p)
      (secondDifference p) (operations p) (oddMultiplier p) (oddAddend p)
      (evenMultiplier p) (evenAddend p) (a p) (b p) (c p) (cubicA p)
      (cubicB p) (cubicC p) (cubicD p) (multiplier p) (addend p)
      (prevMultiplier p) (prev2Multiplier p) (digitSumMultiplier p)
      (digitSumAddend p) (multiplyFactor p) (addFactor p) (base p)
      (exponent p) (powerType p) (startingValues p).

Definition with_ratio (p : t) (v : Q) : t :=
  make (difference p) (Some v) (initialDiff p) (diffIncrement p)
      (secondDifference p) (operations p) (oddMultiplier p) (oddAddend p)
      (evenMultiplier p) (evenAddend p) (a p) (b p) (c p) (cubicA p)
      (cubicB p) (cubicC p) (cubicD p) (multiplier p) (addend p)
      (prevMultiplier p) (prev2Multiplier p) (digitSumMultiplier p)
      (digitSumAddend p) (multiplyFactor p) (addFactor p) (base p)
      (exponent p) (powerType p) (startingValues p).

Definition with_operations (p : t) (v : list Op.t) : t :=
  make (difference p) (ratio p) (initialDiff p) (diffIncrement p)
      (secondDifference p) (Some v) (oddMultiplier p) (oddAddend p)
      (evenMultiplier p) (evenAddend p) (a p) (b p) (c p) (cubicA p)
      (cubicB p) (cubicC p) (cubicD p) (multiplier p) (addend p)
      (prevMultiplier p) (prev2Multiplier p) (digitSumMultiplier p)
      (digitSumAddend p) (multiplyFactor p) (addFactor p) (base p)
      (exponent p) (powerType p) (startingValues p).

Definition with_startingValues (p : t) (v : option (list Q)) : t :=
  make (difference p) (ratio p) (initialDiff p) (diffIncrement p)
      (secondDifference p) (operations p) (oddMultiplier p) (oddAddend p)
      (evenMultiplier p) (evenAddend p) (a p) (b p) (c p) (cubicA p)
      (cubicB p) (cubicC p) (cubicD p) (multiplier p) (addend p)
      (prevMultiplier p) (prev2Multiplier p) (digitSumMultiplier p)
      (digitSumAddend p) (multiplyFactor p) (addFactor p) (base p)
      (exponent p) (powerType p) v.
End Params.

(** [GeneratedSequence] *)
Module Gen.
Record t : Type := make { sequence : list number; nextValue : number }.
End Gen.

(** [PuzzleData] *)
Module Puzzle.
Record t : Type := make {
  ruleProgramType : RuleProgramType;
  ruleProgramParams : Params.t;
  tags : list string;
  sequences : list (list number);
  answers : list number;
  primarySequenceIndex : nat;
  hints : list string;
  explanation : string
}.
End Puzzle.

(* ================================================================== *)
(** ** evaluators.ts *)
(* ================================================================== *)

(** The characters of the decimal numeral of a natural number, as digits. *)
Fixpoint digitsOf (d : Decimal.uint) : list Z :=
  match d with
  | Nil => []
  | D0 r => 0 :: digitsOf r
  | D1 r => 1 :: digitsOf r
  | D2 r => 2 :: digitsOf r
  | D3 r => 3 :: digitsOf r
  | D4 r => 4 :: digitsOf r
  | D5 r => 5 :: digitsOf r
  | D6 r => 6 :: digitsOf r
  | D7 r => 7 :: digitsOf r
  | D8 r => 8 :: digitsOf r
  | D9 r => 9 :: digitsOf r
  end.

(** [digitSum].  [Math.abs(n).toString()] is a plain digit string exactly
    when [n] is an integer below 1e21; any other numeral contains a
    character that [parseInt] maps to NaN, and the sum is NaN.  Up to 2^53
    the string is the numeral of the integer, whose digits are summed here;
    above, [toString] prints the shortest numeral that reads back as the
    same binary64 number, padded with zeros, which this model does not
    follow: what is proved of [digitSum] is stated up to 2^53. *)
Definition digitSum (n : number) : number :=
  match nabs n with
  | Num q =>
      if Qis_integer q && Qlt_bool q (inject_Z (10 ^ 21))
      then ofZ (fold_left (fun sum digit => sum + digit)
                          (digitsOf (N.to_uint (Z.to_N (Qfloor q)))) 0)
      else NaN
  | _ => NaN
  end.

(** [arr[i]] for an integer index. *)
Definition at_index {A : Type} (l : list A) (i : Z) : option A :=
  if i <? 0 then None else nth_error l (Z.to_nat i).

(** [sequence[sequence.length - k]] *)
Definition fromEnd (sequence : list number) (k : nat) : option number :=
  at_index sequence (Z.of_nat (length sequence) - Z.of_nat k).

Definition defaultOperations : list Op.t :=
  [Op.make Op.add 2; Op.make Op.subtract 1].

Definition evaluateNextValue (sequence : list number)
    (ruleType : RuleProgramType) (params : Params.t) (position : Z)
    : result number :=
  let prev := toNumber (fromEnd sequence 1) in
  let prev2 := if (2 <=? length sequence)%nat
               then toNumber (fromEnd sequence 2) else ofZ 0 in
  let prev3 := if (3 <=? length sequence)%nat
               then toNumber (fromEnd sequence 3) else ofZ 0 in
  let pos := ofZ position in
  match ruleType with
  | ARITHMETIC_SEQUENCE =>
      let diff := Num (Params.difference params ?? 0%Q) in
      Ok (prev + diff)%js
  | GEOMETRIC_SEQUENCE =>
      let ratio := Num (Params.ratio params ?? 1%Q) in
      Ok (prev * ratio)%js
  | LINEAR_DIFF =>
      let initialDiff := Num (Params.initialDiff params ?? 1%Q) in
      let diffIncrement := Num (Params.diffIncrement params ?? 1%Q) in
      let n := ofNat (length sequence) in
      let nextDiff := (initialDiff + (n - ofZ 1) * diffIncrement)%js in
      Ok (prev + nextDiff)%js
  | SECOND_ORDER_CONSTANT =>
      let secondDiff := Num (Params.secondDifference params ?? 2%Q) in
      if (length sequence <? 2)%nat
      then Ok (prev + secondDiff)%js
      else
        let lastDiff := (prev - prev2)%js in
        let nextDiff := (lastDiff + secondDiff)%js in
        Ok (prev + nextDiff)%js
  | ALTERNATING_OPS =>
      let operations := Params.operations params ?? defaultOperations in
      if (length operations =? 0)%nat
      then Throw TypeError
      else
        let opIndex :=
          Z.rem (Z.of_nat (length sequence) - 1) (Z.of_nat (length operations)) in
        match at_index operations opIndex with
        | None => Throw TypeError
        | Some operation =>
            match Op.op operation with
            | Op.add => Ok (prev + Num (Op.value operation))%js
            | Op.subtract => Ok (prev - Num (Op.value operation))%js
            | Op.multiply => Ok (prev * Num (Op.value operation))%js
            end
        end
  | ALTERNATING_PARITY =>
      let isOddPosition := Z.rem position 2 =? 1 in
      if isOddPosition
      then
        let mult := Num (Params.oddMultiplier params ?? 1%Q) in
        let add := Num (Params.oddAddend params ?? 1%Q) in
        Ok (prev * mult + add)%js
      else
        let mult := Num (Params.evenMultiplier params ?? 1%Q) in
        let add := Num (Params.evenAddend params ?? 2%Q) in
        Ok (prev * mult + add)%js
  | POSITIONAL_FORMULA =>
      let a := Num (Params.a params ?? 0%Q) in
      let b := Num (Params.b params ?? 1%Q) in
      let c := Num (Params.c params ?? 0%Q) in
      Ok (a * pos * pos + b * pos + c)%js
  | CUBIC_POSITIONAL =>
      let a := Num (Params.cubicA params ?? 0%Q) in
      let b := Num (Params.cubicB params ?? 0%Q) in
      let c := Num (Params.cubicC params ?? 1%Q) in
      let d := Num (Params.cubicD params ?? 0%Q) in
      Ok (a * npow (inject_Z position) 3 + b * npow (inject_Z position) 2
          + c * pos + d)%js
  | RECURSIVE_LINEAR =>
      let multiplier := Num (Params.multiplier params ?? 2%Q) in
      let addend := Num (Params.addend params ?? 0%Q) in
      Ok (multiplier * prev + addend)%js
  | FIBONACCI_LIKE =>
      let prevMult := Num (Params.prevMultiplier params ?? 1%Q) in
      let prev2Mult := Num (Params.prev2Multiplier params ?? 1%Q) in
      Ok (prevMult * prev + prev2Mult * prev2)%js
  | TRIBONACCI_LIKE =>
      Ok (prev + prev2 + prev3)%js
  | DIGIT_SUM_BASED =>
      let mult := Num (Params.digitSumMultiplier params ?? 1%Q) in
      let add := Num (Params.digitSumAddend params ?? 0%Q) in
      Ok (prev + (digitSum prev * mult + add))%js
  | MULTIPLY_THEN_ADD =>
      let multFactor := Num (Params.multiplyFactor params ?? 2%Q) in
      let addFactor := Num (Params.addFactor params ?? 1%Q) in
      Ok (prev * multFactor + addFactor)%js
  | POWER_BASED =>
      let base := Params.base params ?? 2%Q in
      let exp := Params.exponent params ?? 2 in
      let powerType := Params.powerType params ?? n_squared_plus in
      match powerType with
      | n_to_k => Ok (npow (inject_Z position) exp)
      | k_to_n => Ok (npow base position)
      | n_squared_plus => Ok (npow (inject_Z position) 2 + Num base)%js
      end
  | UNRECOGNIZED token => Throw (UnknownRule token)
  end.

(** The three kinds whose terms depend on the position only. *)
Definition isPositional (ruleType : RuleProgramType) : bool :=
  match ruleType with
  | POSITIONAL_FORMULA | CUBIC_POSITIONAL | POWER_BASED => true
  | _ => false
  end.

(** [for (let i = 1; i <= length; i++) sequence.push(evaluateNextValue(sequence, ruleType, params, i))],
    with [steps] iterations left. *)
Fixpoint positionalLoop (ruleType : RuleProgramType) (params : Params.t)
    (steps : nat) (i : Z) (sequence : list number) : result (list number) :=
  match steps with
  | O => Ok sequence
  | S steps' =>
      v <- evaluateNextValue sequence ruleType params i ;;
      positionalLoop ruleType params steps' (i + 1) (sequence ++ [v])
  end.

(** [while (sequence.length < length) { ... sequence.push(nextVal) }],
    with [steps = length - sequence.length] iterations left. *)
Fixpoint fillLoop (ruleType : RuleProgramType) (params : Params.t)
    (steps : nat) (sequence : list number) : result (list number) :=
  match steps with
  | O => Ok sequence
  | S steps' =>
      let position := Z.of_nat (length sequence) + 1 in
      nextVal <- evaluateNextValue sequence ruleType params position ;;
      fillLoop ruleType params steps' (sequence ++ [nextVal])
  end.

Definition generateSequence (ruleType : RuleProgramType) (params : Params.t)
    (len : nat) (startingValues : option (list number)) : result Gen.t :=
  if isPositional ruleType
  then
    sequence <- positionalLoop ruleType params len 1 [] ;;
    nextValue <- evaluateNextValue sequence ruleType params (Z.of_nat len + 1) ;;
    Ok (Gen.make sequence nextValue)
  else
    let startVals :=
      startingValues
        ?? (option_map (map Num) (Params.startingValues params) ?? [ofZ 1]) in
    let sequence := firstn (Nat.min (length startVals) len) startVals in
    sequence <- fillLoop ruleType params (len - length sequence) sequence ;;
    nextValue <- evaluateNextValue sequence ruleType params (Z.of_nat len + 1) ;;
    Ok (Gen.make sequence nextValue).

(** [for (let i = 0; i < count; i++) sequences.push(body(i))]: the bodies
    run in order and the first exception ends the loop. *)
Fixpoint collect {A : Type} (body : nat -> result A) (steps i : nat)
    : result (list A) :=
  match steps with
  | O => Ok []
  | S steps' =>
      v <- body i ;;
      rest <- collect body steps' (S i) ;;
      Ok (v :: rest)
  end.

(** [arr.map((v, idx) => f(v, idx))] *)
Fixpoint mapi_from {A B : Type} (f : A -> nat -> B) (idx : nat) (l : list A)
    : list B :=
  match l with
  | [] => []
  | v :: rest => f v idx :: mapi_from f (S idx) rest
  end.

Definition mapi {A B : Type} (f : A -> nat -> B) (l : list A) : list B :=
  mapi_from f 0 l.

Definition Qnat (n : nat) : Q := inject_Z (Z.of_nat n).

(** [v + (i * (idx + 1) * 2)] *)
Definition vary (i : nat) (v : Q) (idx : nat) : Q :=
  (v + Qnat i * (Qnat idx + 1) * 2)%Q.

Definition generateMultipleSequences (ruleType : RuleProgramType)
    (params : Params.t) (count len : nat) : result (list Gen.t) :=
  match ruleType with
  | POSITIONAL_FORMULA =>
      collect (fun i =>
        let modifiedParams :=
          Params.with_c params ((Params.c params ?? 0) + Qnat i * 3)%Q in
        generateSequence ruleType modifiedParams len None) count 0
  | CUBIC_POSITIONAL =>
      collect (fun i =>
        let modifiedParams :=
          Params.with_cubicD params ((Params.cubicD params ?? 0) + Qnat i * 5)%Q in
        generateSequence ruleType modifiedParams len None) count 0
  | POWER_BASED =>
      collect (fun i =>
        let modifiedParams :=
          match Params.powerType params with
          | Some n_squared_plus =>
              Params.with_base params ((Params.base params ?? 0) + Qnat i * 2)%Q
          | _ =>
              Params.with_base params ((Params.base params ?? 2) + Qnat i)%Q
          end in
        generateSequence ruleType modifiedParams len None) count 0
  | _ =>
      let baseStartValues := Params.startingValues params ?? [1%Q] in
      collect (fun i =>
        let variedStart := mapi (vary i) baseStartValues in
        generateSequence ruleType params len (Some (map Num variedStart)))
        count 0
  end.

(** [arr.every((val, idx) => f(val, idx))] *)
Fixpoint everyi_from {A : Type} (f : A -> nat -> bool) (idx : nat) (l : list A)
    : bool :=
  match l with
  | [] => true
  | val :: rest => f val idx && everyi_from f (S idx) rest
  end.

Definition verifySequence (sequence : list number) (expectedNext : number)
    (ruleType : RuleProgramType) (params : Params.t) : result bool :=
  let len := length sequence in
  generated <- generateSequence ruleType params len (Some (firstn 3 sequence)) ;;
  let sequenceMatches :=
    everyi_from
      (fun val idx =>
         strictEq (nth_error (Gen.sequence generated) idx) (Some val))
      0 sequence in
  let nextMatches := nseq (Gen.nextValue generated) expectedNext in
  Ok (sequenceMatches && nextMatches).

(* ================================================================== *)
(** ** validation.ts *)
(* ================================================================== *)

Definition MIN_VALUE : number := ofZ (-999).
Definition MAX_VALUE : number := ofZ 999.
Definition MIN_SEQUENCE_LENGTH : nat := 4%nat.

(** The names the ambiguity check gives to its four detectors. *)
Inductive method : Type :=
| quadratic
| constant_diff
| constant_ratio
| alternating.

(** The error and warning strings.  Each constructor is one message
    template of the source and carries the values the template
    interpolates (sequence and term numbers are the 1-based numbers that
    appear in the text). *)
Inductive message : Type :=
| NoSequences
    (* 'No sequences provided' *)
| SequenceTooShort (seqNo : nat)
    (* `Sequence ${i + 1} has fewer than ${MIN_SEQUENCE_LENGTH} terms` *)
| TermNotInteger (seqNo termNo : nat) (val : number)
    (* `Sequence ${i + 1}, term ${j + 1} is not an integer: ${val}` *)
| TermOutOfBounds (seqNo termNo : nat) (val : number)
    (* `Sequence ${i + 1}, term ${j + 1} is out of bounds: ${val}` *)
| AnswersCountMismatch
    (* 'Answers count does not match sequences count' *)
| AnswerNotInteger (ansNo : nat) (ans : number)
    (* `Answer ${i + 1} is not an integer: ${ans}` *)
| AnswerOutOfBounds (ansNo : nat) (ans : number)
    (* `Answer ${i + 1} is out of bounds: ${ans}` *)
| HintsRequired
    (* 'Exactly 2 hints are required' *)
| ExplanationTooShort
    (* 'Explanation is too short or missing' *)
| ConstantDifferenceTooEasy
    (* 'Primary sequence has constant difference - may be too easy' *)
| ConstantRatioTooEasy
    (* 'Primary sequence has constant ratio - may be too easy' *)
| Ambiguous (m : method) (value : number) (intendedAnswer : option number)
    (* `Ambiguous: ${alt.method} pattern predicts ${alt.value} instead of
       ${intendedAnswer} and fits all sequences` *)
| Disambiguated (m : method) (value : number).
    (* `Alternative ${alt.method} pattern predicts ${alt.value} but is
       disambiguated by other sequences` *)

(** [ValidationResult] *)
Module VR.
Record t : Type := make {
  valid : bool;
  errors : list message;
  warnings : list message
}.
End VR.

(** [errors.length === 0] *)
Definition noErrors (errors : list message) : bool :=
  (length errors =? 0)%nat.

Definition outOfBounds (val : number) : bool :=
  nlt val MIN_VALUE || ngt val MAX_VALUE.

(** The inner loop of [validateStructure] over the terms of sequence [i],
    from term [j] on; returns the errors it pushes. *)
Fixpoint termErrors (i j : nat) (terms : list number) : list message :=
  match terms with
  | [] => []
  | val :: rest =>
      (if negb (isInteger val) then [TermNotInteger (i + 1) (j + 1) val] else [])
      ++ (if outOfBounds val then [TermOutOfBounds (i + 1) (j + 1) val] else [])
      ++ termErrors i (S j) rest
  end.

(** The outer loop over the sequences, from sequence [i] on. *)
Fixpoint sequenceErrors (i : nat) (seqs : list (list number)) : list message :=
  match seqs with
  | [] => []
  | seq :: rest =>
      (if (length seq <? MIN_SEQUENCE_LENGTH)%nat
       then [SequenceTooShort (i + 1)] else [])
      ++ termErrors i 0 seq
      ++ sequenceErrors (S i) rest
  end.

(** The loop over the answers, from answer [i] on. *)
Fixpoint answerErrors (i : nat) (answers : list number) : list message :=
  match answers with
  | [] => []
  | ans :: rest =>
      (if negb (isInteger ans) then [AnswerNotInteger (i + 1) ans] else [])
      ++ (if outOfBounds ans then [AnswerOutOfBounds (i + 1) ans] else [])
      ++ answerErrors (S i) rest
  end.

(** The number of UTF-16 code units that the character starting at a byte
    of a UTF-8 encoding contributes to [.length]: one for an ASCII byte and
    for the lead byte of a two- or three-byte character, two for the lead
    byte of a four-byte character (a surrogate pair), none for a
    continuation byte. *)
Definition codeUnits (byte : ascii) : nat :=
  let b := nat_of_ascii byte in
  if (b <? 128)%nat then 1%nat
  else if (b <? 192)%nat then 0%nat
  else if (b <? 240)%nat then 1%nat
  else 2%nat.

(** [s.length] *)
Fixpoint stringLength (s : string) : nat :=
  match s with
  | EmptyString => 0%nat
  | String byte rest => (codeUnits byte + stringLength rest)%nat
  end.

Definition validateStructure (puzzle : Puzzle.t) : VR.t :=
  let errors :=
    (if (length (Puzzle.sequences puzzle) =? 0)%nat
     then [NoSequences]
     else sequenceErrors 0 (Puzzle.sequences puzzle))
    ++ (if negb (length (Puzzle.answers puzzle)
                 =? length (Puzzle.sequences puzzle))%nat
        then [AnswersCountMismatch]
        else answerErrors 0 (Puzzle.answers puzzle))
    ++ (if negb (length (Puzzle.hints puzzle) =? 2)%nat
        then [HintsRequired] else [])
    ++ (if (stringLength (Puzzle.explanation puzzle) <? 10)%nat
        then [ExplanationTooShort] else []) in
  VR.make (noErrors errors) errors [].

(** The result of [fitQuadratic]; [coefficients] is [(a, b, c)]. *)
Module Fit.
Record t : Type := make {
  coefficients : number * number * number;
  nextValue : number;
  error : number
}.
End Fit.

(** The eight accumulators of the least-squares loop. *)
Record Sums : Type := mkSums {
  sumX0 : number; sumX1 : number; sumX2 : number; sumX3 : number;
  sumX4 : number; sumY : number; sumX1Y : number; sumX2Y : number
}.

(** One iteration of the accumulation loop, at index [i] with [y = sequence[i]]. *)
Definition sumsStep (s : Sums) (i : nat) (y : number) : Sums :=
  let x := ofNat (i + 1) in
  let x2 := (x * x)%js in
  let x3 := (x2 * x)%js in
  let x4 := (x3 * x)%js in
  mkSums (sumX0 s + ofZ 1)%js (sumX1 s + x)%js (sumX2 s + x2)%js
         (sumX3 s + x3)%js (sumX4 s + x4)%js (sumY s + y)%js
         (sumX1Y s + x * y)%js (sumX2Y s + x2 * y)%js.

Fixpoint sumsLoop (i : nat) (rest : list number) (s : Sums) : Sums :=
  match rest with
  | [] => s
  | y :: rest' => sumsLoop (S i) rest' (sumsStep s i y)
  end.

(** The loop that accumulates the absolute fit error. *)
Fixpoint errorLoop (a b c : number) (i : nat) (rest : list number)
    (error : number) : number :=
  match rest with
  | [] => error
  | y :: rest' =>
      let x := ofNat (i + 1) in
      let predicted := (a * x * x + b * x + c)%js in
      errorLoop a b c (S i) rest' (error + nabs (y - predicted))%js
  end.

Definition fitQuadratic (sequence : list number) : Fit.t :=
  let n := ofNat (length sequence) in
  let s := sumsLoop 0 sequence
             (mkSums (ofZ 0) (ofZ 0) (ofZ 0) (ofZ 0) (ofZ 0) (ofZ 0) (ofZ 0) (ofZ 0)) in
  let sumX0 := sumX0 s in let sumX1 := sumX1 s in let sumX2 := sumX2 s in
  let sumX3 := sumX3 s in let sumX4 := sumX4 s in let sumY := sumY s in
  let sumX1Y := sumX1Y s in let sumX2Y := sumX2Y s in
  let det :=
    (sumX0 * (sumX2 * sumX4 - sumX3 * sumX3) -
     sumX1 * (sumX1 * sumX4 - sumX3 * sumX2) +
     sumX2 * (sumX1 * sumX3 - sumX2 * sumX2))%js in
  if nlt (nabs det) (Num (1 # 10000000000))
  then
    let first := toNumber (at_index sequence 0) in
    let last := toNumber (fromEnd sequence 1) in
    let linearSlope := ((last - first) / (n - ofZ 1))%js in
    let linearIntercept := (first - linearSlope)%js in
    Fit.make (ofZ 0, linearSlope, linearIntercept)
             (nround (first + linearSlope * n)%js)
             (Inf false)
  else
    let detC :=
      (sumY * (sumX2 * sumX4 - sumX3 * sumX3) -
       sumX1 * (sumX1Y * sumX4 - sumX3 * sumX2Y) +
       sumX2 * (sumX1Y * sumX3 - sumX2 * sumX2Y))%js in
    let detB :=
      (sumX0 * (sumX1Y * sumX4 - sumX3 * sumX2Y) -
       sumY * (sumX1 * sumX4 - sumX3 * sumX2) +
       sumX2 * (sumX1 * sumX2Y - sumX1Y * sumX2))%js in
    let detA :=
      (sumX0 * (sumX2 * sumX2Y - sumX1Y * sumX3) -
       sumX1 * (sumX1 * sumX2Y - sumX1Y * sumX2) +
       sumY * (sumX1 * sumX3 - sumX2 * sumX2))%js in
    let c := (detC / det)%js in
    let b := (detB / det)%js in
    let a := (detA / det)%js in
    let error := errorLoop a b c 0 sequence (ofZ 0) in
    let nextX := (n + ofZ 1)%js in
    let nextValue := nround (a * nextX * nextX + b * nextX + c)%js in
    Fit.make (a, b, c) nextValue (error / n)%js.

(** [differences.push(sequence[i] - sequence[i - 1])] for [i = 1 ..] *)
Fixpoint differencesOf (sequence : list number) : list number :=
  match sequence with
  | [] => []
  | earlier :: rest =>
      match rest with
      | [] => []
      | later :: _ => (later - earlier)%js :: differencesOf rest
      end
  end.

(** [ratios.push(sequence[i] / sequence[i - 1])] for [i = 1 ..] *)
Fixpoint ratiosOf (sequence : list number) : list number :=
  match sequence with
  | [] => []
  | earlier :: rest =>
      match rest with
      | [] => []
      | later :: _ => (later / earlier)%js :: ratiosOf rest
      end
  end.

(** [ds.every((d) => d === ds[0])] *)
Definition allSameAsFirst (ds : list number) : bool :=
  forallb (fun d => nseq d (toNumber (nth_error ds 0))) ds.

Module ConstDiff.
Record t : Type := make {
  isConstant : bool;
  difference : option number;
  nextValue : option number
}.
End ConstDiff.

Definition checkConstantDifference (sequence : list number) : ConstDiff.t :=
  if (length sequence <? 2)%nat
  then ConstDiff.make false None None
  else
    let differences := differencesOf sequence in
    let allSame := allSameAsFirst differences in
    if allSame
    then
      let d0 := toNumber (nth_error differences 0) in
      ConstDiff.make true (Some d0)
        (Some (toNumber (fromEnd sequence 1) + d0)%js)
    else ConstDiff.make false None None.

Module ConstRatio.
Record t : Type := make {
  isConstant : bool;
  ratio : option number;
  nextValue : option number
}.
End ConstRatio.

(** The tolerance [0.0001] of the ratio comparison. *)
Definition ratioTolerance : number := Num (1 # 10000).

Definition checkConstantRatio (sequence : list number) : ConstRatio.t :=
  if (length sequence <? 2)%nat || existsb (fun v => nseq v (ofZ 0)) sequence
  then ConstRatio.make false None None
  else
    let ratios := ratiosOf sequence in
    let r0 := toNumber (nth_error ratios 0) in
    let allSame :=
      forallb (fun r => nlt (nabs (r - r0)%js) ratioTolerance) ratios in
    if allSame && isInteger (nround r0)
    then
      let ratio := nround r0 in
      ConstRatio.make true (Some ratio)
        (Some (toNumber (fromEnd sequence 1) * ratio)%js)
    else ConstRatio.make false None None.

(** [checkConstantRatio] over the arithmetic of the host: the division,
    the subtraction and the multiplication of two numbers, and the value of
    the literal [0.0001], are parameters.  What is proved of it for every
    choice of them holds of the source whatever each operation rounds to.
    The zero test, [Math.abs], [<], [Math.round] and [Number.isInteger] do
    not round and are the ones above. *)
Section HostArithmetic.

Variables divide subtract multiply : number -> number -> number.
Variable tolerance : number.

(** [ratios.push(sequence[i] / sequence[i - 1])] for [i = 1 ..] *)
Fixpoint ratiosWith (sequence : list number) : list number :=
  match sequence with
  | [] => []
  | earlier :: rest =>
      match rest with
      | [] => []
      | later :: _ => divide later earlier :: ratiosWith rest
      end
  end.

Definition checkConstantRatioWith (sequence : list number) : ConstRatio.t :=
  if (length sequence <? 2)%nat || existsb (fun v => nseq v (ofZ 0)) sequence
  then ConstRatio.make false None None
  else
    let ratios := ratiosWith sequence in
    let r0 := toNumber (nth_error ratios 0) in
    let allSame :=
      forallb (fun r => nlt (nabs (subtract r r0)) tolerance) ratios in
    if allSame && isInteger (nround r0)
    then
      let ratio := nround r0 in
      ConstRatio.make true (Some ratio)
        (Some (multiply (toNumber (fromEnd sequence 1)) ratio))
    else ConstRatio.make false None None.

End HostArithmetic.

(** [arr.filter((_, i) => keep(i))] *)
Fixpoint filteri_from {A : Type} (keep : nat -> bool) (i : nat) (l : list A)
    : list A :=
  match l with
  | [] => []
  | v :: rest =>
      if keep i then v :: filteri_from keep (S i) rest
      else filteri_from keep (S i) rest
  end.

Module Alt.
Record t : Type := make {
  isAlternating : bool;
  pattern : option (number * number);  (* addValue, subtractValue *)
  nextValue : option number
}.
End Alt.

Definition checkAlternatingPattern (sequence : list number) : Alt.t :=
  if (length sequence <? 4)%nat
  then Alt.make false None None
  else
    let differences := differencesOf sequence in
    let evenDiffs := filteri_from (fun i => (i mod 2 =? 0)%nat) 0 differences in
    let oddDiffs := filteri_from (fun i => (i mod 2 =? 1)%nat) 0 differences in
    let evenAllSame := allSameAsFirst evenDiffs in
    let oddAllSame := allSameAsFirst oddDiffs in
    if evenAllSame && oddAllSame
       && strictNe (nth_error evenDiffs 0) (nth_error oddDiffs 0)
    then
      let nextDiffIndex := length differences in
      let nextDiff :=
        if (nextDiffIndex mod 2 =? 0)%nat
        then toNumber (nth_error evenDiffs 0)
        else toNumber (nth_error oddDiffs 0) in
      Alt.make true
        (Some (nmax (toNumber (nth_error evenDiffs 0)) (toNumber (nth_error oddDiffs 0)),
               nmin (toNumber (nth_error evenDiffs 0)) (toNumber (nth_error oddDiffs 0))))
        (Some (toNumber (fromEnd sequence 1) + nextDiff)%js)
    else Alt.make false None None.

(** [validateDifficulty].  Reading [.length] of a missing primary sequence
    raises a TypeError. *)
Definition validateDifficulty (puzzle : Puzzle.t) : result VR.t :=
  match nth_error (Puzzle.sequences puzzle) (Puzzle.primarySequenceIndex puzzle) with
  | None => Throw TypeError
  | Some primarySeq =>
      let primaryAnswer :=
        nth_error (Puzzle.answers puzzle) (Puzzle.primarySequenceIndex puzzle) in
      let errors : list message := [] in
      let constDiff := checkConstantDifference primarySeq in
      let warnings1 :=
        if ConstDiff.isConstant constDiff
        then (if strictEq (ConstDiff.nextValue constDiff) primaryAnswer
              then [ConstantDifferenceTooEasy] else [])
        else [] in
      let constRatio := checkConstantRatio primarySeq in
      let warnings2 :=
        if ConstRatio.isConstant constRatio
           && strictEq (ConstRatio.nextValue constRatio) primaryAnswer
        then [ConstantRatioTooEasy] else [] in
      Ok (VR.make (noErrors errors) errors (warnings1 ++ warnings2))
  end.

(** An entry of the local [alternatives] array. *)
Module Alternative.
Record t : Type := make { method_ : method; value : number }.
End Alternative.

(** The competing predictions that differ from the intended answer, in the
    order the source pushes them. *)
Definition alternativesOf (primarySeq : list number)
    (intendedAnswer : option number) : list Alternative.t :=
  let quadFit := fitQuadratic primarySeq in
  let constDiff := checkConstantDifference primarySeq in
  let constRatio := checkConstantRatio primarySeq in
  let altPattern := checkAlternatingPattern primarySeq in
  (if nlt (Fit.error quadFit) (Num (1 # 2))
      && strictNe (Some (Fit.nextValue quadFit)) intendedAnswer
   then [Alternative.make quadratic (Fit.nextValue quadFit)] else [])
  ++ (if ConstDiff.isConstant constDiff
         && strictNe (ConstDiff.nextValue constDiff) intendedAnswer
      then [Alternative.make constant_diff (toNumber (ConstDiff.nextValue constDiff))]
      else [])
  ++ (if ConstRatio.isConstant constRatio
         && strictNe (ConstRatio.nextValue constRatio) intendedAnswer
      then [Alternative.make constant_ratio (toNumber (ConstRatio.nextValue constRatio))]
      else [])
  ++ (if Alt.isAlternating altPattern
         && strictNe (Alt.nextValue altPattern) intendedAnswer
      then [Alternative.make alternating (toNumber (Alt.nextValue altPattern))]
      else []).

(** The test that sets [fitsAllSequences = false] for one sequence and its
    stated answer [actualAnswer = puzzle.answers[i]]. *)
Definition disagrees (m : method) (seq : list number)
    (actualAnswer : option number) : bool :=
  match m with
  | quadratic =>
      let fit := fitQuadratic seq in
      ngt (nabs (Fit.nextValue fit - toNumber actualAnswer)%js) (Num (1 # 2))
  | constant_diff =>
      let check := checkConstantDifference seq in
      negb (ConstDiff.isConstant check)
      || strictNe (ConstDiff.nextValue check) actualAnswer
  | constant_ratio =>
      let check := checkConstantRatio seq in
      negb (ConstRatio.isConstant check)
      || strictNe (ConstRatio.nextValue check) actualAnswer
  | alternating =>
      let check := checkAlternatingPattern seq in
      negb (Alt.isAlternating check)
      || strictNe (Alt.nextValue check) actualAnswer
  end.

(** The inner loop [for (let i = 0; i < puzzle.sequences.length; i++)] with
    its [break], from sequence [i] on; returns the final [fitsAllSequences]. *)
Fixpoint fitsAllSequences (m : method) (answers : list number) (i : nat)
    (seqs : list (list number)) : bool :=
  match seqs with
  | [] => true
  | seq :: rest =>
      if disagrees m seq (nth_error answers i)
      then false
      else fitsAllSequences m answers (S i) rest
  end.

(** The loop [for (const alt of alternatives)]: the errors and warnings it
    pushes. *)
Fixpoint judgeAlternatives (puzzle : Puzzle.t) (intendedAnswer : option number)
    (alternatives : list Alternative.t) : list message * list message :=
  match alternatives with
  | [] => ([], [])
  | alt :: rest =>
      let (errors, warnings) := judgeAlternatives puzzle intendedAnswer rest in
      if fitsAllSequences (Alternative.method_ alt) (Puzzle.answers puzzle) 0
           (Puzzle.sequences puzzle)
      then (Ambiguous (Alternative.method_ alt) (Alternative.value alt)
              intendedAnswer :: errors, warnings)
      else (errors,
            Disambiguated (Alternative.method_ alt) (Alternative.value alt)
              :: warnings)
  end.

(** [validateAmbiguity].  [fitQuadratic] reads [.length] of the primary
    sequence first, which raises a TypeError when it is missing. *)
Definition validateAmbiguity (puzzle : Puzzle.t) : result VR.t :=
  match nth_error (Puzzle.sequences puzzle) (Puzzle.primarySequenceIndex puzzle) with
  | None => Throw TypeError
  | Some primarySeq =>
      let intendedAnswer :=
        nth_error (Puzzle.answers puzzle) (Puzzle.primarySequenceIndex puzzle) in
      let alternatives := alternativesOf primarySeq intendedAnswer in
      let (errors, warnings) :=
        if (0 <? length alternatives)%nat
        then judgeAlternatives puzzle intendedAnswer alternatives
        else ([], []) in
      Ok (VR.make (noErrors errors) errors warnings)
  end.

Definition validatePuzzle (puzzle : Puzzle.t) : result VR.t :=
  let structureResult := validateStructure puzzle in
  if VR.valid structureResult
  then
    difficultyResult <- validateDifficulty puzzle ;;
    ambiguityResult <- validateAmbiguity puzzle ;;
    let allErrors :=
      VR.errors structureResult ++ VR.errors difficultyResult
      ++ VR.errors ambiguityResult in
    let allWarnings :=
      VR.warnings structureResult ++ VR.warnings difficultyResult
      ++ VR.warnings ambiguityResult in
    Ok (VR.make (noErrors allErrors) allErrors allWarnings)
  else
    Ok (VR.make (noErrors (VR.errors structureResult))
                (VR.errors structureResult) (VR.warnings structureResult)).

(* ================================================================== *)
(** ** puzzle-generator.ts *)
(* ================================================================== *)

Definition SEQUENCE_LENGTH : nat := 5%nat.
Definition NUM_SEQUENCES : nat := 5%nat.
Definition MAX_GENERATION_ATTEMPTS : nat := 20%nat.

Definition ints (l : list Z) : list number := map ofZ l.
Definition starts (l : list Z) : option (list Q) := Some (map inject_Z l).

Definition FALLBACK_PUZZLES : list Puzzle.t :=
  [ Puzzle.make SECOND_ORDER_CONSTANT
      (Params.with_startingValues
         (Params.with_secondDifference Params.empty 3) (starts [2; 5]))
      ["DIFFERENCES"; "SECOND_ORDER"; "INCREASING"]%string
      [ints [2; 5; 11; 20; 32]; ints [1; 4; 10; 19; 31]; ints [3; 7; 14; 24; 37];
       ints [0; 3; 9; 18; 30]; ints [5; 9; 16; 26; 39]]
      (ints [47; 46; 53; 45; 55])
      0%nat
      ["This pattern only uses addition, but the amount added changes each time.";
       "The amount you add increases by the same number each step."]%string
      "Each term adds an increasing amount. The differences are 3, 6, 9, 12, 15... (increasing by 3 each time). Next difference is 15, so 32 + 15 = 47."%string;
    Puzzle.make FIBONACCI_LIKE
      (Params.with_startingValues
         (Params.with_prev2Multiplier
            (Params.with_prevMultiplier Params.empty 1) 2) (starts [1; 3]))
      ["RECURSIVE"; "FIBONACCI"; "INCREASING"]%string
      [ints [1; 3; 5; 11; 21]; ints [2; 4; 8; 16; 32]; ints [1; 2; 4; 7; 13];
       ints [3; 5; 11; 21; 43]; ints [2; 3; 7; 13; 27]]
      (ints [43; 64; 24; 85; 53])
      0%nat
      ["This uses addition and multiplication. Each number is calculated from the two before it.";
       "Try: current number + (2 × the number before that)."]%string
      "Each term equals the previous term plus twice the term before that: next = prev + 2×prev2. So 21 + (2×11) = 21 + 22 = 43."%string;
    Puzzle.make ALTERNATING_OPS
      (Params.with_startingValues
         (Params.with_operations Params.empty
            [Op.make Op.multiply 2; Op.make Op.add 3]) (starts [1]))
      ["ALTERNATING"; "MIXED_SIGNS"]%string
      [ints [1; 2; 5; 10; 13]; ints [2; 4; 7; 14; 17]; ints [3; 6; 9; 18; 21];
       ints [4; 8; 11; 22; 25]; ints [5; 10; 13; 26; 29]]
      (ints [26; 34; 42; 50; 58])
      0%nat
      ["This uses both multiplication and addition, alternating between them.";
       "First multiply by 2, then add 3, then multiply by 2, then add 3..."]%string
      "The sequence alternates: ×2, +3, ×2, +3... So 13 × 2 = 26."%string;
    Puzzle.make POSITIONAL_FORMULA
      (Params.with_c (Params.with_b (Params.with_a Params.empty 1) 2) (-1))
      ["POLYNOMIAL"; "POSITIONAL"; "INCREASING"]%string
      [ints [2; 7; 14; 23; 34]; ints [5; 10; 17; 26; 37]; ints [8; 13; 20; 29; 40];
       ints [11; 16; 23; 32; 43]; ints [14; 19; 26; 35; 46]]
      (ints [47; 50; 53; 56; 59])
      0%nat
      ["Each term is calculated using its position (1st, 2nd, 3rd...). Uses multiplication and addition.";
       "The formula involves squaring the position number."]%string
      "The nth term equals n² + 2n - 1. For position 6: 36 + 12 - 1 = 47."%string;
    Puzzle.make LINEAR_DIFF
      (Params.with_startingValues
         (Params.with_diffIncrement
            (Params.with_initialDiff Params.empty 5) 4) (starts [3]))
      ["DIFFERENCES"; "INCREASING"]%string
      [ints [3; 8; 17; 30; 47]; ints [1; 6; 15; 28; 45]; ints [5; 10; 19; 32; 49];
       ints [2; 7; 16; 29; 46]; ints [7; 12; 21; 34; 51]]
      (ints [68; 66; 70; 67; 72])
      0%nat
      ["This only uses addition. Calculate what you add each time to get to the next number.";
       "The differences between terms are: 5, 9, 13, 17... See the pattern?"]%string
      "The differences are 5, 9, 13, 17, 21 (increasing by 4 each time). Next difference is 21, so 47 + 21 = 68."%string
  ].

(** [PuzzleGenerationResponse], what the proposal source returns. *)
Module Response.
Record t : Type := make {
  ruleProgramType : RuleProgramType;
  ruleProgramParams : Params.t;
  tags : list string;
  hints : list string;
  explanation : string;
  suggestedStartingValues : option (list (list Q))
}.
End Response.

Definition needsStartingValues (ruleType : RuleProgramType) : bool :=
  negb (isPositional ruleType).

(** [while (startingValueSets.length < NUM_SEQUENCES) { ... push(variation) }],
    with [steps] iterations left. *)
Fixpoint padStartingValueSets (baseValues : list Q) (steps : nat)
    (startingValueSets : list (list Q)) : list (list Q) :=
  match steps with
  | O => startingValueSets
  | S steps' =>
      let variation := mapi (vary (length startingValueSets + 1)) baseValues in
      padStartingValueSets baseValues steps' (startingValueSets ++ [variation])
  end.

Definition buildPuzzleFromAIResponse (response : Response.t) : result Puzzle.t :=
  let ruleProgramType := Response.ruleProgramType response in
  let ruleProgramParams := Response.ruleProgramParams response in
  let startingValueSets := Response.suggestedStartingValues response ?? [] in
  let startingValueSets :=
    if (length startingValueSets <? NUM_SEQUENCES)%nat
    then
      let baseValues := Params.startingValues ruleProgramParams ?? [1%Q] in
      padStartingValueSets baseValues
        (NUM_SEQUENCES - length startingValueSets) startingValueSets
    else startingValueSets in
  generatedSequences <-
    generateMultipleSequences ruleProgramType ruleProgramParams
      NUM_SEQUENCES SEQUENCE_LENGTH ;;
  if needsStartingValues ruleProgramType
  then
    generatedList <-
      collect (fun i =>
        let startVals :=
          match nth_error startingValueSets i with
          | Some vals => Some vals
          | None => nth_error startingValueSets 0
          end in
        let paramsWithStart :=
          Params.with_startingValues ruleProgramParams startVals in
        several <-
          generateMultipleSequences ruleProgramType paramsWithStart
            1 SEQUENCE_LENGTH ;;
        match several with
        | generated :: _ => Ok generated
        | [] => Throw TypeError
        end) NUM_SEQUENCES 0 ;;
    Ok (Puzzle.make ruleProgramType ruleProgramParams (Response.tags response)
          (map Gen.sequence generatedList) (map Gen.nextValue generatedList)
          0%nat (Response.hints response) (Response.explanation response))
  else
    Ok (Puzzle.make ruleProgramType ruleProgramParams (Response.tags response)
          (map Gen.sequence generatedSequences)
          (map Gen.nextValue generatedSequences)
          0%nat (Response.hints response) (Response.explanation response)).

(** ToInt32: the value of a number as a signed 32-bit integer. *)
Definition toInt32 (z : Z) : Z := (z + 2 ^ 31) mod 2 ^ 32 - 2 ^ 31.

(** [dateKey.charCodeAt(i)] *)
Definition charCode (ch : ascii) : Z := Z.of_nat (nat_of_ascii ch).

(** One iteration of the hashing loop. *)
Definition hashStep (hash : Z) (ch : ascii) : Z :=
  let char := charCode ch in
  let hash := toInt32 (Z.shiftl (toInt32 hash) 5) - hash + char in
  toInt32 (Z.land (toInt32 hash) (toInt32 hash)).

Fixpoint hashLoop (hash : Z) (dateKey : string) : Z :=
  match dateKey with
  | EmptyString => hash
  | String ch rest => hashLoop (hashStep hash ch) rest
  end.

(** [hashDateToIndex]; [max] is positive at its only call site. *)
Definition hashDateToIndex (dateKey : string) (max : Z) : Z :=
  let hash := hashLoop 0 dateKey in
  Z.rem (Z.abs hash) max.

(** The lines the orchestrator writes to the console. *)
Inductive LogEntry : Type :=
| LogUsingFallback (attempt : nat)
    (* `Using fallback puzzle after ${attempt} failed attempts` *)
| LogValidationFailed (attemptNo : nat) (errors : list message)
    (* `Puzzle validation failed (attempt ${attempt + 1}):`, validation.errors *)
| LogWarnings (warnings : list message)
    (* 'Puzzle warnings:', validation.warnings *)
| LogGenerationError (attemptNo : nat) (error : thrown).
    (* `Puzzle generation error (attempt ${attempt + 1}):`, error *)

(** What the orchestrator changes outside itself: the number of calls it
    has made to the proposal source and the console. *)
Record World : Type := mkWorld {
  proposals : nat;
  console : list LogEntry
}.

Definition say (entry : LogEntry) (w : World) : World :=
  mkWorld (proposals w) (console w ++ [entry]).

Definition called (w : World) : World :=
  mkWorld (S (proposals w)) (console w).

Definition freshWorld : World := mkWorld 0 [].

(** The proposal source [generatePuzzleWithAI]: the outcome of its [k]-th
    call (counted from 0), a response or a rejection. *)
Definition ProposalSource : Type := nat -> result Response.t.

(** The value [generatePuzzle] resolves to. *)
Module Generated.
Record t : Type := make { puzzle : option Puzzle.t; isFallback : bool }.
End Generated.

(** The body of the [try] block up to and including validation. *)
Definition tryAttempt (generatePuzzleWithAI : ProposalSource) (w : World)
    : result (Puzzle.t * VR.t) :=
  aiResponse <- generatePuzzleWithAI (proposals w) ;;
  puzzle <- buildPuzzleFromAIResponse aiResponse ;;
  validation <- validatePuzzle puzzle ;;
  Ok (puzzle, validation).

(** [generatePuzzle] with [budget = MAX_GENERATION_ATTEMPTS - attempt], the
    number of attempts left before the guard [attempt >= MAX_GENERATION_ATTEMPTS]
    holds. *)
Fixpoint generatePuzzleFrom (generatePuzzleWithAI : ProposalSource)
    (dateKey : string) (budget attempt : nat) (w : World)
    : result Generated.t * World :=
  match budget with
  | O =>
      let w := say (LogUsingFallback attempt) w in
      let fallbackIndex :=
        hashDateToIndex dateKey (Z.of_nat (length FALLBACK_PUZZLES)) in
      (Ok (Generated.make (at_index FALLBACK_PUZZLES fallbackIndex) true), w)
  | S budget' =>
      let tried := tryAttempt generatePuzzleWithAI w in
      let w := called w in
      match tried with
      | Ok (puzzle, validation) =>
          if negb (VR.valid validation)
          then
            generatePuzzleFrom generatePuzzleWithAI dateKey budget' (attempt + 1)
              (say (LogValidationFailed (attempt + 1) (VR.errors validation)) w)
          else
            let w :=
              if (0 <? length (VR.warnings validation))%nat
              then say (LogWarnings (VR.warnings validation)) w else w in
            (Ok (Generated.make (Some puzzle) false), w)
      | Throw error =>
          generatePuzzleFrom generatePuzzleWithAI dateKey budget' (attempt + 1)
            (say (LogGenerationError (attempt + 1) error) w)
      end
  end.

Definition generatePuzzle (generatePuzzleWithAI : ProposalSource)
    (dateKey : string) (attempt : nat) (w : World)
    : result Generated.t * World :=
  generatePuzzleFrom generatePuzzleWithAI dateKey
    (MAX_GENERATION_ATTEMPTS - attempt) attempt w.

(** [createPuzzleFromRule] *)
Definition createPuzzleFromRule (ruleType : RuleProgramType)
    (params : Params.t) (hints : list string) (explanation : string)
    (tags : list string) : result Puzzle.t :=
  sequences <-
    generateMultipleSequences ruleType params NUM_SEQUENCES SEQUENCE_LENGTH ;;
  Ok (Puzzle.make ruleType params tags
        (map Gen.sequence sequences) (map Gen.nextValue sequences)
        0%nat hints explanation).

(* ================================================================== *)
(** ** Notions the properties are stated with *)
(* ================================================================== *)

(** The rolling hash as the design documents word it:
    [hash = hash * 31 + charCode], wrapped to a signed 32-bit integer after
    every character. *)
Fixpoint rollingHash31 (hash : Z) (dateKey : string) : Z :=
  match dateKey with
  | EmptyString => hash
  | String ch rest => rollingHash31 (toInt32 (hash * 31 + charCode ch)) rest
  end.

(** A validation result some validator returned for some puzzle. *)
Inductive Produced : VR.t -> Prop :=
| ByStructure puzzle :
    Produced (validateStructure puzzle)
| ByDifficulty puzzle r :
    validateDifficulty puzzle = Ok r -> Produced r
| ByAmbiguity puzzle r :
    validateAmbiguity puzzle = Ok r -> Produced r
| ByPipeline puzzle r :
    validatePuzzle puzzle = Ok r -> Produced r.

(** The [k]-th element from the end of the sequence so far, a missing one
    taken as 0. *)
Definition termFromEnd (sequence : list number) (k : nat) : number :=
  match fromEnd sequence k with
  | Some v => v
  | None => ofZ 0
  end.

(** The last three elements [(prev, prev2, prev3)], missing ones taken as 0. *)
Definition lastThree (sequence : list number) : number * number * number :=
  (termFromEnd sequence 1, termFromEnd sequence 2, termFromEnd sequence 3).

(** The [k]-th attempt of a proposal source fails: the call rejects, the
    expansion raises, validation raises, or the puzzle is invalid. *)
Definition attemptFails (generatePuzzleWithAI : ProposalSource) (k : nat) : Prop :=
  match generatePuzzleWithAI k with
  | Throw _ => True
  | Ok aiResponse =>
      match buildPuzzleFromAIResponse aiResponse with
      | Throw _ => True
      | Ok puzzle =>
          match validatePuzzle puzzle with
          | Throw _ => True
          | Ok validation => VR.valid validation = false
          end
      end
  end.

(* ================================================================== *)
(** ** Example inputs *)
(* ================================================================== *)

(** The puzzle of the test 'flags truly ambiguous puzzles': one arithmetic
    sequence whose stated answer is 20 instead of 16. *)
Definition ambiguousArithmeticPuzzle : Puzzle.t :=
  Puzzle.make ARITHMETIC_SEQUENCE (Params.with_difference Params.empty 3)
    ["ARITHMETIC"%string]
    [ints [1; 4; 7; 10; 13]] (ints [20]) 0%nat
    ["Hint 1"; "Hint 2"]%string "Wrong explanation"%string.

(** The same sequence with a stated answer that is not an integer, and
    with no stated answer at all. *)
Definition fractionalAnswerPuzzle : Puzzle.t :=
  Puzzle.make ARITHMETIC_SEQUENCE (Params.with_difference Params.empty 3)
    ["ARITHMETIC"%string]
    [ints [1; 4; 7; 10; 13]] [Num (65 # 4)] 0%nat
    ["Hint 1"; "Hint 2"]%string "Wrong explanation"%string.

Definition missingAnswerPuzzle : Puzzle.t :=
  Puzzle.make ARITHMETIC_SEQUENCE (Params.with_difference Params.empty 3)
    ["ARITHMETIC"%string]
    [ints [1; 4; 7; 10; 13]] [] 0%nat
    ["Hint 1"; "Hint 2"]%string "Wrong explanation"%string.

(** A well-formed puzzle, from the structural-validation tests. *)
Definition validPuzzle : Puzzle.t :=
  Puzzle.make ARITHMETIC_SEQUENCE (Params.with_difference Params.empty 3)
    ["ARITHMETIC"; "INCREASING"]%string
    [ints [1; 4; 7; 10; 13]; ints [2; 5; 8; 11; 14]] (ints [16; 17]) 0%nat
    ["Look at the differences"; "Count how much it grows"]%string
    "Each term increases by 3."%string.

(** One four-term sequence and two answers, the first of them out of range. *)
Definition surplusAnswerPuzzle : Puzzle.t :=
  Puzzle.make ARITHMETIC_SEQUENCE (Params.with_difference Params.empty 1)
    ["ARITHMETIC"%string]
    [ints [1; 2; 3; 4]] (ints [5000; 1]) 0%nat
    ["Hint 1"; "Hint 2"]%string "Each term increases by 1."%string.

(** A three-term sequence with two answers. *)
Definition shortSequencePuzzle : Puzzle.t :=
  Puzzle.make ARITHMETIC_SEQUENCE (Params.with_difference Params.empty 1)
    ["ARITHMETIC"%string]
    [ints [1; 2; 3]] (ints [4; 5]) 0%nat
    ["Hint 1"; "Hint 2"]%string "Each term increases by 1."%string.

(** A proposal whose rule kind is none of the fourteen. *)
Definition mysteryResponse : Response.t :=
  Response.make (UNRECOGNIZED "MYSTERY_RULE") Params.empty
    ["ARITHMETIC"%string] ["Hint 1"; "Hint 2"]%string
    "An explanation that is long enough."%string None.

Definition mysterySource : ProposalSource := fun _ => Ok mysteryResponse.

(** A proposal source that is down. *)
Definition failingSource : ProposalSource := fun _ => Throw ProposalFailure.

(** A proposal source that always proposes structurally invalid data: a
    valid rule with a single hint and a short explanation. *)
Definition invalidResponse : Response.t :=
  Response.make ARITHMETIC_SEQUENCE (Params.with_difference Params.empty 3)
    [] ["Only one"%string] "Short"%string None.

Definition invalidSource : ProposalSource := fun _ => Ok invalidResponse.

(** A term or an answer that is not an integer, and one that lies outside
    [-999, 999]. *)
Definition notAnInteger (v : number) : Prop := isInteger v = false.

Definition outsideRange (v : number) : Prop :=
  nlt v (ofZ (-999)) = true \/ nlt (ofZ 999) v = true.

(** The conditions under which the structural check is documented to fail. *)
Definition structurallyViolating (puzzle : Puzzle.t) : Prop :=
  Puzzle.sequences puzzle = []
  \/ (exists seq, In seq (Puzzle.sequences puzzle) /\ (length seq < 4)%nat)
  \/ (exists seq v, In seq (Puzzle.sequences puzzle) /\ In v seq
                    /\ (notAnInteger v \/ outsideRange v))
  \/ (exists v, In v (Puzzle.answers puzzle)
                /\ (notAnInteger v \/ outsideRange v))
  \/ length (Puzzle.answers puzzle) <> length (Puzzle.sequences puzzle)
  \/ length (Puzzle.hints puzzle) <> 2%nat
  \/ (stringLength (Puzzle.explanation puzzle) < 10)%nat.

(** Two ratios agree within the tolerance of the ratio detector. *)
Definition withinTolerance (r r0 : number) : Prop :=
  nlt (nabs (r - r0)%js) ratioTolerance = true.

(** The two seedless inputs: an empty array of starting values. *)
Definition seedlessParams : Params.t :=
  Params.with_startingValues Params.empty (Some []).

(** A finite number. *)
Definition finite (x : number) : Prop := exists q, x = Num q.

(** The warning the ambiguity check issues for a rival prediction. *)
Definition warningFor (alt : Alternative.t) : message :=
  Disambiguated (Alternative.method_ alt) (Alternative.value alt).

(** The operations the alternating rule cycles through. *)
Definition operationsOf (params : Params.t) : list Op.t :=
  Params.operations params ?? defaultOperations.

(** The seed [generateSequence] starts a non-positional sequence from. *)
Definition seedOf (params : Params.t) (startingValues : option (list number))
    : list number :=
  startingValues
    ?? (option_map (map Num) (Params.startingValues params) ?? [ofZ 1]).

(** The terms of the two polynomial rules at position [n]. *)
Definition quadraticTerm (a b c : Q) (n : Z) : Q :=
  (a * inject_Z n * inject_Z n + b * inject_Z n + c)%Q.

Definition cubicTerm (a b c d : Q) (n : Z) : Q :=
  (a * inject_Z n ^ 3 + b * inject_Z n ^ 2 + c * inject_Z n + d)%Q.

(** The sequence of a positional rule whose term at position [n] is
    [term n], with its continuation. *)
Definition positionalSequence (term : Z -> Q) (len : nat) : Gen.t :=
  Gen.make (map (fun j => Num (term (1 + Z.of_nat j))) (seq 0 len))
           (Num (term (Z.of_nat len + 1))).

(** The consecutive differences of a sequence of finite numbers. *)
Fixpoint Qdifferences (qs : list Q) : list Q :=
  match qs with
  | [] => []
  | earlier :: rest =>
      match rest with
      | [] => []
      | later :: _ => (later - earlier)%Q :: Qdifferences rest
      end
  end.

(** The five terms of the quadratic [a*n^2 + b*n + c] at [n = 1 .. 5]. *)
Definition quadraticFive (a b c : Q) : list number :=
  map (fun n => Num (quadraticTerm a b c n)) [1; 2; 3; 4; 5].

(** Call [n] of the proposal source leads to the validated puzzle [puzzle]. *)
Definition attemptYields (generatePuzzleWithAI : ProposalSource) (n : nat)
    (puzzle : Puzzle.t) : Prop :=
  exists aiResponse validation,
    generatePuzzleWithAI n = Ok aiResponse
    /\ buildPuzzleFromAIResponse aiResponse = Ok puzzle
    /\ validatePuzzle puzzle = Ok validation
    /\ VR.valid validation = true.

(** A puzzle of [NUM_SEQUENCES] sequences of [SEQUENCE_LENGTH] terms with
    as many answers, the first sequence being the primary one. *)
Definition fiveByFive (puzzle : Puzzle.t) : Prop :=
  length (Puzzle.sequences puzzle) = NUM_SEQUENCES
  /\ length (Puzzle.answers puzzle) = NUM_SEQUENCES
  /\ (forall seq, In seq (Puzzle.sequences puzzle) ->
        length seq = SEQUENCE_LENGTH)
  /\ Puzzle.primarySequenceIndex puzzle = 0%nat.

(** Every answer of the puzzle continues its sequence under the puzzle's own
    rule and parameters. *)
Definition answersContinue (puzzle : Puzzle.t) : Prop :=
  forall i seq ans,
    nth_error (Puzzle.sequences puzzle) i = Some seq ->
    nth_error (Puzzle.answers puzzle) i = Some ans ->
    evaluateNextValue seq (Puzzle.ruleProgramType puzzle)
      (Puzzle.ruleProgramParams puzzle) (Z.of_nat SEQUENCE_LENGTH + 1)
    = Ok ans.

(** The arithmetic progression [x, x + d, ..., x + n*d], built by repeated
    addition as the rule does. *)
Fixpoint progression (x d : Q) (n : nat) : list Q :=
  match n with
  | O => [x]
  | S n' => x :: progression (x + d)%Q d n'
  end.

(** The starting value sets the builder works with after its padding loop. *)
Definition startingValueSetsOf (response : Response.t) : list (list Q) :=
  let suggested := Response.suggestedStartingValues response ?? [] in
  if (length suggested <? NUM_SEQUENCES)%nat
  then
    padStartingValueSets
      (Params.startingValues (Response.ruleProgramParams response) ?? [1%Q])
      (NUM_SEQUENCES - length suggested) suggested
  else suggested.

(** A proposal that passes validation: a Fibonacci-like rule started at
    [1, 1]. *)
Definition fibonacciResponse : Response.t :=
  Response.make FIBONACCI_LIKE
    (Params.with_startingValues Params.empty (starts [1; 1]))
    ["RECURSIVE"; "FIBONACCI"]%string
    ["Look at the two previous numbers."; "Add them."]%string
    "Each term is the sum of the two terms before it."%string
    None.

(** A source whose first two calls reject and whose later calls propose
    [fibonacciResponse]. *)
Definition recoveringSource : ProposalSource :=
  fun k => if (k <? 2)%nat then Throw ProposalFailure else Ok fibonacciResponse.

(** Whether sequence [i] of catalog entry [n] is reproduced by the entry's
    own rule and parameters: all of them but the third sequence of the
    Fibonacci-like entry and the shifted sequences of the positional
    entry. *)
Definition catalogSequenceVerifies (n i : nat) : bool :=
  match n with
  | 1%nat => negb (i =? 2)%nat
  | 3%nat => (i =? 0)%nat
  | _ => true
  end.

(** The magnitude up to which every integer is a binary64 number, so that
    sums, differences and products of integers that stay within it are
    computed without rounding. *)
Definition SAFE_LIMIT : Z := 2 ^ 53.

(** An integer of magnitude at most [bound]. *)
Definition integerWithin (bound : Z) (v : Q) : bool :=
  Qis_integer v && (Z.abs (Qfloor v) <=? bound).

(** Base starting values whose spread [v + i * (idx + 1) * 2] over [count]
    outputs is computed without rounding: integers that stay within 2^53
    after the largest shift. *)
Definition spreadIsExact (base : list Q) (count : nat) : bool :=
  forallb
    (integerWithin
       (SAFE_LIMIT - 2 * Z.of_nat count * Z.of_nat (length base)))
    base.

(** A number the structural check accepts as a term: an integer within
    [-999, 999]. *)
Definition puzzleValue (y : number) : bool :=
  isInteger y && negb (outOfBounds y).

(** Coefficients for which every product and sum of
    [a * n * n + b * n + (c + 3 * i)], at the positions [n <= len + 1] and
    the outputs [i < count], is an integer within 2^53, so that none of them
    is rounded. *)
Definition quadraticIsExact (a b c : Q) (count len : nat) : bool :=
  let n := Z.of_nat len + 1 in
  Qis_integer a && Qis_integer b && Qis_integer c
  && (Z.abs (Qfloor a) * n * n + Z.abs (Qfloor b) * n + Z.abs (Qfloor c)
      + 3 * Z.of_nat count <=? SAFE_LIMIT).

(** The same for [a * n ** 3 + b * n ** 2 + c * n + (d + 5 * i)]; the
    powers themselves stay within 2^53. *)
Definition cubicIsExact (a b c d : Q) (count len : nat) : bool :=
  let n := Z.of_nat len + 1 in
  Qis_integer a && Qis_integer b && Qis_integer c && Qis_integer d
  && ((Z.abs (Qfloor a) + 1) * n ^ 3 + (Z.abs (Qfloor b) + 1) * n ^ 2
      + Z.abs (Qfloor c) * n + Z.abs (Qfloor d)
      + 5 * Z.of_nat count <=? SAFE_LIMIT).

Definition polynomialIsExact (ruleType : RuleProgramType) (params : Params.t)
    (count len : nat) : bool :=
  match ruleType with
  | POSITIONAL_FORMULA =>
      quadraticIsExact (Params.a params ?? 0%Q) (Params.b params ?? 1%Q)
        (Params.c params ?? 0%Q) count len
  | CUBIC_POSITIONAL =>
      cubicIsExact (Params.cubicA params ?? 0%Q) (Params.cubicB params ?? 0%Q)
        (Params.cubicC params ?? 1%Q) (Params.cubicD params ?? 0%Q) count len
  | _ => false
  end.

(** A starting value and a difference for which the terms
    [v, v + d, ..., v + len * d] and their differences are integers within
    2^53. *)
Definition progressionIsExact (v d : Q) (len : nat) : bool :=
  Qis_integer v && Qis_integer d
  && (Z.abs (Qfloor v) + (Z.of_nat len + 1) * Z.abs (Qfloor d)
      <=? SAFE_LIMIT).

(* ================================================================== *)
(** ** The repository's unit tests, run on the model *)
(* ================================================================== *)

(** evaluators.test.ts *)

Example digitSum_cases :
  digitSum (ofZ 123) = ofZ 6 /\ digitSum (ofZ 999) = ofZ 27
  /\ digitSum (ofZ 0) = ofZ 0 /\ digitSum (ofZ (-123)) = ofZ 6.
Proof. repeat split; vm_compute; reflexivity. Qed.

Example arithmetic_adds_constant_difference :
  evaluateNextValue (ints [1; 4; 7; 10]) ARITHMETIC_SEQUENCE
    (Params.with_difference Params.empty 3) 5 = Ok (ofZ 13).
Proof. vm_compute. reflexivity. Qed.

Example geometric_multiplies_by_ratio :
  evaluateNextValue (ints [2; 6; 18; 54]) GEOMETRIC_SEQUENCE
    (Params.with_ratio Params.empty 3) 5 = Ok (ofZ 162).
Proof. vm_compute. reflexivity. Qed.

Example linear_diff_increases_differences :
  evaluateNextValue (ints [1; 3; 6; 10]) LINEAR_DIFF
    (Params.with_diffIncrement (Params.with_initialDiff Params.empty 2) 1) 5
  = Ok (ofZ 15).
Proof. vm_compute. reflexivity. Qed.

Example second_order_keeps_second_difference :
  evaluateNextValue (ints [1; 2; 5; 10; 17]) SECOND_ORDER_CONSTANT
    (Params.with_secondDifference Params.empty 2) 6 = Ok (ofZ 26).
Proof. vm_compute. reflexivity. Qed.

Example fibonacci_like_weighted_sum :
  evaluateNextValue (ints [1; 2; 5; 12]) FIBONACCI_LIKE
    (Params.with_prev2Multiplier (Params.with_prevMultiplier Params.empty 2) 1) 5
  = Ok (ofZ 29).
Proof. vm_compute. reflexivity. Qed.

Example positional_formula_ignores_sequence :
  evaluateNextValue [] POSITIONAL_FORMULA
    (Params.with_c (Params.with_b (Params.with_a Params.empty 1) 1) 1) 5
  = Ok (ofZ 31).
Proof. vm_compute. reflexivity. Qed.

Example alternating_ops_cycle :
  evaluateNextValue (ints [2; 5; 10; 13]) ALTERNATING_OPS
    (Params.with_operations Params.empty
       [Op.make Op.add 3; Op.make Op.multiply 2]) 5
  = Ok (ofZ 26).
Proof. vm_compute. reflexivity. Qed.

Example power_based_squares_plus_constant :
  evaluateNextValue [] POWER_BASED (Params.with_base Params.empty 3) 5
  = Ok (ofZ 28).
Proof. vm_compute. reflexivity. Qed.

Example generateSequence_fibonacci :
  generateSequence FIBONACCI_LIKE
    (Params.with_startingValues Params.empty (starts [1; 1])) 5 None
  = Ok (Gen.make (ints [1; 1; 2; 3; 5]) (ofZ 8)).
Proof. vm_compute. reflexivity. Qed.

Example generateSequence_squares :
  generateSequence POSITIONAL_FORMULA
    (Params.with_b (Params.with_a Params.empty 1) 0) 4 None
  = Ok (Gen.make (ints [1; 4; 9; 16]) (ofZ 25)).
Proof. vm_compute. reflexivity. Qed.

Example generateMultipleSequences_arithmetic :
  generateMultipleSequences ARITHMETIC_SEQUENCE
    (Params.with_startingValues (Params.with_difference Params.empty 3)
       (starts [1])) 3 4
  = Ok [Gen.make (ints [1; 4; 7; 10]) (ofZ 13);
        Gen.make (ints [3; 6; 9; 12]) (ofZ 15);
        Gen.make (ints [5; 8; 11; 14]) (ofZ 17)].
Proof. vm_compute. reflexivity. Qed.

(** validation.test.ts *)

Example fitQuadratic_linear :
  Fit.nextValue (fitQuadratic (ints [2; 4; 6; 8; 10])) = ofZ 12
  /\ sameValue (fst (fst (Fit.coefficients (fitQuadratic (ints [2; 4; 6; 8; 10])))))
               (ofZ 0)
  /\ sameValue (snd (fst (Fit.coefficients (fitQuadratic (ints [2; 4; 6; 8; 10])))))
               (ofZ 2).
Proof. repeat split; vm_compute; reflexivity. Qed.

Example fitQuadratic_squares :
  Fit.nextValue (fitQuadratic (ints [1; 4; 9; 16; 25])) = ofZ 36
  /\ sameValue (fst (fst (Fit.coefficients (fitQuadratic (ints [1; 4; 9; 16; 25])))))
               (ofZ 1).
Proof. repeat split; vm_compute; reflexivity. Qed.

Example checkConstantDifference_detects :
  checkConstantDifference (ints [1; 4; 7; 10; 13])
  = ConstDiff.make true (Some (ofZ 3)) (Some (ofZ 16))
  /\ ConstDiff.isConstant (checkConstantDifference (ints [1; 2; 4; 8; 16])) = false.
Proof. split; vm_compute; reflexivity. Qed.

Example checkConstantRatio_detects :
  checkConstantRatio (ints [2; 6; 18; 54])
  = ConstRatio.make true (Some (ofZ 3)) (Some (ofZ 162))
  /\ ConstRatio.isConstant (checkConstantRatio (ints [1; 2; 4; 7; 11])) = false
  /\ ConstRatio.isConstant (checkConstantRatio (ints [0; 1; 2; 3])) = false.
Proof. repeat split; vm_compute; reflexivity. Qed.

Example checkAlternatingPattern_detects :
  Alt.isAlternating (checkAlternatingPattern (ints [1; 4; 3; 6; 5])) = true
  /\ Alt.isAlternating (checkAlternatingPattern (ints [1; 2; 4; 8; 16])) = false.
Proof. split; vm_compute; reflexivity. Qed.

Example validateStructure_accepts_valid_puzzle :
  validateStructure validPuzzle = VR.make true [] [].
Proof. vm_compute. reflexivity. Qed.

Example validatePuzzle_accepts_fallbacks :
  map validatePuzzle FALLBACK_PUZZLES
  = [Ok (VR.make true [] []); Ok (VR.make true [] []); Ok (VR.make true [] []);
     Ok (VR.make true [] []); Ok (VR.make true [] [])].
Proof. vm_compute. reflexivity. Qed.

Example hash_of_a_date :
  hashLoop 0 "2024-01-15" = -613341597
  /\ hashDateToIndex "2024-01-15" 5 = 2.
Proof. split; vm_compute; reflexivity. Qed.

(** [.length] counts UTF-16 code units: nine multiplication signs are
    eighteen bytes and nine code units, too short for an explanation; a
    character outside the basic plane counts twice. *)
Example stringLength_counts_code_units :
  stringLength "×××××××××"%string = 9%nat
  /\ stringLength "😀"%string = 2%nat
  /\ stringLength "Each term increases by 3."%string = 25%nat
  /\ VR.errors
       (validateStructure
          (Puzzle.make ARITHMETIC_SEQUENCE
             (Params.with_difference Params.empty 3) ["ARITHMETIC"%string]
             [ints [1; 4; 7; 10; 13]] (ints [16]) 0%nat
             ["Hint 1"; "Hint 2"]%string "×××××××××"%string))
     = [ExplanationTooShort].
Proof. repeat split; vm_compute; reflexivity. Qed.

(* ================================================================== *)
(** ** The fallback hash *)
(* ================================================================== *)

Lemma toInt32_range (z : Z) : - 2 ^ 31 <= toInt32 z < 2 ^ 31.
Proof.
  unfold toInt32.
  pose proof (Z.mod_pos_bound (z + 2 ^ 31) (2 ^ 32) ltac:(lia)). lia.
Qed.

Lemma toInt32_congr (x y : Z) :
  (x - y) mod 2 ^ 32 = 0 -> toInt32 x = toInt32 y.
Proof.
  intros H. unfold toInt32. f_equal.
  apply Z.mod_divide in H; [|lia]. destruct H as [k Hk].
  replace (x + 2 ^ 31) with (y + 2 ^ 31 + k * 2 ^ 32) by lia.
  apply Z.mod_add. lia.
Qed.

Lemma toInt32_diff (z : Z) : exists k, toInt32 z = z + k * 2 ^ 32.
Proof.
  unfold toInt32. exists (- ((z + 2 ^ 31) / 2 ^ 32)).
  pose proof (Z.div_mod (z + 2 ^ 31) (2 ^ 32) ltac:(lia)). lia.
Qed.

Lemma toInt32_idem (z : Z) : toInt32 (toInt32 z) = toInt32 z.
Proof.
  apply toInt32_congr. destruct (toInt32_diff z) as [k Hk].
  replace (toInt32 z - z) with (k * 2 ^ 32) by lia. apply Z.mod_mul. lia.
Qed.

(** One step of the source's loop is one step of the rolling hash. *)
Lemma hashStep_rolling (hash : Z) (ch : ascii) :
  hashStep hash ch = toInt32 (hash * 31 + charCode ch).
Proof.
  unfold hashStep. rewrite Z.land_diag, toInt32_idem.
  apply toInt32_congr. rewrite Z.shiftl_mul_pow2 by lia.
  destruct (toInt32_diff hash) as [k Hk].
  destruct (toInt32_diff (toInt32 hash * 2 ^ 5)) as [j Hj].
  rewrite Hj, Hk.
  replace ((hash + k * 2 ^ 32) * 2 ^ 5 + j * 2 ^ 32 - hash + charCode ch
           - (hash * 31 + charCode ch))
    with ((k * 2 ^ 5 + j) * 2 ^ 32) by lia.
  apply Z.mod_mul. lia.
Qed.

Lemma hashLoop_rolling (dateKey : string) :
  forall hash, hashLoop hash dateKey = rollingHash31 hash dateKey.
Proof.
  induction dateKey as [|ch rest IH]; intros hash; simpl.
  - reflexivity.
  - rewrite hashStep_rolling. apply IH.
Qed.

Lemma hashDateToIndex_bounds (dateKey : string) (max : Z) :
  0 < max -> 0 <= hashDateToIndex dateKey max < max.
Proof.
  intros Hmax. unfold hashDateToIndex.
  apply Z.rem_bound_pos; lia.
Qed.

Lemma catalog_lookup (i : Z) :
  0 <= i < 5 -> exists fallback,
    at_index FALLBACK_PUZZLES i = Some fallback /\ In fallback FALLBACK_PUZZLES.
Proof.
  intros Hi. unfold at_index.
  destruct (i <? 0) eqn:Hneg; [apply Z.ltb_lt in Hneg; lia|].
  destruct (nth_error FALLBACK_PUZZLES (Z.to_nat i)) as [fallback|] eqn:Hnth.
  - exists fallback. split; [reflexivity|]. eapply nth_error_In; eassumption.
  - apply nth_error_None in Hnth. simpl in Hnth. lia.
Qed.

Lemma fallback_selected (dateKey : string) :
  exists fallback,
    at_index FALLBACK_PUZZLES
      (hashDateToIndex dateKey (Z.of_nat (length FALLBACK_PUZZLES)))
    = Some fallback /\ In fallback FALLBACK_PUZZLES.
Proof.
  apply catalog_lookup.
  change (Z.of_nat (length FALLBACK_PUZZLES)) with 5.
  apply hashDateToIndex_bounds. lia.
Qed.

(* ================================================================== *)
(** ** The orchestrator's loop *)
(* ================================================================== *)

(** The source's shape of [generatePuzzle]: the guard, then the attempt. *)
Lemma generatePuzzle_unfold (ai : ProposalSource) (dateKey : string)
    (attempt : nat) (w : World) :
  generatePuzzle ai dateKey attempt w =
  if (MAX_GENERATION_ATTEMPTS <=? attempt)%nat
  then
    (Ok (Generated.make
           (at_index FALLBACK_PUZZLES
              (hashDateToIndex dateKey (Z.of_nat (length FALLBACK_PUZZLES))))
           true),
     say (LogUsingFallback attempt) w)
  else
    match tryAttempt ai w with
    | Ok (puzzle, validation) =>
        if negb (VR.valid validation)
        then generatePuzzle ai dateKey (attempt + 1)
               (say (LogValidationFailed (attempt + 1) (VR.errors validation))
                    (called w))
        else
          (Ok (Generated.make (Some puzzle) false),
           if (0 <? length (VR.warnings validation))%nat
           then say (LogWarnings (VR.warnings validation)) (called w)
           else called w)
    | Throw error =>
        generatePuzzle ai dateKey (attempt + 1)
          (say (LogGenerationError (attempt + 1) error) (called w))
    end.
Proof.
  unfold generatePuzzle.
  destruct (MAX_GENERATION_ATTEMPTS <=? attempt)%nat eqn:Hguard.
  - apply Nat.leb_le in Hguard.
    replace (MAX_GENERATION_ATTEMPTS - attempt)%nat with 0%nat by lia.
    reflexivity.
  - apply Nat.leb_gt in Hguard.
    replace (MAX_GENERATION_ATTEMPTS - attempt)%nat
      with (S (MAX_GENERATION_ATTEMPTS - (attempt + 1)))%nat by lia.
    simpl. destruct (tryAttempt ai w) as [[puzzle validation]|error];
      reflexivity.
Qed.

(** Whatever the proposal source does, the loop returns a puzzle and calls
    the source at most [budget] times. *)
Lemma generatePuzzleFrom_returns (ai : ProposalSource) (dateKey : string) :
  forall budget attempt w,
  exists out w',
    generatePuzzleFrom ai dateKey budget attempt w = (Ok out, w')
    /\ (exists puzzle, Generated.puzzle out = Some puzzle)
    /\ (proposals w <= proposals w' <= proposals w + budget)%nat.
Proof.
  induction budget as [|budget IH]; intros attempt w.
  - destruct (fallback_selected dateKey) as [fallback [Hsel _]].
    cbn [generatePuzzleFrom]. rewrite Hsel. do 2 eexists. split; [reflexivity|].
    split; [eexists; reflexivity|]. simpl. lia.
  - cbn [generatePuzzleFrom]. destruct (tryAttempt ai w) as [[puzzle validation]|error].
    + destruct (negb (VR.valid validation)).
      * destruct (IH (attempt + 1)%nat
                     (say (LogValidationFailed (attempt + 1) (VR.errors validation))
                          (called w)))
          as [out [w' [Hrun [Hpuzzle Hcalls]]]].
        exists out, w'. split; [exact Hrun|]. split; [exact Hpuzzle|].
        simpl in Hcalls. lia.
      * do 2 eexists. split; [reflexivity|]. split; [eexists; reflexivity|].
        destruct (0 <? length (VR.warnings validation))%nat; simpl; lia.
    + destruct (IH (attempt + 1)%nat
                   (say (LogGenerationError (attempt + 1) error) (called w)))
        as [out [w' [Hrun [Hpuzzle Hcalls]]]].
      exists out, w'. split; [exact Hrun|]. split; [exact Hpuzzle|].
      simpl in Hcalls. lia.
Qed.

(** A run that ends on the fallback path returns the catalog entry the
    hash of the date selects. *)
Lemma generatePuzzleFrom_fallback (ai : ProposalSource) (dateKey : string) :
  forall budget attempt w out w',
    generatePuzzleFrom ai dateKey budget attempt w = (Ok out, w') ->
    Generated.isFallback out = true ->
    Generated.puzzle out =
    at_index FALLBACK_PUZZLES
      (hashDateToIndex dateKey (Z.of_nat (length FALLBACK_PUZZLES))).
Proof.
  induction budget as [|budget IH]; intros attempt w out w' Hrun Hfb.
  - cbn [generatePuzzleFrom] in Hrun. inversion Hrun; subst. reflexivity.
  - cbn [generatePuzzleFrom] in Hrun. destruct (tryAttempt ai w) as [[puzzle validation]|error].
    + destruct (negb (VR.valid validation)).
      * eapply IH; eassumption.
      * inversion Hrun; subst. discriminate Hfb.
    + eapply IH; eassumption.
Qed.

(** When every attempt fails the loop uses its whole budget and falls back. *)
Lemma generatePuzzleFrom_all_fail (ai : ProposalSource) (dateKey : string) :
  (forall k, attemptFails ai k) ->
  forall budget attempt w,
  exists w',
    generatePuzzleFrom ai dateKey budget attempt w =
      (Ok (Generated.make
             (at_index FALLBACK_PUZZLES
                (hashDateToIndex dateKey (Z.of_nat (length FALLBACK_PUZZLES))))
             true), w')
    /\ proposals w' = (proposals w + budget)%nat.
Proof.
  intros Hfail. induction budget as [|budget IH]; intros attempt w.
  - cbn [generatePuzzleFrom]. eexists. split; [reflexivity|]. simpl. lia.
  - cbn [generatePuzzleFrom]. specialize (Hfail (proposals w)). unfold attemptFails in Hfail.
    unfold tryAttempt.
    destruct (ai (proposals w)) as [aiResponse|e1]; cbn [bind].
    + destruct (buildPuzzleFromAIResponse aiResponse) as [puzzle|e2]; cbn [bind].
      * destruct (validatePuzzle puzzle) as [validation|e3]; cbn [bind].
        -- rewrite Hfail. cbn [negb].
           destruct (IH (attempt + 1)%nat
                       (say (LogValidationFailed (attempt + 1) (VR.errors validation))
                            (called w))) as [w' [Hrun Hcalls]].
           exists w'. split; [exact Hrun|]. simpl in Hcalls. lia.
        -- destruct (IH (attempt + 1)%nat
                       (say (LogGenerationError (attempt + 1) e3) (called w)))
             as [w' [Hrun Hcalls]].
           exists w'. split; [exact Hrun|]. simpl in Hcalls. lia.
      * destruct (IH (attempt + 1)%nat
                     (say (LogGenerationError (attempt + 1) e2) (called w)))
          as [w' [Hrun Hcalls]].
        exists w'. split; [exact Hrun|]. simpl in Hcalls. lia.
    + destruct (IH (attempt + 1)%nat
                   (say (LogGenerationError (attempt + 1) e1) (called w)))
        as [w' [Hrun Hcalls]].
      exists w'. split; [exact Hrun|]. simpl in Hcalls. lia.
Qed.

Lemma rollingHash31_range (dateKey : string) :
  forall hash, - 2 ^ 31 <= hash < 2 ^ 31 ->
               - 2 ^ 31 <= rollingHash31 hash dateKey < 2 ^ 31.
Proof.
  induction dateKey as [|ch rest IH]; intros hash Hh; simpl.
  - exact Hh.
  - apply IH, toInt32_range.
Qed.

(* ================================================================== *)
(** ** Validation results *)
(* ================================================================== *)

Lemma Produced_valid (r : VR.t) :
  Produced r -> VR.valid r = noErrors (VR.errors r).
Proof.
  intros [puzzle | puzzle r' H | puzzle r' H | puzzle r' H].
  - reflexivity.
  - unfold validateDifficulty in H.
    destruct (nth_error _ _); [|discriminate].
    inversion H; subst. reflexivity.
  - unfold validateAmbiguity in H.
    destruct (nth_error _ _); [|discriminate].
    destruct (if (0 <? _)%nat then _ else _) as [errors warnings].
    inversion H; subst. reflexivity.
  - unfold validatePuzzle in H.
    destruct (VR.valid (validateStructure puzzle)).
    + destruct (validateDifficulty puzzle); [|discriminate].
      destruct (validateAmbiguity puzzle); [|discriminate].
      inversion H; subst. reflexivity.
    + inversion H; subst. reflexivity.
Qed.

Lemma noErrors_true_iff (errors : list message) :
  noErrors errors = true <-> errors = [].
Proof.
  unfold noErrors. destruct errors; simpl; split; intros H;
    try reflexivity; discriminate.
Qed.

(* ================================================================== *)
(** ** The structural check *)
(* ================================================================== *)

Lemma In_if_singleton {A : Type} (cond : bool) (x e : A) :
  In e (if cond then [x] else []) <-> cond = true /\ e = x.
Proof.
  destruct cond; simpl.
  - split.
    + intros [H|[]]. split; [reflexivity|symmetry; exact H].
    + intros [_ H]. left. symmetry. exact H.
  - split; [intros []|intros [H _]; discriminate].
Qed.

Lemma outOfBounds_outsideRange (v : number) :
  outOfBounds v = true <-> outsideRange v.
Proof.
  unfold outOfBounds, outsideRange, ngt, MIN_VALUE, MAX_VALUE.
  apply orb_true_iff.
Qed.

(** The errors of the term loop are exactly the violations of its terms. *)
Lemma termErrors_In (i : nat) :
  forall terms j e,
    In e (termErrors i j terms) <->
    exists k v, nth_error terms k = Some v
      /\ ((isInteger v = false /\ e = TermNotInteger (i + 1) (j + k + 1) v)
          \/ (outOfBounds v = true /\ e = TermOutOfBounds (i + 1) (j + k + 1) v)).
Proof.
  induction terms as [|val rest IH]; intros j e; cbn [termErrors].
  - split; [intros []|]. intros [k [v [H _]]]. destruct k; discriminate.
  - rewrite !in_app_iff, !In_if_singleton, IH, negb_true_iff. split.
    + intros [[Hc He] | [[Hc He] | [k [v [Hn Hcase]]]]].
      * exists 0%nat, val. split; [reflexivity|]. left.
        rewrite Nat.add_0_r. split; assumption.
      * exists 0%nat, val. split; [reflexivity|]. right.
        rewrite Nat.add_0_r. split; assumption.
      * exists (S k), v. split; [exact Hn|].
        replace (j + S k + 1)%nat with (S j + k + 1)%nat by lia. exact Hcase.
    + intros [k [v [Hn Hcase]]]. destruct k as [|k]; cbn [nth_error] in Hn.
      * inversion Hn; subst v. rewrite Nat.add_0_r in Hcase.
        destruct Hcase as [Hcase|Hcase]; [left|right; left]; exact Hcase.
      * right; right. exists k, v. split; [exact Hn|].
        replace (S j + k + 1)%nat with (j + S k + 1)%nat by lia. exact Hcase.
Qed.

Lemma answerErrors_In :
  forall answers i e,
    In e (answerErrors i answers) <->
    exists k v, nth_error answers k = Some v
      /\ ((isInteger v = false /\ e = AnswerNotInteger (i + k + 1) v)
          \/ (outOfBounds v = true /\ e = AnswerOutOfBounds (i + k + 1) v)).
Proof.
  induction answers as [|ans rest IH]; intros i e; cbn [answerErrors].
  - split; [intros []|]. intros [k [v [H _]]]. destruct k; discriminate.
  - rewrite !in_app_iff, !In_if_singleton, IH, negb_true_iff. split.
    + intros [[Hc He] | [[Hc He] | [k [v [Hn Hcase]]]]].
      * exists 0%nat, ans. split; [reflexivity|]. left.
        rewrite Nat.add_0_r. split; assumption.
      * exists 0%nat, ans. split; [reflexivity|]. right.
        rewrite Nat.add_0_r. split; assumption.
      * exists (S k), v. split; [exact Hn|].
        replace (i + S k + 1)%nat with (S i + k + 1)%nat by lia. exact Hcase.
    + intros [k [v [Hn Hcase]]]. destruct k as [|k]; cbn [nth_error] in Hn.
      * inversion Hn; subst v. rewrite Nat.add_0_r in Hcase.
        destruct Hcase as [Hcase|Hcase]; [left|right; left]; exact Hcase.
      * right; right. exists k, v. split; [exact Hn|].
        replace (S i + k + 1)%nat with (i + S k + 1)%nat by lia. exact Hcase.
Qed.

Lemma sequenceErrors_In :
  forall seqs i e,
    In e (sequenceErrors i seqs) <->
    exists k seq, nth_error seqs k = Some seq
      /\ (((length seq <? MIN_SEQUENCE_LENGTH)%nat = true
           /\ e = SequenceTooShort (i + k + 1))
          \/ In e (termErrors (i + k) 0 seq)).
Proof.
  induction seqs as [|seq0 rest IH]; intros i e; cbn [sequenceErrors].
  - split; [intros []|]. intros [k [seq [H _]]]. destruct k; discriminate.
  - rewrite !in_app_iff, In_if_singleton, IH. split.
    + intros [[Hc He] | [Hterm | [k [seq [Hn Hcase]]]]].
      * exists 0%nat, seq0. split; [reflexivity|]. left.
        rewrite Nat.add_0_r. split; assumption.
      * exists 0%nat, seq0. split; [reflexivity|]. right.
        rewrite Nat.add_0_r. exact Hterm.
      * exists (S k), seq. split; [exact Hn|].
        replace (i + S k + 1)%nat with (S i + k + 1)%nat by lia.
        replace (i + S k)%nat with (S i + k)%nat by lia. exact Hcase.
    + intros [k [seq [Hn Hcase]]]. destruct k as [|k]; cbn [nth_error] in Hn.
      * inversion Hn; subst seq. rewrite !Nat.add_0_r in Hcase.
        destruct Hcase as [Hcase|Hcase]; [left|right; left]; exact Hcase.
      * right; right. exists k, seq. split; [exact Hn|].
        replace (S i + k + 1)%nat with (i + S k + 1)%nat by lia.
        replace (S i + k)%nat with (i + S k)%nat by lia. exact Hcase.
Qed.

(** The error list of [validateStructure], part by part. *)
Lemma validateStructure_errors_In (puzzle : Puzzle.t) (e : message) :
  In e (VR.errors (validateStructure puzzle)) <->
  (Puzzle.sequences puzzle = [] /\ e = NoSequences)
  \/ (Puzzle.sequences puzzle <> []
      /\ In e (sequenceErrors 0 (Puzzle.sequences puzzle)))
  \/ (length (Puzzle.answers puzzle) <> length (Puzzle.sequences puzzle)
      /\ e = AnswersCountMismatch)
  \/ (length (Puzzle.answers puzzle) = length (Puzzle.sequences puzzle)
      /\ In e (answerErrors 0 (Puzzle.answers puzzle)))
  \/ (length (Puzzle.hints puzzle) <> 2%nat /\ e = HintsRequired)
  \/ ((stringLength (Puzzle.explanation puzzle) < 10)%nat
      /\ e = ExplanationTooShort).
Proof.
  unfold validateStructure. cbn [VR.errors].
  rewrite !in_app_iff.
  assert (H1 : In e (if (length (Puzzle.sequences puzzle) =? 0)%nat
                     then [NoSequences]
                     else sequenceErrors 0 (Puzzle.sequences puzzle))
               <-> (Puzzle.sequences puzzle = [] /\ e = NoSequences)
                   \/ (Puzzle.sequences puzzle <> []
                       /\ In e (sequenceErrors 0 (Puzzle.sequences puzzle)))).
  { destruct (length (Puzzle.sequences puzzle) =? 0)%nat eqn:Hc; simpl.
    - apply Nat.eqb_eq, length_zero_iff_nil in Hc. split.
      + intros [H|[]]. left. split; [exact Hc|symmetry; exact H].
      + intros [[_ H]|[H _]]; [left; symmetry; exact H|contradiction].
    - apply Nat.eqb_neq in Hc.
      assert (Hne : Puzzle.sequences puzzle <> [])
        by (intros Hnil; apply Hc; rewrite Hnil; reflexivity).
      split.
      + intros H. right. split; assumption.
      + intros [[H _]|[_ H]]; [contradiction|exact H]. }
  assert (H2 : In e (if negb (length (Puzzle.answers puzzle)
                              =? length (Puzzle.sequences puzzle))%nat
                     then [AnswersCountMismatch]
                     else answerErrors 0 (Puzzle.answers puzzle))
               <-> (length (Puzzle.answers puzzle) <> length (Puzzle.sequences puzzle)
                    /\ e = AnswersCountMismatch)
                   \/ (length (Puzzle.answers puzzle) = length (Puzzle.sequences puzzle)
                       /\ In e (answerErrors 0 (Puzzle.answers puzzle)))).
  { destruct (length (Puzzle.answers puzzle)
              =? length (Puzzle.sequences puzzle))%nat eqn:Hc; simpl.
    - apply Nat.eqb_eq in Hc. split.
      + intros H. right. split; assumption.
      + intros [[H _]|[_ H]]; [contradiction|exact H].
    - apply Nat.eqb_neq in Hc. split.
      + intros [H|[]]. left. split; [exact Hc|symmetry; exact H].
      + intros [[_ H]|[H _]]; [left; symmetry; exact H|contradiction]. }
  rewrite H1, H2, !In_if_singleton, negb_true_iff, Nat.eqb_neq, Nat.ltb_lt.
  tauto.
Qed.

Lemma valid_false_iff_some_error (puzzle : Puzzle.t) :
  VR.valid (validateStructure puzzle) = false <->
  exists e, In e (VR.errors (validateStructure puzzle)).
Proof.
  change (VR.valid (validateStructure puzzle))
    with (noErrors (VR.errors (validateStructure puzzle))).
  unfold noErrors.
  destruct (VR.errors (validateStructure puzzle)) as [|e rest]; simpl.
  - split; [discriminate|intros [e []]].
  - split; [intros _; exists e; left; reflexivity|reflexivity].
Qed.

Lemma nth_error_nonempty {A : Type} (l : list A) (i : nat) (x : A) :
  nth_error l i = Some x -> l <> [].
Proof. intros H Hnil. subst l. destruct i; discriminate. Qed.

Section Collected.
Variable puzzle : Puzzle.t.
Let errors := VR.errors (validateStructure puzzle).

Lemma collected_no_sequences :
  Puzzle.sequences puzzle = [] -> In NoSequences errors.
Proof.
  intros H. apply validateStructure_errors_In. left. split; [exact H|reflexivity].
Qed.

Lemma collected_short_sequence (i : nat) (seq : list number) :
  nth_error (Puzzle.sequences puzzle) i = Some seq ->
  (length seq < 4)%nat ->
  In (SequenceTooShort (i + 1)) errors.
Proof.
  intros Hn Hshort. apply validateStructure_errors_In. right; left.
  split; [eapply nth_error_nonempty; eassumption|].
  apply sequenceErrors_In. exists i, seq. split; [exact Hn|]. left.
  split; [apply Nat.ltb_lt; exact Hshort|reflexivity].
Qed.

Lemma collected_term (i j : nat) (seq : list number) (v : number) :
  nth_error (Puzzle.sequences puzzle) i = Some seq ->
  nth_error seq j = Some v ->
  (notAnInteger v -> In (TermNotInteger (i + 1) (j + 1) v) errors)
  /\ (outsideRange v -> In (TermOutOfBounds (i + 1) (j + 1) v) errors).
Proof.
  intros Hn Hj.
  assert (Hterm : forall e,
             (isInteger v = false /\ e = TermNotInteger (i + 1) (j + 1) v)
             \/ (outOfBounds v = true /\ e = TermOutOfBounds (i + 1) (j + 1) v) ->
             In e errors).
  { intros e He. apply validateStructure_errors_In. right; left.
    split; [eapply nth_error_nonempty; eassumption|].
    apply sequenceErrors_In. exists i, seq. split; [exact Hn|]. right.
    apply termErrors_In. exists j, v. split; [exact Hj|exact He]. }
  split; intros Hv; apply Hterm.
  - left. split; [exact Hv|reflexivity].
  - right. split; [apply outOfBounds_outsideRange; exact Hv|reflexivity].
Qed.

Lemma collected_count_mismatch :
  length (Puzzle.answers puzzle) <> length (Puzzle.sequences puzzle) ->
  In AnswersCountMismatch errors.
Proof.
  intros H. apply validateStructure_errors_In. right; right; left.
  split; [exact H|reflexivity].
Qed.

Lemma collected_answer (i : nat) (v : number) :
  length (Puzzle.answers puzzle) = length (Puzzle.sequences puzzle) ->
  nth_error (Puzzle.answers puzzle) i = Some v ->
  (notAnInteger v -> In (AnswerNotInteger (i + 1) v) errors)
  /\ (outsideRange v -> In (AnswerOutOfBounds (i + 1) v) errors).
Proof.
  intros Hlen Hn.
  assert (Hans : forall e,
             (isInteger v = false /\ e = AnswerNotInteger (i + 1) v)
             \/ (outOfBounds v = true /\ e = AnswerOutOfBounds (i + 1) v) ->
             In e errors).
  { intros e He. apply validateStructure_errors_In. right; right; right; left.
    split; [exact Hlen|]. apply answerErrors_In. exists i, v.
    split; [exact Hn|exact He]. }
  split; intros Hv; apply Hans.
  - left. split; [exact Hv|reflexivity].
  - right. split; [apply outOfBounds_outsideRange; exact Hv|reflexivity].
Qed.

Lemma collected_hints :
  length (Puzzle.hints puzzle) <> 2%nat -> In HintsRequired errors.
Proof.
  intros H. apply validateStructure_errors_In. do 4 right. left.
  split; [exact H|reflexivity].
Qed.

Lemma collected_explanation :
  (stringLength (Puzzle.explanation puzzle) < 10)%nat ->
  In ExplanationTooShort errors.
Proof.
  intros H. apply validateStructure_errors_In. do 5 right.
  split; [exact H|reflexivity].
Qed.

(** The check fails exactly on the documented conditions. *)
Lemma invalid_iff_violating :
  VR.valid (validateStructure puzzle) = false <-> structurallyViolating puzzle.
Proof.
  rewrite valid_false_iff_some_error. unfold structurallyViolating. split.
  - intros [e He]. apply validateStructure_errors_In in He.
    destruct He as [[H _] | [[_ H] | [[H _] | [[_ H] | [[H _] | [H _]]]]]].
    + left. exact H.
    + apply sequenceErrors_In in H.
      destruct H as [k [seq [Hn [[Hshort _] | Hterm]]]].
      * right; left. exists seq.
        split; [eapply nth_error_In; eassumption|apply Nat.ltb_lt; exact Hshort].
      * apply termErrors_In in Hterm.
        destruct Hterm as [j [v [Hj Hv]]].
        right; right; left. exists seq, v.
        split; [eapply nth_error_In; eassumption|].
        split; [eapply nth_error_In; eassumption|].
        destruct Hv as [[Hv _]|[Hv _]];
          [left; exact Hv|right; apply outOfBounds_outsideRange; exact Hv].
    + do 4 right. left. exact H.
    + apply answerErrors_In in H. destruct H as [k [v [Hn Hv]]].
      do 3 right. left. exists v.
      split; [eapply nth_error_In; eassumption|].
      destruct Hv as [[Hv _]|[Hv _]];
        [left; exact Hv|right; apply outOfBounds_outsideRange; exact Hv].
    + do 5 right. left. exact H.
    + do 6 right. exact H.
  - intros [H | [[seq [Hin Hshort]] | [[seq [v [Hin [Hv Hbad]]]]
           | [[v [Hin Hbad]] | [H | [H | H]]]]]].
    + eexists. apply collected_no_sequences. exact H.
    + apply In_nth_error in Hin. destruct Hin as [i Hi].
      eexists. eapply collected_short_sequence; eassumption.
    + apply In_nth_error in Hin. destruct Hin as [i Hi].
      apply In_nth_error in Hv. destruct Hv as [j Hj].
      destruct (collected_term i j seq v Hi Hj) as [Hint Hout].
      destruct Hbad as [Hbad|Hbad]; eexists; [apply Hint|apply Hout]; exact Hbad.
    + destruct (Nat.eq_dec (length (Puzzle.answers puzzle))
                           (length (Puzzle.sequences puzzle))) as [Hlen|Hlen].
      * apply In_nth_error in Hin. destruct Hin as [i Hi].
        destruct (collected_answer i v Hlen Hi) as [Hint Hout].
        destruct Hbad as [Hbad|Hbad]; eexists; [apply Hint|apply Hout]; exact Hbad.
      * eexists. apply collected_count_mismatch. exact Hlen.
    + eexists. apply collected_count_mismatch. exact H.
    + eexists. apply collected_hints. exact H.
    + eexists. apply collected_explanation. exact H.
Qed.
(** When the counts differ the answers are not examined: no error about an
    individual answer is reported. *)
Lemma answers_unexamined_on_mismatch :
  length (Puzzle.answers puzzle) <> length (Puzzle.sequences puzzle) ->
  forall ansNo ans,
    ~ In (AnswerNotInteger ansNo ans) errors
    /\ ~ In (AnswerOutOfBounds ansNo ans) errors.
Proof.
  intros Hcount ansNo ans.
  assert (Hnone : forall e,
             (e = AnswerNotInteger ansNo ans \/ e = AnswerOutOfBounds ansNo ans) ->
             ~ In e errors).
  { intros e He Hin. apply validateStructure_errors_In in Hin.
    destruct Hin as [[_ H] | [[_ H] | [[_ H] | [[Hlen _] | [[_ H] | [_ H]]]]]].
    - destruct He as [He|He]; rewrite He in H; discriminate H.
    - apply sequenceErrors_In in H.
      destruct H as [k [seq [_ [[_ H] | H]]]].
      + destruct He as [He|He]; rewrite He in H; discriminate H.
      + apply termErrors_In in H.
        destruct H as [j [v [_ [[_ H] | [_ H]]]]];
          destruct He as [He|He]; rewrite He in H; discriminate H.
    - destruct He as [He|He]; rewrite He in H; discriminate H.
    - apply Hcount. exact Hlen.
    - destruct He as [He|He]; rewrite He in H; discriminate H.
    - destruct He as [He|He]; rewrite He in H; discriminate H. }
  split; apply Hnone; [left|right]; reflexivity.
Qed.

End Collected.

(* ================================================================== *)
(** ** The constant-ratio detector *)
(* ================================================================== *)

Lemma Qis_integer_inject_Z (z : Z) : Qis_integer (inject_Z z) = true.
Proof.
  unfold Qis_integer. rewrite Qfloor_Z. apply Qeq_bool_iff. reflexivity.
Qed.

(** [Number.isInteger(Math.round(r))] holds for every finite [r]. *)
Lemma isInteger_nround_finite (q : Q) : isInteger (nround (Num q)) = true.
Proof. cbn [nround ofZ isInteger]. apply Qis_integer_inject_Z. Qed.

(** A number within the tolerance of itself is finite. *)
Lemma withinTolerance_self_finite (r : number) :
  withinTolerance r r -> exists q, r = Num q.
Proof.
  unfold withinTolerance. destruct r as [q|s|].
  - intros _. exists q. reflexivity.
  - destruct s; cbn; discriminate.
  - cbn. discriminate.
Qed.

Lemma existsb_false_forall {A : Type} (f : A -> bool) (l : list A) :
  (forall x, In x l -> f x = false) -> existsb f l = false.
Proof.
  intros H. destruct (existsb f l) eqn:He; [|reflexivity].
  apply existsb_exists in He. destruct He as [x [Hin Hfx]].
  rewrite (H x Hin) in Hfx. discriminate.
Qed.

(** Over the exact arithmetic the detector is [checkConstantRatio]. *)
Lemma ratiosWith_exact (sequence : list number) :
  ratiosWith ndiv sequence = ratiosOf sequence.
Proof.
  induction sequence as [|earlier rest IH]; [reflexivity|].
  destruct rest as [|later rest']; [reflexivity|].
  change (ratiosWith ndiv (earlier :: later :: rest'))
    with (ndiv later earlier :: ratiosWith ndiv (later :: rest')).
  rewrite IH. reflexivity.
Qed.

Lemma checkConstantRatio_host (sequence : list number) :
  checkConstantRatio sequence
  = checkConstantRatioWith ndiv nsub nmul ratioTolerance sequence.
Proof.
  unfold checkConstantRatioWith.
  replace (ratiosWith ndiv sequence) with (ratiosOf sequence)
    by (symmetry; apply ratiosWith_exact).
  reflexivity.
Qed.

(** The exact subtraction, like the rounded one, gives NaN for
    [Infinity - Infinity] and for [NaN - NaN]. *)
Lemma nsub_self_finite (x : number) : nsub x x <> NaN -> finite x.
Proof.
  destruct x as [q|s|]; intros H.
  - exists q. reflexivity.
  - exfalso. apply H. destruct s; reflexivity.
  - exfalso. apply H. reflexivity.
Qed.

(** A passed tolerance test has a difference that is a number. *)
Lemma tolerance_test_not_nan (d tolerance : number) :
  nlt (nabs d) tolerance = true -> d <> NaN.
Proof. intros H Hd. subst d. cbn in H. discriminate H. Qed.

(* ================================================================== *)
(** ** The evaluator's view of the sequence so far *)
(* ================================================================== *)

Lemma fromEnd_some (sequence : list number) (k : nat) :
  (1 <= k <= length sequence)%nat -> exists v, fromEnd sequence k = Some v.
Proof.
  intros Hk. unfold fromEnd, at_index.
  destruct (_ <? 0) eqn:Hneg; [apply Z.ltb_lt in Hneg; lia|].
  destruct (nth_error sequence _) as [v|] eqn:Hnth; [eexists; reflexivity|].
  apply nth_error_None in Hnth. lia.
Qed.

Lemma fromEnd_none (sequence : list number) (k : nat) :
  (length sequence < k)%nat -> fromEnd sequence k = None.
Proof.
  intros Hk. unfold fromEnd, at_index.
  destruct (_ <? 0) eqn:Hneg; [reflexivity|apply Z.ltb_ge in Hneg; lia].
Qed.

(** [prev2] and [prev3] of the source are the spec's "missing older terms
    default to 0". *)
Lemma older_term_default (sequence : list number) (k : nat) :
  (1 <= k)%nat ->
  (if (k <=? length sequence)%nat then toNumber (fromEnd sequence k) else ofZ 0)
  = termFromEnd sequence k.
Proof.
  intros Hk. unfold termFromEnd.
  destruct (k <=? length sequence)%nat eqn:Hle.
  - apply Nat.leb_le in Hle.
    destruct (fromEnd_some sequence k ltac:(lia)) as [v Hv].
    rewrite Hv. reflexivity.
  - apply Nat.leb_gt in Hle. rewrite fromEnd_none by lia. reflexivity.
Qed.

(** [prev] is the last term, or NaN (from [undefined]) on an empty sequence. *)
Lemma prev_by_length (s1 s2 : list number) :
  length s1 = length s2 ->
  termFromEnd s1 1 = termFromEnd s2 1 ->
  toNumber (fromEnd s1 1) = toNumber (fromEnd s2 1).
Proof.
  intros Hlen Hlast. unfold termFromEnd in Hlast.
  destruct (Nat.eq_dec (length s1) 0) as [Hz|Hnz].
  - rewrite !fromEnd_none by lia. reflexivity.
  - destruct (fromEnd_some s1 1 ltac:(lia)) as [v1 Hv1].
    destruct (fromEnd_some s2 1 ltac:(lia)) as [v2 Hv2].
    rewrite Hv1, Hv2 in *. exact Hlast.
Qed.

(* ================================================================== *)
(** ** Sequence generation *)
(* ================================================================== *)

(** What a completed counting loop returned. *)
Lemma collect_spec {A : Type} (body : nat -> result A) :
  forall steps i0 l,
    collect body steps i0 = Ok l ->
    length l = steps
    /\ forall k out, nth_error l k = Some out -> body (i0 + k)%nat = Ok out.
Proof.
  induction steps as [|steps IH]; intros i0 l Hrun; cbn [collect] in Hrun.
  - inversion Hrun; subst l. split; [reflexivity|].
    intros k out Hk. destruct k; discriminate.
  - destruct (body i0) as [v|e] eqn:Hbody; cbn [bind] in Hrun; [|discriminate].
    destruct (collect body steps (S i0)) as [rest|e] eqn:Hrest;
      cbn [bind] in Hrun; [|discriminate].
    inversion Hrun; subst l. destruct (IH (S i0) rest Hrest) as [Hlen Hnth].
    split; [simpl; rewrite Hlen; reflexivity|].
    intros k out Hk. destruct k as [|k]; cbn [nth_error] in Hk.
    + inversion Hk; subst out. rewrite Nat.add_0_r. exact Hbody.
    + replace (i0 + S k)%nat with (S i0 + k)%nat by lia. apply Hnth. exact Hk.
Qed.

(** A counting loop whose every body returns, returns. *)
Lemma collect_returns {A : Type} (body : nat -> result A) :
  forall steps i0,
    (forall k, (k < steps)%nat -> exists v, body (i0 + k)%nat = Ok v) ->
    exists l, collect body steps i0 = Ok l.
Proof.
  induction steps as [|steps IH]; intros i0 Hbody; cbn [collect].
  - eexists. reflexivity.
  - destruct (Hbody 0%nat ltac:(lia)) as [v Hv].
    rewrite Nat.add_0_r in Hv. rewrite Hv. cbn [bind].
    destruct (IH (S i0)) as [rest Hrest].
    { intros k Hk. destruct (Hbody (S k) ltac:(lia)) as [u Hu].
      exists u. replace (S i0 + k)%nat with (i0 + S k)%nat by lia. exact Hu. }
    rewrite Hrest. cbn [bind]. eexists. reflexivity.
Qed.

Lemma mapi_from_nth {A B : Type} (f : A -> nat -> B) :
  forall l i0 idx v,
    nth_error l idx = Some v ->
    nth_error (mapi_from f i0 l) idx = Some (f v (i0 + idx)%nat).
Proof.
  induction l as [|x rest IH]; intros i0 idx v Hn.
  - destruct idx; discriminate.
  - destruct idx as [|idx]; cbn [nth_error mapi_from] in *.
    + inversion Hn; subst v. rewrite Nat.add_0_r. reflexivity.
    + replace (i0 + S idx)%nat with (S i0 + idx)%nat by lia. apply IH. exact Hn.
Qed.

Lemma mapi_from_length {A B : Type} (f : A -> nat -> B) :
  forall l i0, length (mapi_from f i0 l) = length l.
Proof.
  induction l as [|x rest IH]; intros i0; cbn [mapi_from length].
  - reflexivity.
  - rewrite IH. reflexivity.
Qed.

(** The [while] loop only appends. *)
Lemma fillLoop_extends (ruleType : RuleProgramType) (params : Params.t) :
  forall steps sequence result,
    fillLoop ruleType params steps sequence = Ok result ->
    exists tail, result = sequence ++ tail.
Proof.
  induction steps as [|steps IH]; intros sequence result Hrun;
    cbn [fillLoop] in Hrun.
  - inversion Hrun; subst result. exists []. symmetry. apply app_nil_r.
  - destruct (evaluateNextValue sequence ruleType params _) as [v|e];
      cbn [bind] in Hrun; [|discriminate].
    destruct (IH _ _ Hrun) as [tail Htail].
    exists (v :: tail). rewrite Htail, <- app_assoc. reflexivity.
Qed.

(** With seed values given, a non-positional sequence starts with them. *)
Lemma generateSequence_starts_with_seed (ruleType : RuleProgramType)
    (params : Params.t) (len : nat) (seed : list number) (g : Gen.t) :
  isPositional ruleType = false ->
  generateSequence ruleType params len (Some seed) = Ok g ->
  exists tail,
    Gen.sequence g = firstn (Nat.min (length seed) len) seed ++ tail.
Proof.
  intros Hkind Hrun. unfold generateSequence in Hrun. rewrite Hkind in Hrun.
  cbn [orElse] in Hrun.
  destruct (fillLoop ruleType params _ _) as [sequence|e] eqn:Hfill;
    cbn [bind] in Hrun; [|discriminate].
  destruct (evaluateNextValue sequence ruleType params _) as [v|e];
    cbn [bind] in Hrun; [|discriminate].
  inversion Hrun; subst g. cbn [Gen.sequence].
  eapply fillLoop_extends. exact Hfill.
Qed.

(** For the kinds that are not positional, every output is generated from
    the base starting values spread by the output index. *)
Lemma generateMultipleSequences_seeded (ruleType : RuleProgramType)
    (params : Params.t) (count len : nat) :
  isPositional ruleType = false ->
  generateMultipleSequences ruleType params count len
  = collect (fun i =>
      generateSequence ruleType params len
        (Some (map Num (mapi (vary i) (Params.startingValues params ?? [1%Q])))))
      count 0.
Proof. intros Hkind. destruct ruleType; try discriminate Hkind; reflexivity. Qed.

(** On a non-empty sequence a recognised kind evaluates without raising,
    provided the list of alternating operations is not empty. *)
Lemma evaluateNextValue_returns (sequence : list number)
    (ruleType : RuleProgramType) (params : Params.t) (position : Z) :
  sequence <> [] ->
  (forall token, ruleType <> UNRECOGNIZED token) ->
  (ruleType = ALTERNATING_OPS -> Params.operations params <> Some []) ->
  exists v, evaluateNextValue sequence ruleType params position = Ok v.
Proof.
  intros Hne Hknown Hops.
  destruct ruleType; try (eexists; reflexivity).
  - cbn [evaluateNextValue]. destruct (length sequence <? 2)%nat;
      eexists; reflexivity.
  - unfold evaluateNextValue.
    set (operations := Params.operations params ?? defaultOperations).
    assert (Hlen : (0 < length operations)%nat).
    { subst operations. destruct (Params.operations params) as [ops|] eqn:Ho;
        cbn [orElse].
      - destruct ops; [exfalso; apply Hops; reflexivity|simpl; lia].
      - simpl. lia. }
    replace (length operations =? 0)%nat with false
      by (symmetry; apply Nat.eqb_neq; lia).
    assert (Hseq : (0 < length sequence)%nat)
      by (destruct sequence; [contradiction|simpl; lia]).
    pose proof (Z.rem_bound_pos (Z.of_nat (length sequence) - 1)
                  (Z.of_nat (length operations)) ltac:(lia) ltac:(lia)) as Hidx.
    unfold at_index at 1.
    replace (Z.rem _ _ <? 0) with false by (symmetry; apply Z.ltb_ge; lia).
    destruct (nth_error operations _) as [operation|] eqn:Hnth.
    + destruct (Op.op operation); eexists; reflexivity.
    + apply nth_error_None in Hnth. lia.
  - cbn [evaluateNextValue]. destruct (Z.rem position 2 =? 1);
      eexists; reflexivity.
  - cbn [evaluateNextValue]. destruct (Params.powerType params ?? n_squared_plus);
      eexists; reflexivity.
  - exfalso. eapply Hknown. reflexivity.
Qed.

Lemma fillLoop_returns (ruleType : RuleProgramType) (params : Params.t) :
  (forall token, ruleType <> UNRECOGNIZED token) ->
  (ruleType = ALTERNATING_OPS -> Params.operations params <> Some []) ->
  forall steps sequence,
    sequence <> [] ->
    exists result, fillLoop ruleType params steps sequence = Ok result
                   /\ result <> [].
Proof.
  intros Hknown Hops.
  induction steps as [|steps IH]; intros sequence Hne; cbn [fillLoop].
  - exists sequence. split; [reflexivity|exact Hne].
  - destruct (evaluateNextValue_returns sequence ruleType params
                (Z.of_nat (length sequence) + 1) Hne Hknown Hops) as [v Hv].
    rewrite Hv. cbn [bind]. apply IH.
    destruct sequence; discriminate.
Qed.

Lemma generateSequence_returns (ruleType : RuleProgramType)
    (params : Params.t) (len : nat) (seed : list number) :
  isPositional ruleType = false ->
  (forall token, ruleType <> UNRECOGNIZED token) ->
  (ruleType = ALTERNATING_OPS -> Params.operations params <> Some []) ->
  seed <> [] -> (1 <= len)%nat ->
  exists g, generateSequence ruleType params len (Some seed) = Ok g.
Proof.
  intros Hkind Hknown Hops Hseed Hlen.
  unfold generateSequence. rewrite Hkind. cbn [orElse].
  destruct (fillLoop_returns ruleType params Hknown Hops
              (len - length (firstn (Nat.min (length seed) len) seed))
              (firstn (Nat.min (length seed) len) seed))
    as [sequence [Hfill Hne]].
  { destruct seed as [|s0 rest]; [contradiction|].
    destruct len as [|len]; [lia|]. simpl. discriminate. }
  rewrite Hfill. cbn [bind].
  destruct (evaluateNextValue_returns sequence ruleType params
              (Z.of_nat len + 1) Hne Hknown Hops) as [v Hv].
  rewrite Hv. cbn [bind]. eexists. reflexivity.
Qed.

(** Term [idx] of output [i], as long as it is one of the seed terms. *)
Lemma seeded_output_term (ruleType : RuleProgramType) (params : Params.t)
    (len i idx : nat) (out : Gen.t) (v : Q) :
  isPositional ruleType = false ->
  generateSequence ruleType params len
    (Some (map Num (mapi (vary i) (Params.startingValues params ?? [1%Q]))))
  = Ok out ->
  nth_error (Params.startingValues params ?? [1%Q]) idx = Some v ->
  (idx < len)%nat ->
  nth_error (Gen.sequence out) idx
  = Some (Num (v + Qnat i * (Qnat idx + 1) * 2)%Q).
Proof.
  intros Hkind Hrun Hbase Hidx.
  destruct (generateSequence_starts_with_seed _ _ _ _ _ Hkind Hrun)
    as [tail Hseq].
  rewrite Hseq.
  set (seed := map Num (mapi (vary i) (Params.startingValues params ?? [1%Q]))) in *.
  assert (Hseed : nth_error seed idx = Some (Num (vary i v idx))).
  { subst seed. apply map_nth_error. unfold mapi.
    rewrite (mapi_from_nth (vary i) _ 0 idx v Hbase). reflexivity. }
  assert (Hin : (idx < length seed)%nat)
    by (apply nth_error_Some; rewrite Hseed; discriminate).
  rewrite nth_error_app1.
  - rewrite nth_error_firstn.
    replace (idx <? Nat.min (length seed) len)%nat with true
      by (symmetry; apply Nat.ltb_lt; lia).
    exact Hseed.
  - rewrite length_firstn. lia.
Qed.

Lemma spread_seeds_differ (v : Q) (i j : nat) :
  i <> j ->
  ~ sameValue (Num (v + Qnat i * (Qnat 0 + 1) * 2)%Q)
              (Num (v + Qnat j * (Qnat 0 + 1) * 2)%Q).
Proof.
  intros Hij Hsame. cbn [sameValue] in Hsame. apply Hij.
  assert (Heq : (Qnat i == Qnat j)%Q).
  { change (Qnat 0) with 0%Q in Hsame. lra. }
  apply Nat2Z.inj, inject_Z_injective. exact Heq.
Qed.

Lemma generateSequence_unrecognized (token : string) (params : Params.t)
    (len : nat) (startingValues : option (list number)) :
  generateSequence (UNRECOGNIZED token) params len startingValues
  = Throw (UnknownRule token).
Proof.
  unfold generateSequence. cbn [isPositional].
  destruct (len - _)%nat; reflexivity.
Qed.

Lemma buildPuzzle_unrecognized (response : Response.t) (token : string) :
  Response.ruleProgramType response = UNRECOGNIZED token ->
  buildPuzzleFromAIResponse response = Throw (UnknownRule token).
Proof.
  intros Hkind. unfold buildPuzzleFromAIResponse. rewrite Hkind.
  unfold generateMultipleSequences, NUM_SEQUENCES. cbn [collect].
  rewrite generateSequence_unrecognized. reflexivity.
Qed.

(* ================================================================== *)
(** ** The ambiguity check *)
(* ================================================================== *)

Lemma nadd_finite (x y : number) : finite (x + y)%js -> finite x /\ finite y.
Proof.
  destruct x as [p|s|], y as [q|t|]; cbn [nadd]; intros [r Hr];
    try discriminate Hr.
  - split; eexists; reflexivity.
  - destruct (Bool.eqb s t); discriminate Hr.
Qed.

Lemma nneg_finite (x : number) : finite (nneg x) -> finite x.
Proof.
  destruct x as [p|s|]; cbn [nneg]; intros [r Hr]; try discriminate Hr.
  eexists; reflexivity.
Qed.

Lemma nsub_finite (x y : number) : finite (x - y)%js -> finite x /\ finite y.
Proof.
  unfold nsub. intros H. apply nadd_finite in H. destruct H as [Hx Hy].
  split; [exact Hx|apply nneg_finite; exact Hy].
Qed.

Lemma nabs_finite (x : number) : finite (nabs x) -> finite x.
Proof.
  destruct x as [p|s|]; cbn [nabs]; intros [r Hr]; try discriminate Hr.
  eexists; reflexivity.
Qed.

Lemma nmul_finite_l (x : number) (q : Q) :
  Qis_zero q = false -> finite (x * Num q)%js -> finite x.
Proof.
  intros Hq. destruct x as [p|s|]; cbn [nmul]; intros [r Hr].
  - eexists; reflexivity.
  - rewrite Hq in Hr. discriminate Hr.
  - discriminate Hr.
Qed.

Lemma Qis_zero_positive (n : nat) : Qis_zero (inject_Z (Z.of_nat (n + 1))) = false.
Proof. unfold Qis_zero. cbn [Qnum inject_Z]. apply Z.eqb_neq. lia. Qed.

(** A finite fit error needs a finite running error. *)
Lemma errorLoop_finite_acc (a b c : number) :
  forall rest i acc, finite (errorLoop a b c i rest acc) -> finite acc.
Proof.
  induction rest as [|y rest IH]; intros i acc H; cbn [errorLoop] in H.
  - exact H.
  - apply IH in H. apply nadd_finite in H. apply H.
Qed.

(** A finite fit error over at least one term needs finite coefficients. *)
Lemma errorLoop_finite_coefficients (a b c : number) (y : number)
    (rest : list number) (i : nat) (acc : number) :
  finite (errorLoop a b c i (y :: rest) acc) ->
  finite a /\ finite b /\ finite c.
Proof.
  intros H. cbn [errorLoop] in H. apply errorLoop_finite_acc in H.
  apply nadd_finite in H. destruct H as [_ H].
  apply nabs_finite, nsub_finite in H. destruct H as [_ H].
  apply nadd_finite in H. destruct H as [H Hc].
  apply nadd_finite in H. destruct H as [Ha Hb].
  unfold ofNat, ofZ in Ha, Hb.
  apply nmul_finite_l in Hb; [|apply Qis_zero_positive].
  apply nmul_finite_l in Ha; [|apply Qis_zero_positive].
  apply nmul_finite_l in Ha; [|apply Qis_zero_positive].
  repeat split; assumption.
Qed.

(** The running error is never -Infinity. *)
Lemma errorLoop_not_neg_inf (a b c : number) :
  forall rest i acc,
    acc <> Inf true -> errorLoop a b c i rest acc <> Inf true.
Proof.
  induction rest as [|y rest IH]; intros i acc Hacc; cbn [errorLoop].
  - exact Hacc.
  - apply IH.
    destruct acc as [p|s|]; destruct (y - _)%js as [q|t|]; cbn [nabs nadd];
      try discriminate.
    + destruct s; [contradiction|discriminate].
    + destruct s; [contradiction|]. cbn [Bool.eqb]. discriminate.
Qed.

Lemma mean_error_confident (total : number) (n : nat) :
  total <> Inf true ->
  nlt (total / ofNat (n + 1))%js (Num (1 # 2)) = true ->
  finite total.
Proof.
  intros Hneg Hlt. destruct total as [p|s|].
  - eexists; reflexivity.
  - unfold ofNat, ofZ in Hlt. cbn [ndiv] in Hlt.
    destruct s; [contradiction|].
    replace (Qis_neg (inject_Z (Z.of_nat (n + 1)))) with false in Hlt.
    + cbn in Hlt. discriminate Hlt.
    + symmetry. unfold Qis_neg. cbn [Qnum inject_Z]. apply Z.ltb_ge. lia.
  - cbn in Hlt. discriminate Hlt.
Qed.

(** A confident quadratic fit predicts a finite integer. *)
Lemma fitQuadratic_confident_integer (sequence : list number) :
  nlt (Fit.error (fitQuadratic sequence)) (Num (1 # 2)) = true ->
  exists z, Fit.nextValue (fitQuadratic sequence) = ofZ z.
Proof.
  destruct sequence as [|y rest].
  - intros H. vm_compute in H. discriminate H.
  - unfold fitQuadratic. cbv zeta.
    destruct (nlt (nabs _) (Num (1 # 10000000000))).
    + cbn [Fit.error Fit.nextValue]. intros H. cbn in H. discriminate H.
    + cbn [Fit.error Fit.nextValue]. intros H.
      replace (length (y :: rest)) with (length rest + 1)%nat in H
        by (simpl; lia).
      apply mean_error_confident in H;
        [|apply errorLoop_not_neg_inf; discriminate].
      apply errorLoop_finite_coefficients in H.
      destruct H as [[qa Ha] [[qb Hb] [qc Hc]]].
      rewrite Ha, Hb, Hc. unfold ofNat, ofZ. cbn [nadd nmul nround].
      eexists. reflexivity.
Qed.

(** Two distinct integers are more than 0.5 apart. *)
Lemma distinct_integers_far_apart (z : Z) (a : Q) :
  Qis_integer a = true ->
  nseq (ofZ z) (Num a) = false ->
  ngt (nabs (ofZ z - Num a)%js) (Num (1 # 2)) = true.
Proof.
  intros Hint Hne. unfold Qis_integer in Hint. apply Qeq_bool_iff in Hint.
  unfold ofZ in *. cbn [nseq] in Hne. cbn [nsub nneg nadd nabs ngt nlt].
  unfold Qlt_bool. apply negb_true_iff.
  destruct (Qle_bool (Qabs (inject_Z z + - a)) (1 # 2)) eqn:Hle; [|reflexivity].
  exfalso. apply Qle_bool_iff in Hle. apply Qabs_Qle_condition in Hle.
  assert (Hdiff : z <> Qfloor a).
  { intros Heq. subst z.
    assert (Htrue : Qeq_bool (inject_Z (Qfloor a)) a = true)
      by (apply Qeq_bool_iff; symmetry; exact Hint).
    rewrite Htrue in Hne. discriminate Hne. }
  destruct Hle as [Hlo Hhi].
  rewrite Hint in Hlo, Hhi.
  unfold Qle in Hlo, Hhi. cbn in Hlo, Hhi. lia.
Qed.

(** On the primary sequence every rival disagrees with an integer answer:
    it entered the list because its prediction differs from that answer. *)
Lemma rival_disagrees_on_primary (primarySeq : list number) (a : Q)
    (alt : Alternative.t) :
  Qis_integer a = true ->
  In alt (alternativesOf primarySeq (Some (Num a))) ->
  disagrees (Alternative.method_ alt) primarySeq (Some (Num a)) = true.
Proof.
  intros Hint Hin. unfold alternativesOf in Hin.
  rewrite !in_app_iff, !In_if_singleton, !andb_true_iff in Hin.
  destruct Hin as [[[Hconf Hne] Halt] | [[[Hc Hne] Halt] | [[[Hc Hne] Halt]
                  | [[Hc Hne] Halt]]]];
    subst alt; cbn [Alternative.method_ disagrees toNumber].
  - destruct (fitQuadratic_confident_integer primarySeq Hconf) as [z Hz].
    rewrite Hz in *. cbn [strictNe] in Hne. apply negb_true_iff in Hne.
    apply distinct_integers_far_apart; assumption.
  - rewrite Hc, Hne. reflexivity.
  - rewrite Hc, Hne. reflexivity.
  - rewrite Hc, Hne. reflexivity.
Qed.

(** One disagreeing sequence ends the inner loop with
    [fitsAllSequences = false]. *)
Lemma fitsAllSequences_breaks (m : method) (answers : list number) :
  forall seqs i k seq,
    nth_error seqs k = Some seq ->
    disagrees m seq (nth_error answers (i + k)) = true ->
    fitsAllSequences m answers i seqs = false.
Proof.
  induction seqs as [|seq0 rest IH]; intros i k seq Hk Hdis.
  - destruct k; discriminate Hk.
  - cbn [fitsAllSequences].
    destruct (disagrees m seq0 (nth_error answers i)) eqn:H0; [reflexivity|].
    destruct k as [|k]; cbn [nth_error] in Hk.
    + inversion Hk; subst seq0. rewrite Nat.add_0_r in Hdis.
      rewrite Hdis in H0. discriminate H0.
    + apply (IH (S i) k seq Hk).
      replace (S i + k)%nat with (i + S k)%nat by lia. exact Hdis.
Qed.

(** When no rival fits all sequences, each becomes a warning. *)
Lemma judgeAlternatives_all_warnings (puzzle : Puzzle.t)
    (intendedAnswer : option number) :
  forall alternatives,
    (forall alt, In alt alternatives ->
       fitsAllSequences (Alternative.method_ alt) (Puzzle.answers puzzle) 0
         (Puzzle.sequences puzzle) = false) ->
    judgeAlternatives puzzle intendedAnswer alternatives
    = ([], map warningFor alternatives).
Proof.
  induction alternatives as [|alt rest IH]; intros Hall;
    cbn [judgeAlternatives map].
  - reflexivity.
  - rewrite IH by (intros alt' Hin; apply Hall; right; exact Hin).
    rewrite (Hall alt) by (left; reflexivity). reflexivity.
Qed.

(** Every rival in the list predicts something else than the stated
    answer. *)
Lemma rival_differs_from_answer (primarySeq : list number)
    (intendedAnswer : option number) (alt : Alternative.t) :
  In alt (alternativesOf primarySeq intendedAnswer) ->
  strictNe (Some (Alternative.value alt)) intendedAnswer = true.
Proof.
  intros Hin. unfold alternativesOf in Hin.
  rewrite !in_app_iff, !In_if_singleton, !andb_true_iff in Hin.
  destruct Hin as [[[_ Hne] Halt] | [[[_ Hne] Halt] | [[[_ Hne] Halt]
                  | [[_ Hne] Halt]]]];
    subst alt; cbn [Alternative.value].
  - exact Hne.
  - destruct (ConstDiff.nextValue _), intendedAnswer; try reflexivity; exact Hne.
  - destruct (ConstRatio.nextValue _), intendedAnswer; try reflexivity; exact Hne.
  - destruct (Alt.nextValue _), intendedAnswer; try reflexivity; exact Hne.
Qed.

(** With a primary sequence and an integer stated answer for it, no rival
    fits all sequences. *)
Lemma no_rival_fits_all (puzzle : Puzzle.t) (primarySeq : list number)
    (a : Q) (alt : Alternative.t) :
  nth_error (Puzzle.sequences puzzle) (Puzzle.primarySequenceIndex puzzle)
    = Some primarySeq ->
  nth_error (Puzzle.answers puzzle) (Puzzle.primarySequenceIndex puzzle)
    = Some (Num a) ->
  Qis_integer a = true ->
  In alt (alternativesOf primarySeq (Some (Num a))) ->
  fitsAllSequences (Alternative.method_ alt) (Puzzle.answers puzzle) 0
    (Puzzle.sequences puzzle) = false.
Proof.
  intros Hseq Hans Hint Hin.
  apply (fitsAllSequences_breaks _ _ _ 0%nat
           (Puzzle.primarySequenceIndex puzzle) primarySeq Hseq).
  cbn [Nat.add]. rewrite Hans.
  apply rival_disagrees_on_primary; assumption.
Qed.

Lemma validateAmbiguity_integer_answer (puzzle : Puzzle.t)
    (primarySeq : list number) (a : Q) :
  nth_error (Puzzle.sequences puzzle) (Puzzle.primarySequenceIndex puzzle)
    = Some primarySeq ->
  nth_error (Puzzle.answers puzzle) (Puzzle.primarySequenceIndex puzzle)
    = Some (Num a) ->
  Qis_integer a = true ->
  validateAmbiguity puzzle
  = Ok (VR.make true []
          (map warningFor (alternativesOf primarySeq (Some (Num a))))).
Proof.
  intros Hseq Hans Hint. unfold validateAmbiguity. rewrite Hseq, Hans.
  rewrite (judgeAlternatives_all_warnings puzzle (Some (Num a)))
    by (intros alt Hin; eapply no_rival_fits_all; eassumption).
  destruct (alternativesOf primarySeq (Some (Num a))); reflexivity.
Qed.

(** The difficulty check never reports an error. *)
Lemma validateDifficulty_no_errors (puzzle : Puzzle.t) (r : VR.t) :
  validateDifficulty puzzle = Ok r -> VR.errors r = [].
Proof.
  unfold validateDifficulty. destruct (nth_error _ _); [|discriminate].
  intros H. inversion H; subst r. reflexivity.
Qed.

(** Inside the pipeline the ambiguity check runs on structurally valid
    puzzles only, so a puzzle the pipeline returns a result for is valid
    exactly when it is structurally valid. *)
Lemma validatePuzzle_valid_iff_structure (puzzle : Puzzle.t) (r : VR.t) :
  validatePuzzle puzzle = Ok r ->
  VR.valid r = VR.valid (validateStructure puzzle).
Proof.
  unfold validatePuzzle.
  destruct (VR.valid (validateStructure puzzle)) eqn:Hvalid.
  - destruct (validateDifficulty puzzle) as [d|e] eqn:Hd; [|discriminate].
    cbn [bind].
    destruct (validateAmbiguity puzzle) as [amb|e] eqn:Ha; [|discriminate].
    cbn [bind]. intros [= <-].
    change (noErrors (VR.errors (validateStructure puzzle)
                      ++ VR.errors d ++ VR.errors amb) = true).
    assert (Herr : VR.errors (validateStructure puzzle) = []).
    { apply noErrors_true_iff. exact Hvalid. }
    rewrite Herr, (validateDifficulty_no_errors puzzle d Hd). cbn [app].
    assert (Hno : forall e, ~ In e (VR.errors (validateStructure puzzle)))
      by (intros e; rewrite Herr; intros []).
    unfold validateAmbiguity in Ha.
    destruct (nth_error (Puzzle.sequences puzzle) _) as [primarySeq|] eqn:Hseq;
      [|discriminate].
    assert (Hlen : length (Puzzle.answers puzzle)
                   = length (Puzzle.sequences puzzle)).
    { destruct (Nat.eq_dec (length (Puzzle.answers puzzle))
                           (length (Puzzle.sequences puzzle))) as [Heq|Hneq];
        [exact Heq|].
      exfalso. eapply Hno. apply collected_count_mismatch. exact Hneq. }
    destruct (nth_error (Puzzle.answers puzzle)
                (Puzzle.primarySequenceIndex puzzle)) as [ans|] eqn:Hans.
    + destruct (collected_answer puzzle _ ans Hlen Hans) as [Hnotint _].
      destruct ans as [a| |];
        try (exfalso; eapply Hno; apply Hnotint; reflexivity).
      destruct (Qis_integer a) eqn:Hint;
        [|exfalso; eapply Hno; apply Hnotint; exact Hint].
      assert (Hamb := validateAmbiguity_integer_answer puzzle primarySeq a
                        Hseq Hans Hint).
      unfold validateAmbiguity in Hamb. rewrite Hseq, Hans in Hamb.
      rewrite Hamb in Ha. inversion Ha; subst amb. reflexivity.
    + apply nth_error_None in Hans.
      assert (Hsome : nth_error (Puzzle.sequences puzzle)
                        (Puzzle.primarySequenceIndex puzzle) <> None)
        by (rewrite Hseq; discriminate).
      apply nth_error_Some in Hsome. lia.
  - intros [= <-]. exact Hvalid.
Qed.

(* ================================================================== *)
(** ** More on the evaluator and the generator *)
(* ================================================================== *)

Lemma fillLoop_length (ruleType : RuleProgramType) (params : Params.t) :
  forall steps sequence result,
    fillLoop ruleType params steps sequence = Ok result ->
    length result = (length sequence + steps)%nat.
Proof.
  induction steps as [|steps IH]; intros sequence result Hrun;
    cbn [fillLoop] in Hrun.
  - injection Hrun as <-. lia.
  - destruct (evaluateNextValue sequence ruleType params _) as [v|e];
      cbn [bind] in Hrun; [|discriminate].
    apply IH in Hrun. rewrite Hrun, length_app. simpl. lia.
Qed.

Lemma positionalLoop_length (ruleType : RuleProgramType) (params : Params.t) :
  forall steps i sequence result,
    positionalLoop ruleType params steps i sequence = Ok result ->
    length result = (length sequence + steps)%nat.
Proof.
  induction steps as [|steps IH]; intros i sequence result Hrun;
    cbn [positionalLoop] in Hrun.
  - injection Hrun as <-. lia.
  - destruct (evaluateNextValue sequence ruleType params i) as [v|e];
      cbn [bind] in Hrun; [|discriminate].
    apply IH in Hrun. rewrite Hrun, length_app. simpl. lia.
Qed.

Lemma generateSequence_shape (ruleType : RuleProgramType) (params : Params.t)
    (len : nat) (startingValues : option (list number)) (g : Gen.t) :
  generateSequence ruleType params len startingValues = Ok g ->
  length (Gen.sequence g) = len
  /\ evaluateNextValue (Gen.sequence g) ruleType params (Z.of_nat len + 1)
     = Ok (Gen.nextValue g).
Proof.
  unfold generateSequence. destruct (isPositional ruleType).
  - destruct (positionalLoop ruleType params len 1 []) as [sequence|e] eqn:Hloop;
      cbn [bind]; [|discriminate].
    destruct (evaluateNextValue sequence ruleType params _) as [v|e] eqn:Hnext;
      cbn [bind]; [|discriminate].
    intros [= <-]. cbn [Gen.sequence Gen.nextValue].
    split; [|exact Hnext].
    apply positionalLoop_length in Hloop. simpl in Hloop. exact Hloop.
  - set (startVals := startingValues ?? _).
    destruct (fillLoop ruleType params _ _) as [sequence|e] eqn:Hloop;
      cbn [bind]; [|discriminate].
    destruct (evaluateNextValue sequence ruleType params _) as [v|e] eqn:Hnext;
      cbn [bind]; [|discriminate].
    intros [= <-]. cbn [Gen.sequence Gen.nextValue].
    split; [|exact Hnext].
    apply fillLoop_length in Hloop. rewrite Hloop, length_firstn. lia.
Qed.

(** A positional kind evaluates without raising, whatever the sequence. *)
Lemma evaluateNextValue_positional_returns (sequence : list number)
    (ruleType : RuleProgramType) (params : Params.t) (position : Z) :
  isPositional ruleType = true ->
  exists v, evaluateNextValue sequence ruleType params position = Ok v.
Proof.
  intros Hkind. destruct ruleType; try discriminate Hkind;
    cbn [evaluateNextValue]; try (eexists; reflexivity).
  destruct (Params.powerType params ?? n_squared_plus); eexists; reflexivity.
Qed.

Lemma positionalLoop_returns (ruleType : RuleProgramType) (params : Params.t) :
  isPositional ruleType = true ->
  forall steps i sequence,
    exists result, positionalLoop ruleType params steps i sequence = Ok result.
Proof.
  intros Hkind. induction steps as [|steps IH]; intros i sequence;
    cbn [positionalLoop].
  - eexists. reflexivity.
  - destruct (evaluateNextValue_positional_returns sequence ruleType params i
                Hkind) as [v Hv].
    rewrite Hv. cbn [bind]. apply IH.
Qed.

Lemma generateSequence_positional_returns (ruleType : RuleProgramType)
    (params : Params.t) (len : nat) (startingValues : option (list number)) :
  isPositional ruleType = true ->
  exists g, generateSequence ruleType params len startingValues = Ok g.
Proof.
  intros Hkind. unfold generateSequence. rewrite Hkind.
  destruct (positionalLoop_returns ruleType params Hkind len 1 [])
    as [sequence Hloop].
  rewrite Hloop. cbn [bind].
  destruct (evaluateNextValue_positional_returns sequence ruleType params
              (Z.of_nat len + 1) Hkind) as [v Hv].
  rewrite Hv. cbn [bind]. eexists. reflexivity.
Qed.

(** Every body of the loop of [generateMultipleSequences] is a call of
    [generateSequence] on the same kind and length. *)
Lemma generateMultipleSequences_bodies (ruleType : RuleProgramType)
    (params : Params.t) (count len : nat) :
  exists body,
    generateMultipleSequences ruleType params count len = collect body count 0
    /\ forall i, exists params' seed,
         body i = generateSequence ruleType params' len seed.
Proof.
  destruct ruleType; cbn [generateMultipleSequences];
    eexists; (split; [reflexivity|]); intros i; cbv beta;
    do 2 eexists; reflexivity.
Qed.

Lemma generateMultipleSequences_shape (ruleType : RuleProgramType)
    (params : Params.t) (count len : nat) (outputs : list Gen.t) :
  generateMultipleSequences ruleType params count len = Ok outputs ->
  length outputs = count
  /\ forall out, In out outputs -> length (Gen.sequence out) = len.
Proof.
  destruct (generateMultipleSequences_bodies ruleType params count len)
    as [body [Hgen Hbody]].
  rewrite Hgen. intros Hrun.
  destruct (collect_spec body count 0 outputs Hrun) as [Hlen Hnth].
  split; [exact Hlen|].
  intros out Hin. apply In_nth_error in Hin. destruct Hin as [i Hi].
  apply Hnth in Hi. destruct (Hbody (0 + i)%nat) as [params' [seed Hcall]].
  rewrite Hcall in Hi. apply generateSequence_shape in Hi. apply Hi.
Qed.

Lemma generateMultipleSequences_positional_returns
    (ruleType : RuleProgramType) (params : Params.t) (count len : nat) :
  isPositional ruleType = true ->
  exists outputs, generateMultipleSequences ruleType params count len = Ok outputs.
Proof.
  intros Hkind.
  destruct (generateMultipleSequences_bodies ruleType params count len)
    as [body [Hgen Hbody]].
  rewrite Hgen. apply collect_returns. intros k _.
  destruct (Hbody (0 + k)%nat) as [params' [seed Hcall]]. rewrite Hcall.
  apply generateSequence_positional_returns. exact Hkind.
Qed.

(** The alternating rule on an empty sequence: with one operation the
    index [(0 - 1) % 1] is 0, with more it is -1 and the read fails. *)
Lemma alternating_on_empty_sequence (params : Params.t) (position : Z) :
  Params.operations params ?? defaultOperations <> [] ->
  ((length (Params.operations params ?? defaultOperations) = 1)%nat ->
   exists v, evaluateNextValue [] ALTERNATING_OPS params position = Ok v)
  /\ ((2 <= length (Params.operations params ?? defaultOperations))%nat ->
      evaluateNextValue [] ALTERNATING_OPS params position = Throw TypeError).
Proof.
  intros Hne. unfold evaluateNextValue.
  set (operations := Params.operations params ?? defaultOperations) in *.
  destruct operations as [|o1 rest]; [contradiction|].
  replace (length (o1 :: rest) =? 0)%nat with false by reflexivity.
  split.
  - intros Hone. destruct rest; [|discriminate Hone].
    cbn. destruct (Op.op o1); eexists; reflexivity.
  - intros Htwo.
    assert (Hrem : Z.rem (Z.of_nat (length (@nil number)) - 1)
                         (Z.of_nat (length (o1 :: rest))) = -1).
    { change (Z.of_nat (length (@nil number)) - 1) with (- (1)).
      rewrite Z.rem_opp_l by (simpl length; lia).
      rewrite Z.rem_small by (simpl length in *; lia). reflexivity. }
    rewrite Hrem. reflexivity.
Qed.

Lemma collect_closed {A : Type} (body : nat -> result A) (h : nat -> A) :
  (forall i, body i = Ok (h i)) ->
  forall steps i0, collect body steps i0 = Ok (map h (seq i0 steps)).
Proof.
  intros Hbody. induction steps as [|steps IH]; intros i0; cbn [collect seq map].
  - reflexivity.
  - rewrite Hbody. cbn [bind]. rewrite IH. reflexivity.
Qed.

(** The positional loop of a rule that only looks at the position. *)
Lemma positionalLoop_closed (ruleType : RuleProgramType) (params : Params.t)
    (f : Z -> number) :
  (forall sequence position,
      evaluateNextValue sequence ruleType params position = Ok (f position)) ->
  forall steps i sequence,
    positionalLoop ruleType params steps i sequence
    = Ok (sequence ++ map (fun j => f (i + Z.of_nat j)) (seq 0 steps)).
Proof.
  intros Heval. induction steps as [|steps IH]; intros i sequence;
    cbn [positionalLoop].
  - cbn. rewrite app_nil_r. reflexivity.
  - rewrite Heval. cbn [bind]. rewrite IH. f_equal.
    rewrite <- app_assoc. f_equal.
    change (seq 0 (S steps)) with (0%nat :: seq 1 steps).
    rewrite <- seq_shift. cbn [map]. rewrite map_map.
    rewrite <- app_comm_cons, app_nil_l, Z.add_0_r. f_equal.
    apply map_ext. intros j. f_equal. lia.
Qed.

Lemma generateSequence_positional_closed (ruleType : RuleProgramType)
    (params : Params.t) (term : Z -> Q) (len : nat)
    (startingValues : option (list number)) :
  isPositional ruleType = true ->
  (forall sequence position,
      evaluateNextValue sequence ruleType params position
      = Ok (Num (term position))) ->
  generateSequence ruleType params len startingValues
  = Ok (positionalSequence term len).
Proof.
  intros Hkind Heval. unfold generateSequence. rewrite Hkind.
  rewrite (positionalLoop_closed ruleType params (fun n => Num (term n)) Heval).
  cbn [bind app]. rewrite Heval. cbn [bind]. reflexivity.
Qed.

Lemma evaluate_quadratic (sequence : list number) (params : Params.t)
    (position : Z) :
  evaluateNextValue sequence POSITIONAL_FORMULA params position
  = Ok (Num (quadraticTerm (Params.a params ?? 0%Q) (Params.b params ?? 1%Q)
                           (Params.c params ?? 0%Q) position)).
Proof. reflexivity. Qed.

Lemma evaluate_cubic (sequence : list number) (params : Params.t)
    (position : Z) :
  evaluateNextValue sequence CUBIC_POSITIONAL params position
  = Ok (Num (cubicTerm (Params.cubicA params ?? 0%Q) (Params.cubicB params ?? 0%Q)
                       (Params.cubicC params ?? 1%Q) (Params.cubicD params ?? 0%Q)
                       position)).
Proof.
  cbn [evaluateNextValue]. unfold npow.
  rewrite !andb_false_r. reflexivity.
Qed.

(** Regenerating from any prefix that contains the seed gives the same
    sequence. *)
Lemma fillLoop_regenerate (ruleType : RuleProgramType) (params : Params.t) :
  forall steps sequence result,
    fillLoop ruleType params steps sequence = Ok result ->
    forall m, (length sequence <= m <= length result)%nat ->
      fillLoop ruleType params (length result - m) (firstn m result) = Ok result.
Proof.
  induction steps as [|steps IH]; intros sequence result Hrun m Hm.
  - cbn [fillLoop] in Hrun. injection Hrun as <-.
    replace m with (length sequence) by lia.
    rewrite Nat.sub_diag, firstn_all. reflexivity.
  - pose proof (fillLoop_length _ _ _ _ _ Hrun) as Hlen.
    destruct (Nat.eq_dec m (length sequence)) as [Heq|Hneq].
    + destruct (fillLoop_extends _ _ _ _ _ Hrun) as [tail Htail].
      subst m. replace (length result - length sequence)%nat with (S steps) by lia.
      rewrite Htail at 1. rewrite firstn_app, Nat.sub_diag, firstn_all.
      cbn [firstn]. rewrite app_nil_r. exact Hrun.
    + cbn [fillLoop] in Hrun.
      destruct (evaluateNextValue sequence ruleType params _) as [v|e];
        cbn [bind] in Hrun; [|discriminate].
      apply (IH _ _ Hrun). rewrite length_app. simpl. lia.
Qed.

Lemma nseq_refl (x : number) : x <> NaN -> nseq x x = true.
Proof.
  destruct x as [q|s|]; intros Hx; cbn [nseq].
  - apply Qeq_bool_iff. reflexivity.
  - apply Bool.eqb_reflx.
  - contradiction.
Qed.

(** A list without NaN matches itself term by term under [===]. *)
Lemma everyi_matches_itself (full : list number) :
  forall l i0,
    (forall k v, nth_error l k = Some v -> nth_error full (i0 + k) = Some v) ->
    ~ In NaN l ->
    everyi_from (fun val idx => strictEq (nth_error full idx) (Some val)) i0 l
    = true.
Proof.
  induction l as [|val rest IH]; intros i0 Hnth Hnan; cbn [everyi_from].
  - reflexivity.
  - apply andb_true_iff. split.
    + rewrite <- (Nat.add_0_r i0), (Hnth 0%nat val eq_refl).
      unfold strictEq, strictNe. rewrite nseq_refl; [reflexivity|].
      intros Hval. apply Hnan. left. exact Hval.
    + apply IH.
      * intros k v Hk. replace (S i0 + k)%nat with (i0 + S k)%nat by lia.
        apply Hnth. exact Hk.
      * intros Hin. apply Hnan. right. exact Hin.
Qed.

(** Regenerating a generated sequence from its first three terms. *)
Lemma generateSequence_regenerate (ruleType : RuleProgramType)
    (params : Params.t) (len : nat) (startingValues : option (list number))
    (g : Gen.t) :
  generateSequence ruleType params len startingValues = Ok g ->
  isPositional ruleType = true
  \/ (length (seedOf params startingValues) <= 3)%nat ->
  generateSequence ruleType params (length (Gen.sequence g))
    (Some (firstn 3 (Gen.sequence g))) = Ok g.
Proof.
  intros Hgen Hseed.
  destruct (generateSequence_shape _ _ _ _ _ Hgen) as [Hlen _].
  rewrite Hlen.
  unfold generateSequence in *.
  destruct (isPositional ruleType) eqn:Hkind; [exact Hgen|].
  destruct Hseed as [Hpos|Hseed]; [discriminate Hpos|].
  unfold seedOf in Hseed.
  set (seed := startingValues ?? _) in *.
  destruct (fillLoop ruleType params _ _) as [sequence|e] eqn:Hfill;
    cbn [bind] in Hgen; [|discriminate].
  destruct (evaluateNextValue sequence ruleType params _) as [v|e] eqn:Hnext;
    cbn [bind] in Hgen; [|discriminate].
  injection Hgen as <-. cbn [Gen.sequence] in *. cbn [orElse].
  pose proof (fillLoop_length _ _ _ _ _ Hfill) as Hl.
  rewrite length_firstn in Hl.
  assert (Hinit : firstn (Nat.min (length (firstn 3 sequence)) len)
                         (firstn 3 sequence)
                  = firstn (Nat.min 3 len) sequence).
  { rewrite length_firstn, firstn_firstn. f_equal. lia. }
  rewrite Hinit.
  replace (len - length (firstn (Nat.min 3 len) sequence))%nat
    with (length sequence - Nat.min 3 len)%nat
    by (rewrite length_firstn; lia).
  rewrite (fillLoop_regenerate _ _ _ _ _ Hfill)
    by (rewrite length_firstn; lia).
  cbn [bind]. rewrite Hnext. reflexivity.
Qed.

(* ================================================================== *)
(** ** More on the pattern detectors *)
(* ================================================================== *)

Lemma differencesOf_finite (qs : list Q) :
  differencesOf (map Num qs) = map Num (Qdifferences qs).
Proof.
  induction qs as [|earlier rest IH]; [reflexivity|].
  destruct rest as [|later rest']; [reflexivity|].
  change (differencesOf (map Num (earlier :: later :: rest')))
    with ((Num later - Num earlier)%js :: differencesOf (map Num (later :: rest'))).
  rewrite IH. reflexivity.
Qed.

Lemma Qdifferences_length (qs : list Q) :
  length (Qdifferences qs) = (length qs - 1)%nat.
Proof.
  induction qs as [|earlier rest IH]; [reflexivity|].
  destruct rest as [|later rest']; [reflexivity|].
  change (Qdifferences (earlier :: later :: rest'))
    with ((later - earlier)%Q :: Qdifferences (later :: rest')).
  cbn [length] in *. rewrite IH. lia.
Qed.

Lemma fromEnd_last_finite (qs : list Q) (last : Q) :
  nth_error qs (length qs - 1) = Some last ->
  fromEnd (map Num qs) 1 = Some (Num last).
Proof.
  intros Hlast. unfold fromEnd, at_index. rewrite length_map.
  assert (Hpos : (0 < length qs)%nat).
  { destruct qs; [destruct (0 - 1)%nat; discriminate Hlast|simpl; lia]. }
  replace (Z.of_nat (length qs) - Z.of_nat 1 <? 0) with false
    by (symmetry; apply Z.ltb_ge; lia).
  replace (Z.to_nat (Z.of_nat (length qs) - Z.of_nat 1))
    with (length qs - 1)%nat by lia.
  apply map_nth_error. exact Hlast.
Qed.

Lemma allSameAsFirst_finite (ds : list Q) (d0 : Q) :
  nth_error ds 0 = Some d0 ->
  allSameAsFirst (map Num ds) = true <-> Forall (fun d => (d == d0)%Q) ds.
Proof.
  intros Hd0. unfold allSameAsFirst.
  rewrite (map_nth_error Num 0 ds Hd0). cbn [toNumber].
  rewrite forallb_forall, Forall_forall. split.
  - intros H d Hin. apply Qeq_bool_iff.
    apply (H (Num d)). apply in_map. exact Hin.
  - intros H x Hin. apply in_map_iff in Hin. destruct Hin as [d [<- Hin]].
    cbn [nseq]. apply Qeq_bool_iff. apply H. exact Hin.
Qed.

Lemma nseq_sym (x y : number) : nseq x y = nseq y x.
Proof.
  destruct x as [p|s|], y as [q|t|]; cbn [nseq]; try reflexivity.
  - destruct (Qeq_bool p q) eqn:H1, (Qeq_bool q p) eqn:H2; try reflexivity.
    + apply Qeq_bool_iff in H1. symmetry in H1. apply Qeq_bool_iff in H1.
      rewrite H1 in H2. discriminate H2.
    + apply Qeq_bool_iff in H2. symmetry in H2. apply Qeq_bool_iff in H2.
      rewrite H2 in H1. discriminate H1.
  - destruct s, t; reflexivity.
Qed.

(** The constant-difference detector on finite numbers. *)
Lemma checkConstantDifference_on_finite (qs : list Q) (d0 last : Q) :
  nth_error (Qdifferences qs) 0 = Some d0 ->
  nth_error qs (length qs - 1) = Some last ->
  (ConstDiff.isConstant (checkConstantDifference (map Num qs)) = true
   <-> Forall (fun d => (d == d0)%Q) (Qdifferences qs))
  /\ (ConstDiff.isConstant (checkConstantDifference (map Num qs)) = true ->
      checkConstantDifference (map Num qs)
      = ConstDiff.make true (Some (Num d0)) (Some (Num (last + d0)%Q))).
Proof.
  intros Hd0 Hlast.
  assert (Hlen : (2 <= length qs)%nat).
  { pose proof (Qdifferences_length qs) as Hl.
    assert (length (Qdifferences qs) <> 0)%nat
      by (destruct (Qdifferences qs); [discriminate Hd0|discriminate]).
    lia. }
  unfold checkConstantDifference. rewrite length_map.
  replace (length qs <? 2)%nat with false by (symmetry; apply Nat.ltb_ge; lia).
  rewrite differencesOf_finite.
  rewrite (fromEnd_last_finite qs last Hlast).
  rewrite (map_nth_error Num 0 (Qdifferences qs) Hd0). cbn [toNumber nadd].
  pose proof (allSameAsFirst_finite (Qdifferences qs) d0 Hd0) as Hsame.
  destruct (allSameAsFirst (map Num (Qdifferences qs))); cbn [ConstDiff.isConstant].
  - split; [|reflexivity]. split; [intros _; apply Hsame; reflexivity|reflexivity].
  - split; [|discriminate]. split; [discriminate|].
    intros H. apply Hsame in H. discriminate H.
Qed.

(** A sequence with a constant difference does not alternate. *)
Lemma constant_difference_not_alternating (sequence : list number) :
  ConstDiff.isConstant (checkConstantDifference sequence) = true ->
  Alt.isAlternating (checkAlternatingPattern sequence) = false.
Proof.
  intros Hconst. unfold checkAlternatingPattern.
  destruct (length sequence <? 4)%nat eqn:Hshort; [reflexivity|].
  apply Nat.ltb_ge in Hshort.
  destruct sequence as [|t1 [|t2 [|t3 [|t4 rest]]]]; try (simpl in Hshort; lia).
  unfold checkConstantDifference in Hconst.
  replace (length (t1 :: t2 :: t3 :: t4 :: rest) <? 2)%nat with false in Hconst
    by reflexivity.
  destruct (allSameAsFirst (differencesOf (t1 :: t2 :: t3 :: t4 :: rest)))
    eqn:Hsame; [|discriminate Hconst].
  change (differencesOf (t1 :: t2 :: t3 :: t4 :: rest))
    with ((t2 - t1)%js :: (t3 - t2)%js :: differencesOf (t3 :: t4 :: rest))
    in *.
  unfold allSameAsFirst in Hsame. cbn [forallb nth_error toNumber] in Hsame.
  apply andb_true_iff in Hsame. destruct Hsame as [_ Hsame].
  apply andb_true_iff in Hsame. destruct Hsame as [Hsecond _].
  change (filteri_from (fun i => (i mod 2 =? 0)%nat) 0
            ((t2 - t1)%js :: (t3 - t2)%js :: differencesOf (t3 :: t4 :: rest)))
    with ((t2 - t1)%js
          :: filteri_from (fun i => (i mod 2 =? 0)%nat) 2
               (differencesOf (t3 :: t4 :: rest))).
  change (filteri_from (fun i => (i mod 2 =? 1)%nat) 0
            ((t2 - t1)%js :: (t3 - t2)%js :: differencesOf (t3 :: t4 :: rest)))
    with ((t3 - t2)%js
          :: filteri_from (fun i => (i mod 2 =? 1)%nat) 2
               (differencesOf (t3 :: t4 :: rest))).
  cbn [nth_error strictNe]. rewrite nseq_sym, Hsecond.
  cbn [negb]. rewrite andb_false_r. reflexivity.
Qed.

Lemma ratiosOf_nonempty (sequence : list number) :
  (2 <= length sequence)%nat ->
  exists r0, nth_error (ratiosOf sequence) 0 = Some r0.
Proof.
  destruct sequence as [|t1 [|t2 rest]]; simpl; try lia.
  intros _. eexists. reflexivity.
Qed.

(** The decision of the constant-ratio detector. *)
Lemma checkConstantRatio_decision (sequence : list number) :
  ConstRatio.isConstant (checkConstantRatio sequence) = true <->
  (2 <= length sequence)%nat
  /\ (forall v, In v sequence -> nseq v (ofZ 0) = false)
  /\ (forall r, In r (ratiosOf sequence) ->
        withinTolerance r (toNumber (nth_error (ratiosOf sequence) 0))).
Proof.
  unfold checkConstantRatio. split.
  - destruct (length sequence <? 2)%nat eqn:Hlen; [intros H; discriminate H|].
    destruct (existsb _ sequence) eqn:Hzero; [intros H; discriminate H|].
    cbn [orb].
    destruct (forallb _ (ratiosOf sequence)) eqn:Hall; [|intros H; discriminate H].
    intros _. split; [apply Nat.ltb_ge; exact Hlen|]. split.
    + intros v Hin. destruct (nseq v (ofZ 0)) eqn:Hv; [|reflexivity].
      assert (Hex : existsb (fun v => nseq v (ofZ 0)) sequence = true)
        by (apply existsb_exists; exists v; split; assumption).
      rewrite Hex in Hzero. discriminate Hzero.
    + intros r Hin. unfold withinTolerance.
      rewrite forallb_forall in Hall. apply Hall. exact Hin.
  - intros [Hlen [Hnonzero Hagree]].
    replace (length sequence <? 2)%nat with false
      by (symmetry; apply Nat.ltb_ge; exact Hlen).
    rewrite (existsb_false_forall _ _ Hnonzero). cbn [orb].
    replace (forallb _ (ratiosOf sequence)) with true
      by (symmetry; apply forallb_forall; exact Hagree).
    destruct (ratiosOf_nonempty sequence Hlen) as [r0 Hr0].
    rewrite Hr0 in *. cbn [toNumber] in *.
    destruct (withinTolerance_self_finite r0) as [q Hq].
    { apply Hagree. eapply nth_error_In. exact Hr0. }
    subst r0. rewrite isInteger_nround_finite. reflexivity.
Qed.

Ltac eval_closed_tests :=
  repeat match goal with
  | |- context [if ?c then _ else _] =>
      let c' := eval vm_compute in c in
      match c' with
      | true => change c with true
      | false => change c with false
      end; cbv iota
  end.

Ltac eval_injections :=
  repeat match goal with
  | |- context [inject_Z ?z] =>
      let v := eval vm_compute in (inject_Z z) in change (inject_Z z) with v
  end.

(** With fewer than three terms the normal equations are singular. *)
Lemma fitQuadratic_short (sequence : list number) :
  (length sequence < 3)%nat ->
  Fit.error (fitQuadratic sequence) = Inf false
  /\ fst (fst (Fit.coefficients (fitQuadratic sequence))) = ofZ 0.
Proof.
  intros Hlen.
  destruct sequence as [|y1 [|y2 [|y3 rest]]]; try (simpl in Hlen; lia);
    unfold fitQuadratic; cbv zeta; eval_closed_tests; split; reflexivity.
Qed.

Ltac reduce_fit :=
  unfold fitQuadratic, quadraticFive; cbv zeta;
  cbn [map length sumsLoop sumsStep sumX0 sumX1 sumX2 sumX3 sumX4 sumY sumX1Y
       sumX2Y nadd nsub nmul nneg nabs ofNat ofZ];
  eval_closed_tests;
  cbn [Fit.nextValue Fit.error Fit.coefficients ndiv errorLoop];
  eval_closed_tests;
  cbn [nadd nsub nmul nneg nabs nround ofNat ofZ ndiv];
  eval_closed_tests.

Lemma fitQuadratic_five_error (a b c : Q) :
  sameValue (Fit.error (fitQuadratic (quadraticFive a b c))) (ofZ 0).
Proof.
  reduce_fit. cbn [sameValue ofZ].
  repeat match goal with
  | |- context [Qabs ?x] =>
      let H := fresh "Hzero" in
      assert (H : (x == 0)%Q) by (unfold quadraticTerm; eval_injections; field);
      rewrite H; change (Qabs 0) with 0%Q; clear H
  end.
  eval_injections. reflexivity.
Qed.

Lemma fitQuadratic_five_coefficients (a b c : Q) :
  let '(fa, fb, fc) := Fit.coefficients (fitQuadratic (quadraticFive a b c)) in
  sameValue fa (Num a) /\ sameValue fb (Num b) /\ sameValue fc (Num c).
Proof.
  reduce_fit. cbn [sameValue].
  unfold quadraticTerm; eval_injections. repeat split; field.
Qed.

Lemma fitQuadratic_five_next (a b c : Q) :
  Fit.nextValue (fitQuadratic (quadraticFive a b c))
  = ofZ (Qround_half_up (quadraticTerm a b c 6)).
Proof.
  reduce_fit. unfold Qround_half_up.
  apply (f_equal (fun z => Num (inject_Z z))). apply Qfloor_comp.
  apply Qplus_comp; [|reflexivity].
  unfold quadraticTerm. eval_injections. field.
Qed.

(** The linear fallback on two finite terms extrapolates the line through
    them. *)
Lemma fitQuadratic_two_terms (y1 y2 : Q) :
  Fit.nextValue (fitQuadratic [Num y1; Num y2])
  = ofZ (Qround_half_up (2 * y2 - y1)).
Proof.
  unfold fitQuadratic; cbv zeta. eval_closed_tests.
  cbn [Fit.nextValue length toNumber at_index fromEnd].
  unfold fromEnd, at_index. cbn [length]. eval_closed_tests.
  cbn [nth_error Z.to_nat toNumber nsub nneg nadd ofNat ofZ ndiv].
  eval_closed_tests. cbn [nmul nadd nround ofZ].
  unfold Qround_half_up.
  apply (f_equal (fun z => Num (inject_Z z))). apply Qfloor_comp.
  apply Qplus_comp; [|reflexivity].
  eval_injections. field.
Qed.

(** Without a confident quadratic fit the quadratic is not a rival. *)
Lemma no_quadratic_rival (primarySeq : list number)
    (intendedAnswer : option number) (alt : Alternative.t) :
  nlt (Fit.error (fitQuadratic primarySeq)) (Num (1 # 2))
  && strictNe (Some (Fit.nextValue (fitQuadratic primarySeq))) intendedAnswer
  = false ->
  In alt (alternativesOf primarySeq intendedAnswer) ->
  Alternative.method_ alt <> quadratic.
Proof.
  intros Hquad Hin. unfold alternativesOf in Hin. rewrite Hquad in Hin.
  rewrite !in_app_iff, !In_if_singleton in Hin.
  destruct Hin as [[] | [[_ Halt] | [[_ Halt] | [_ Halt]]]];
    subst alt; discriminate.
Qed.

(* ================================================================== *)
(** ** More on the pipeline, the builder and the orchestrator *)
(* ================================================================== *)

Lemma validateDifficulty_returns (puzzle : Puzzle.t) (primarySeq : list number) :
  nth_error (Puzzle.sequences puzzle) (Puzzle.primarySequenceIndex puzzle)
    = Some primarySeq ->
  exists r, validateDifficulty puzzle = Ok r.
Proof. intros H. unfold validateDifficulty. rewrite H. eexists. reflexivity. Qed.

Lemma validateAmbiguity_returns (puzzle : Puzzle.t) (primarySeq : list number) :
  nth_error (Puzzle.sequences puzzle) (Puzzle.primarySequenceIndex puzzle)
    = Some primarySeq ->
  exists r, validateAmbiguity puzzle = Ok r.
Proof.
  intros H. unfold validateAmbiguity. rewrite H.
  destruct (if (0 <? _)%nat then _ else _) as [errors warnings].
  eexists. reflexivity.
Qed.

(** The pipeline raises exactly when the structure is valid and the
    primary index selects no sequence. *)
Lemma validatePuzzle_raises_iff (puzzle : Puzzle.t) (e : thrown) :
  validatePuzzle puzzle = Throw e <->
  e = TypeError
  /\ VR.valid (validateStructure puzzle) = true
  /\ (length (Puzzle.sequences puzzle) <= Puzzle.primarySequenceIndex puzzle)%nat.
Proof.
  unfold validatePuzzle.
  destruct (VR.valid (validateStructure puzzle)) eqn:Hvalid.
  - destruct (nth_error (Puzzle.sequences puzzle)
                (Puzzle.primarySequenceIndex puzzle)) as [primarySeq|] eqn:Hseq.
    + destruct (validateDifficulty_returns puzzle primarySeq Hseq) as [d Hd].
      destruct (validateAmbiguity_returns puzzle primarySeq Hseq) as [a Ha].
      rewrite Hd, Ha. cbn [bind]. split; [discriminate|].
      intros [_ [_ Hlen]]. apply nth_error_None in Hlen.
      rewrite Hlen in Hseq. discriminate Hseq.
    + assert (Hd : validateDifficulty puzzle = Throw TypeError)
        by (unfold validateDifficulty; rewrite Hseq; reflexivity).
      rewrite Hd. cbn [bind]. split.
      * intros [= <-]. split; [reflexivity|]. split; [reflexivity|].
        apply nth_error_None. exact Hseq.
      * intros [-> _]. reflexivity.
  - split; [discriminate|]. intros [_ [H _]]. discriminate H.
Qed.

Lemma validatePuzzle_errors_structure (puzzle : Puzzle.t) (r : VR.t) :
  validatePuzzle puzzle = Ok r ->
  VR.errors r = VR.errors (validateStructure puzzle).
Proof.
  intros Hrun.
  pose proof (validatePuzzle_valid_iff_structure puzzle r Hrun) as Hvalid.
  pose proof (Produced_valid r (ByPipeline puzzle r Hrun)) as Hr.
  unfold validatePuzzle in Hrun.
  destruct (VR.valid (validateStructure puzzle)) eqn:Hs.
  - rewrite Hvalid in Hr. symmetry in Hr. apply noErrors_true_iff in Hr.
    change (VR.valid (validateStructure puzzle))
      with (noErrors (VR.errors (validateStructure puzzle))) in Hs.
    apply noErrors_true_iff in Hs. rewrite Hr, Hs. reflexivity.
  - injection Hrun as <-. reflexivity.
Qed.

(** [evaluateNextValue] never reads [startingValues]. *)
Lemma evaluateNextValue_ignores_seed (sequence : list number)
    (ruleType : RuleProgramType) (params : Params.t)
    (seed : option (list Q)) (position : Z) :
  evaluateNextValue sequence ruleType (Params.with_startingValues params seed)
    position
  = evaluateNextValue sequence ruleType params position.
Proof. destruct ruleType; reflexivity. Qed.

Lemma outputs_five_by_five (outputs : list Gen.t)
    (ruleType : RuleProgramType) (params : Params.t) (tags hints : list string)
    (explanation : string) :
  length outputs = NUM_SEQUENCES ->
  (forall out, In out outputs -> length (Gen.sequence out) = SEQUENCE_LENGTH) ->
  fiveByFive (Puzzle.make ruleType params tags (map Gen.sequence outputs)
                (map Gen.nextValue outputs) 0%nat hints explanation).
Proof.
  intros Hlen Hterms. unfold fiveByFive.
  cbn [Puzzle.sequences Puzzle.answers Puzzle.primarySequenceIndex].
  rewrite !length_map. repeat split; try assumption.
  intros seq Hin. apply in_map_iff in Hin. destruct Hin as [out [<- Hout]].
  apply Hterms. exact Hout.
Qed.

Lemma outputs_answers_continue (outputs : list Gen.t)
    (ruleType : RuleProgramType) (params : Params.t) (tags hints : list string)
    (explanation : string) :
  (forall out, In out outputs ->
     evaluateNextValue (Gen.sequence out) ruleType params
       (Z.of_nat SEQUENCE_LENGTH + 1) = Ok (Gen.nextValue out)) ->
  answersContinue (Puzzle.make ruleType params tags (map Gen.sequence outputs)
                     (map Gen.nextValue outputs) 0%nat hints explanation).
Proof.
  intros Hcont i seq ans Hseq Hans.
  cbn [Puzzle.sequences Puzzle.answers Puzzle.ruleProgramType
       Puzzle.ruleProgramParams] in *.
  rewrite nth_error_map in Hseq, Hans.
  destruct (nth_error outputs i) as [out|] eqn:Hout; [|discriminate Hseq].
  cbn [option_map] in Hseq, Hans.
  injection Hseq as <-. injection Hans as <-.
  apply Hcont. eapply nth_error_In. exact Hout.
Qed.

(** The sequences the builder generates one by one for a non-positional
    kind. *)
Lemma builder_bodies (ruleType : RuleProgramType) (params : Params.t)
    (sets : list (list Q)) (generatedList : list Gen.t) :
  isPositional ruleType = false ->
  collect (fun i =>
    let startVals :=
      match nth_error sets i with
      | Some vals => Some vals
      | None => nth_error sets 0
      end in
    let paramsWithStart := Params.with_startingValues params startVals in
    several <-
      generateMultipleSequences ruleType paramsWithStart 1 SEQUENCE_LENGTH ;;
    match several with
    | generated :: _ => Ok generated
    | [] => Throw TypeError
    end) NUM_SEQUENCES 0 = Ok generatedList ->
  length generatedList = NUM_SEQUENCES
  /\ forall out, In out generatedList ->
       length (Gen.sequence out) = SEQUENCE_LENGTH
       /\ evaluateNextValue (Gen.sequence out) ruleType params
            (Z.of_nat SEQUENCE_LENGTH + 1) = Ok (Gen.nextValue out).
Proof.
  intros Hkind Hrun.
  destruct (collect_spec _ _ _ _ Hrun) as [Hlen Hbody].
  split; [exact Hlen|].
  intros out Hin. apply In_nth_error in Hin. destruct Hin as [i Hi].
  apply Hbody in Hi. cbv beta zeta in Hi.
  set (startVals := match nth_error sets (0 + i) with
                    | Some vals => Some vals
                    | None => nth_error sets 0
                    end) in Hi.
  rewrite (generateMultipleSequences_seeded _ _ _ _ Hkind) in Hi.
  cbn [collect] in Hi.
  destruct (generateSequence ruleType _ SEQUENCE_LENGTH _) as [g|e] eqn:Hg;
    cbn [bind] in Hi; [|discriminate Hi].
  injection Hi as <-.
  apply generateSequence_shape in Hg. destruct Hg as [Hl Hc].
  split; [exact Hl|].
  rewrite evaluateNextValue_ignores_seed in Hc. exact Hc.
Qed.

Lemma buildPuzzle_five_by_five (response : Response.t) (puzzle : Puzzle.t) :
  buildPuzzleFromAIResponse response = Ok puzzle ->
  fiveByFive puzzle.
Proof.
  unfold buildPuzzleFromAIResponse.
  destruct (generateMultipleSequences _ _ NUM_SEQUENCES SEQUENCE_LENGTH)
    as [outputs|e] eqn:Hgen; cbn [bind]; [|discriminate].
  destruct (needsStartingValues (Response.ruleProgramType response)) eqn:Hneeds.
  - destruct (collect _ NUM_SEQUENCES 0) as [generatedList|e] eqn:Hlist;
      cbn [bind]; [|discriminate].
    intros [= <-].
    apply negb_true_iff in Hneeds.
    destruct (builder_bodies _ _ _ _ Hneeds Hlist) as [Hlen Hall].
    apply outputs_five_by_five; [exact Hlen|].
    intros out Hin. apply Hall. exact Hin.
  - intros [= <-].
    destruct (generateMultipleSequences_shape _ _ _ _ _ Hgen) as [Hlen Hall].
    apply outputs_five_by_five; assumption.
Qed.

Lemma fiveByFive_validates (puzzle : Puzzle.t) :
  fiveByFive puzzle -> exists r, validatePuzzle puzzle = Ok r.
Proof.
  intros [Hseqs [_ [_ Hprimary]]].
  destruct (validatePuzzle puzzle) as [r|e] eqn:Hrun; [eexists; reflexivity|].
  apply validatePuzzle_raises_iff in Hrun. destruct Hrun as [_ [_ Hlen]].
  rewrite Hseqs, Hprimary in Hlen. unfold NUM_SEQUENCES in Hlen. lia.
Qed.

(** A five-by-five puzzle has no error about its shape. *)
Lemma fiveByFive_shape_errors (puzzle : Puzzle.t) (e : message) :
  fiveByFive puzzle ->
  In e (VR.errors (validateStructure puzzle)) ->
  e <> NoSequences /\ e <> AnswersCountMismatch
  /\ forall seqNo, e <> SequenceTooShort seqNo.
Proof.
  intros [Hseqs [Hans [Hterms _]]] Hin.
  apply validateStructure_errors_In in Hin.
  destruct Hin as [[Hnil _] | [[_ H] | [[Hlen _] | [[_ H] | [[_ ->] | [_ ->]]]]]].
  - rewrite Hnil in Hseqs. discriminate Hseqs.
  - apply sequenceErrors_In in H.
    destruct H as [k [seq [Hn [[Hshort _] | Hterm]]]].
    + apply nth_error_In in Hn. apply Hterms in Hn.
      rewrite Hn in Hshort. discriminate Hshort.
    + apply termErrors_In in Hterm.
      destruct Hterm as [j [v [_ [[_ ->]|[_ ->]]]]];
        repeat split; try discriminate; intros seqNo; discriminate.
  - rewrite Hseqs, Hans in Hlen. contradiction.
  - apply answerErrors_In in H.
    destruct H as [k [v [_ [[_ ->]|[_ ->]]]]];
      repeat split; try discriminate; intros seqNo; discriminate.
  - repeat split; try discriminate; intros seqNo; discriminate.
  - repeat split; try discriminate; intros seqNo; discriminate.
Qed.

Lemma attemptYields_not_fails (ai : ProposalSource) (n : nat) (puzzle : Puzzle.t) :
  attemptYields ai n puzzle -> ~ attemptFails ai n.
Proof.
  intros [aiResponse [validation [Hai [Hbuild [Hval Hvalid]]]]] Hfails.
  unfold attemptFails in Hfails. rewrite Hai, Hbuild, Hval in Hfails.
  rewrite Hvalid in Hfails. discriminate Hfails.
Qed.

(** One attempt either yields a validated puzzle or fails. *)
Lemma tryAttempt_outcome (ai : ProposalSource) (w : World) :
  (exists puzzle validation,
      tryAttempt ai w = Ok (puzzle, validation)
      /\ VR.valid validation = true
      /\ attemptYields ai (proposals w) puzzle)
  \/ (attemptFails ai (proposals w)
      /\ ((exists error, tryAttempt ai w = Throw error)
          \/ exists puzzle validation,
               tryAttempt ai w = Ok (puzzle, validation)
               /\ VR.valid validation = false)).
Proof.
  unfold tryAttempt, attemptFails, attemptYields.
  destruct (ai (proposals w)) as [aiResponse|e1]; cbn [bind].
  - destruct (buildPuzzleFromAIResponse aiResponse) as [puzzle|e2] eqn:Hbuild;
      cbn [bind].
    + destruct (validatePuzzle puzzle) as [validation|e3] eqn:Hval; cbn [bind].
      * destruct (VR.valid validation) eqn:Hvalid.
        -- left. exists puzzle, validation. split; [reflexivity|].
           split; [exact Hvalid|]. exists aiResponse, validation.
           repeat split; assumption.
        -- right. split; [reflexivity|]. right. exists puzzle, validation.
           split; [reflexivity|exact Hvalid].
      * right. split; [exact I|]. left. eexists. reflexivity.
    + right. split; [exact I|]. left. eexists. reflexivity.
  - right. split; [exact I|]. left. eexists. reflexivity.
Qed.

(** The orchestrator returns the puzzle of the first attempt that yields
    one, or the fallback when none of the attempts left does. *)
Lemma generatePuzzleFrom_outcome (ai : ProposalSource) (dateKey : string) :
  forall budget attempt w out w',
    generatePuzzleFrom ai dateKey budget attempt w = (Ok out, w') ->
    (Generated.isFallback out = true
     /\ (forall j, (j < budget)%nat -> attemptFails ai (proposals w + j))
     /\ proposals w' = (proposals w + budget)%nat)
    \/ (Generated.isFallback out = false
        /\ exists k puzzle,
             (k < budget)%nat
             /\ (forall j, (j < k)%nat -> attemptFails ai (proposals w + j))
             /\ attemptYields ai (proposals w + k) puzzle
             /\ Generated.puzzle out = Some puzzle
             /\ proposals w' = (proposals w + k + 1)%nat).
Proof.
  induction budget as [|budget IH]; intros attempt w out w' Hrun.
  - cbn [generatePuzzleFrom] in Hrun. injection Hrun as <- <-.
    left. split; [reflexivity|]. split; [intros j Hj; lia|].
    cbn [say proposals]. lia.
  - cbn [generatePuzzleFrom] in Hrun.
    assert (Hrest : forall w1,
              proposals w1 = S (proposals w) ->
              generatePuzzleFrom ai dateKey budget (attempt + 1) w1 = (Ok out, w') ->
              attemptFails ai (proposals w) ->
              (Generated.isFallback out = true
               /\ (forall j, (j < S budget)%nat ->
                     attemptFails ai (proposals w + j))
               /\ proposals w' = (proposals w + S budget)%nat)
              \/ (Generated.isFallback out = false
                  /\ exists k puzzle,
                       (k < S budget)%nat
                       /\ (forall j, (j < k)%nat ->
                             attemptFails ai (proposals w + j))
                       /\ attemptYields ai (proposals w + k) puzzle
                       /\ Generated.puzzle out = Some puzzle
                       /\ proposals w' = (proposals w + k + 1)%nat)).
    { intros w1 Hw1 Hnext Hfails.
      assert (Hshift : forall j, (proposals w1 + j = proposals w + S j)%nat)
        by (intros j; lia).
      destruct (IH _ _ _ _ Hnext)
        as [[Hfb [Hall Hcalls]] | [Hfb [k [puzzle [Hk [Hall [Hy [Hp Hcalls]]]]]]]].
      - left. split; [exact Hfb|]. split; [|lia].
        intros [|j] Hj.
        + rewrite Nat.add_0_r. exact Hfails.
        + rewrite <- Hshift. apply Hall. lia.
      - right. split; [exact Hfb|]. exists (S k), puzzle.
        split; [lia|]. split.
        + intros [|j] Hj.
          * rewrite Nat.add_0_r. exact Hfails.
          * rewrite <- Hshift. apply Hall. lia.
        + rewrite <- Hshift. split; [exact Hy|]. split; [exact Hp|]. lia. }
    destruct (tryAttempt_outcome ai w)
      as [[puzzle [validation [Htry [Hvalid Hyields]]]]
         | [Hfails [[error Htry] | [puzzle [validation [Htry Hvalid]]]]]];
      rewrite Htry in Hrun.
    + rewrite Hvalid in Hrun. cbn [negb] in Hrun. injection Hrun as <- <-.
      right. split; [reflexivity|]. exists 0%nat, puzzle.
      split; [lia|]. split; [intros j Hj; lia|].
      rewrite Nat.add_0_r. split; [exact Hyields|]. split; [reflexivity|].
      destruct (0 <? length (VR.warnings validation))%nat;
        cbn [say called proposals]; lia.
    + eapply Hrest; [|exact Hrun|exact Hfails]. reflexivity.
    + rewrite Hvalid in Hrun. cbn [negb] in Hrun.
      eapply Hrest; [|exact Hrun|exact Hfails]. reflexivity.
Qed.

(* ------------------------------------------------------------------ *)
(** *** Arithmetic sequences and the constant-difference detector *)

Lemma progression_length (x d : Q) (n : nat) :
  length (progression x d n) = S n.
Proof.
  revert x. induction n as [|n IH]; intros x; cbn [progression length].
  - reflexivity.
  - rewrite IH. reflexivity.
Qed.

Lemma arithmetic_step (qs : list Q) (x : Q) (params : Params.t) (position : Z) :
  evaluateNextValue (map Num (qs ++ [x])) ARITHMETIC_SEQUENCE params position
  = Ok (Num (x + (Params.difference params ?? 0%Q))%Q).
Proof.
  cbn [evaluateNextValue].
  rewrite (fromEnd_last_finite (qs ++ [x]) x).
  - reflexivity.
  - rewrite length_app. cbn [length].
    rewrite nth_error_app2 by lia.
    replace (length qs + 1 - 1 - length qs)%nat with 0%nat by lia.
    reflexivity.
Qed.

Lemma arithmetic_fill (params : Params.t) :
  forall steps qs x,
    fillLoop ARITHMETIC_SEQUENCE params steps (map Num (qs ++ [x]))
    = Ok (map Num (qs ++ progression x (Params.difference params ?? 0%Q) steps)).
Proof.
  induction steps as [|steps IH]; intros qs x.
  - reflexivity.
  - cbn [fillLoop]. rewrite arithmetic_step. cbn [bind].
    change [Num (x + (Params.difference params ?? 0%Q))%Q]
      with (map Num [(x + (Params.difference params ?? 0%Q))%Q]).
    rewrite <- map_app. rewrite IH. rewrite <- app_assoc. reflexivity.
Qed.

Lemma progression_differences (d : Q) :
  forall n x, Forall (fun e => (e == d)%Q) (Qdifferences (progression x d n)).
Proof.
  induction n as [|n IH]; intros x.
  - constructor.
  - change (progression x d (S n)) with (x :: progression (x + d)%Q d n).
    specialize (IH (x + d)%Q).
    destruct n as [|n].
    + cbn [progression Qdifferences]. constructor; [ring|constructor].
    + change (progression (x + d)%Q d (S n))
        with ((x + d)%Q :: progression (x + d + d)%Q d n) in *.
      change (Qdifferences (x :: (x + d)%Q :: progression (x + d + d)%Q d n))
        with ((x + d - x)%Q
              :: Qdifferences ((x + d)%Q :: progression (x + d + d)%Q d n)).
      constructor; [ring|exact IH].
Qed.

(** What the generator produces for the arithmetic rule from one finite
    starting value. *)
Lemma generateSequence_arithmetic (params : Params.t) (len : nat) (v : Q) :
  (1 <= len)%nat ->
  generateSequence ARITHMETIC_SEQUENCE params len (Some [Num v])
  = Ok (Gen.make
          (map Num (progression v (Params.difference params ?? 0%Q) (len - 1)))
          (Num (last (progression v (Params.difference params ?? 0%Q) (len - 1)) 0
                + (Params.difference params ?? 0%Q))%Q)).
Proof.
  intros Hlen. unfold generateSequence. cbn [isPositional orElse length].
  replace (Nat.min 1 len) with 1%nat by lia. cbn [firstn length].
  change [Num v] with (map Num ([] ++ [v])).
  rewrite arithmetic_fill. cbn [bind]. rewrite !app_nil_l.
  set (qs := progression v (Params.difference params ?? 0%Q) (len - 1)).
  assert (Hne : qs <> []).
  { intros H. apply (f_equal (@length Q)) in H. unfold qs in H.
    rewrite progression_length in H. discriminate H. }
  rewrite (app_removelast_last 0%Q Hne) at 1.
  rewrite arithmetic_step. reflexivity.
Qed.

(** The detector recognises it and predicts the generated continuation. *)
Lemma arithmetic_detected (params : Params.t) (len : nat) (v : Q) :
  (2 <= len)%nat ->
  let qs := progression v (Params.difference params ?? 0%Q) (len - 1) in
  ConstDiff.isConstant (checkConstantDifference (map Num qs)) = true
  /\ strictEq (ConstDiff.nextValue (checkConstantDifference (map Num qs)))
       (Some (Num (last qs 0 + (Params.difference params ?? 0%Q))%Q)) = true.
Proof.
  intros Hlen qs. set (d := Params.difference params ?? 0%Q) in *.
  assert (Hshape : exists rest,
             qs = v :: (v + d)%Q :: rest).
  { unfold qs. destruct (len - 1)%nat as [|n] eqn:Hn; [lia|].
    destruct n as [|n]; cbn [progression]; eexists; reflexivity. }
  destruct Hshape as [rest Hqs].
  assert (Hd0 : nth_error (Qdifferences qs) 0 = Some (v + d - v)%Q)
    by (rewrite Hqs; reflexivity).
  assert (Hne : qs <> []) by (rewrite Hqs; discriminate).
  assert (Hlast : nth_error qs (length qs - 1) = Some (last qs 0%Q)).
  { rewrite (app_removelast_last 0%Q Hne) at 1 2.
    rewrite length_app. cbn [length].
    rewrite nth_error_app2 by lia.
    replace (length (removelast qs) + 1 - 1 - length (removelast qs))%nat
      with 0%nat by lia.
    reflexivity. }
  destruct (checkConstantDifference_on_finite qs _ _ Hd0 Hlast) as [Hiff Hrec].
  assert (Hconst : ConstDiff.isConstant (checkConstantDifference (map Num qs)) = true).
  { apply Hiff. unfold qs.
    eapply Forall_impl; [|apply progression_differences].
    intros e He. cbv beta in He. rewrite He. ring. }
  split; [exact Hconst|].
  rewrite (Hrec Hconst). cbn [ConstDiff.nextValue].
  unfold strictEq, strictNe. cbn [nseq]. rewrite negb_involutive.
  apply Qeq_bool_iff. ring.
Qed.

(* ------------------------------------------------------------------ *)
(** *** The starting values the builder uses *)

Lemma padStartingValueSets_nth (baseValues : list Q) :
  forall steps sets i,
    ((i < length sets)%nat ->
     nth_error (padStartingValueSets baseValues steps sets) i = nth_error sets i)
    /\ ((length sets <= i < length sets + steps)%nat ->
        nth_error (padStartingValueSets baseValues steps sets) i
        = Some (mapi (vary (i + 1)) baseValues)).
Proof.
  induction steps as [|steps IH]; intros sets i.
  - cbn [padStartingValueSets]. split; [reflexivity|lia].
  - cbn [padStartingValueSets].
    destruct (IH (sets ++ [mapi (vary (length sets + 1)) baseValues]) i)
      as [Hold Hnew].
    rewrite length_app in Hold, Hnew. cbn [length] in Hold, Hnew.
    split.
    + intros Hi. rewrite Hold by lia. apply nth_error_app1. exact Hi.
    + intros Hi. destruct (Nat.eq_dec i (length sets)) as [->|Hne].
      * rewrite Hold by lia. rewrite nth_error_app2 by lia.
        rewrite Nat.sub_diag. reflexivity.
      * apply Hnew. lia.
Qed.

Lemma startingValueSetsOf_nth (response : Response.t) (i : nat) :
  (forall set,
      nth_error (Response.suggestedStartingValues response ?? []) i = Some set ->
      nth_error (startingValueSetsOf response) i = Some set)
  /\ ((length (Response.suggestedStartingValues response ?? []) <= i)%nat ->
      (i < NUM_SEQUENCES)%nat ->
      nth_error (startingValueSetsOf response) i
      = Some (mapi (vary (i + 1))
                (Params.startingValues (Response.ruleProgramParams response)
                   ?? [1%Q]))).
Proof.
  unfold startingValueSetsOf.
  set (suggested := Response.suggestedStartingValues response ?? []).
  set (baseValues := Params.startingValues _ ?? [1%Q]).
  destruct (length suggested <? NUM_SEQUENCES)%nat eqn:Hfew.
  - apply Nat.ltb_lt in Hfew.
    destruct (padStartingValueSets_nth baseValues
                (NUM_SEQUENCES - length suggested) suggested i) as [Hold Hnew].
    split.
    + intros set Hset. rewrite Hold; [exact Hset|].
      apply nth_error_Some. rewrite Hset. discriminate.
    + intros Hle Hi. apply Hnew. lia.
  - apply Nat.ltb_ge in Hfew. split; [intros set Hset; exact Hset|].
    intros Hle Hi. lia.
Qed.

(** Sequence [i] of a built non-positional puzzle starts with the values of
    starting value set [i]. *)
Lemma buildPuzzle_sequence_seed (response : Response.t) (puzzle : Puzzle.t)
    (i idx : nat) (seq : list number) (set : list Q) (v : Q) :
  isPositional (Response.ruleProgramType response) = false ->
  buildPuzzleFromAIResponse response = Ok puzzle ->
  nth_error (Puzzle.sequences puzzle) i = Some seq ->
  nth_error (startingValueSetsOf response) i = Some set ->
  nth_error set idx = Some v ->
  (idx < SEQUENCE_LENGTH)%nat ->
  nth_error seq idx = Some (Num (v + Qnat 0 * (Qnat idx + 1) * 2)%Q).
Proof.
  intros Hkind Hbuild Hseq Hset Hv Hidx.
  unfold buildPuzzleFromAIResponse in Hbuild.
  fold (startingValueSetsOf response) in Hbuild.
  destruct (generateMultipleSequences _ _ NUM_SEQUENCES SEQUENCE_LENGTH)
    as [outputs|e]; cbn [bind] in Hbuild; [|discriminate Hbuild].
  unfold needsStartingValues in Hbuild. rewrite Hkind in Hbuild.
  cbn [negb] in Hbuild.
  destruct (collect _ NUM_SEQUENCES 0) as [generatedList|e] eqn:Hlist;
    cbn [bind] in Hbuild; [|discriminate Hbuild].
  injection Hbuild as <-. cbn [Puzzle.sequences] in Hseq.
  rewrite nth_error_map in Hseq.
  destruct (nth_error generatedList i) as [out|] eqn:Hout; [|discriminate Hseq].
  cbn [option_map] in Hseq. injection Hseq as <-.
  destruct (collect_spec _ _ _ _ Hlist) as [_ Hbody].
  apply Hbody in Hout. cbv beta zeta in Hout.
  change (0 + i)%nat with i in Hout. rewrite Hset in Hout.
  rewrite (generateMultipleSequences_seeded _ _ _ _ Hkind) in Hout.
  cbn [collect] in Hout.
  destruct (generateSequence _ _ SEQUENCE_LENGTH _) as [g|e] eqn:Hg;
    cbn [bind] in Hout; [|discriminate Hout].
  injection Hout as <-.
  eapply seeded_output_term; [exact Hkind|exact Hg| |exact Hidx].
  exact Hv.
Qed.

Lemma Qnat_succ (i : nat) : (Qnat (i + 1) == Qnat i + 1)%Q.
Proof.
  unfold Qnat. rewrite Nat2Z.inj_add, inject_Z_plus. reflexivity.
Qed.

Lemma Qnat_positive (i : nat) : (1 <= i)%nat -> (0 < Qnat i)%Q.
Proof.
  intros Hi. unfold Qnat. change 0%Q with (inject_Z 0).
  rewrite <- Zlt_Qlt. lia.
Qed.

(* ------------------------------------------------------------------ *)
(** *** Verifying the sequences of a positional rule *)

Lemma everyi_positional (generated : nat -> number) (given : nat -> Q)
    (len : nat) :
  forall n i0,
    (i0 + n <= len)%nat ->
    everyi_from
      (fun val idx =>
         strictEq (nth_error (map generated (seq 0 len)) idx) (Some val))
      i0 (map (fun j => Num (given j)) (seq i0 n))
    = forallb (fun j => nseq (generated j) (Num (given j))) (seq i0 n).
Proof.
  induction n as [|n IH]; intros i0 Hlen; cbn [seq map everyi_from forallb].
  - reflexivity.
  - rewrite IH by lia. f_equal.
    rewrite nth_error_map, nth_error_seq.
    replace (i0 <? len)%nat with true by (symmetry; apply Nat.ltb_lt; lia).
    cbn [option_map]. unfold strictEq, strictNe.
    rewrite negb_involutive. reflexivity.
Qed.

(** [verifySequence] on the sequence of terms [given] under a positional
    rule whose terms are [term] compares the two position by position. *)
Lemma verifySequence_positional (ruleType : RuleProgramType)
    (params : Params.t) (term given : Z -> Q) (len : nat) :
  isPositional ruleType = true ->
  (forall sequence position,
      evaluateNextValue sequence ruleType params position
      = Ok (Num (term position))) ->
  verifySequence (Gen.sequence (positionalSequence given len))
    (Gen.nextValue (positionalSequence given len)) ruleType params
  = Ok (forallb (fun j => Qeq_bool (term (1 + Z.of_nat j))
                                   (given (1 + Z.of_nat j))) (seq 0 len)
        && Qeq_bool (term (Z.of_nat len + 1)) (given (Z.of_nat len + 1))).
Proof.
  intros Hkind Heval. unfold verifySequence.
  cbn [positionalSequence Gen.sequence Gen.nextValue].
  rewrite length_map, length_seq.
  rewrite (generateSequence_positional_closed ruleType params term len _
             Hkind Heval).
  cbn [bind positionalSequence Gen.sequence Gen.nextValue].
  rewrite (everyi_positional
             (fun j => Num (term (1 + Z.of_nat j)))
             (fun j => given (1 + Z.of_nat j)) len len 0) by lia.
  reflexivity.
Qed.

Lemma quadratic_outputs (params : Params.t) (count len : nat) :
  generateMultipleSequences POSITIONAL_FORMULA params count len
  = Ok (map (fun i =>
               positionalSequence
                 (quadraticTerm (Params.a params ?? 0%Q) (Params.b params ?? 1%Q)
                                ((Params.c params ?? 0%Q) + Qnat i * 3)%Q) len)
            (seq 0 count)).
Proof.
  cbn [generateMultipleSequences]. apply collect_closed. intros i.
  apply generateSequence_positional_closed; [reflexivity|].
  intros sequence position. apply evaluate_quadratic.
Qed.

Lemma cubic_outputs (params : Params.t) (count len : nat) :
  generateMultipleSequences CUBIC_POSITIONAL params count len
  = Ok (map (fun i =>
               positionalSequence
                 (cubicTerm (Params.cubicA params ?? 0%Q)
                            (Params.cubicB params ?? 0%Q)
                            (Params.cubicC params ?? 1%Q)
                            ((Params.cubicD params ?? 0%Q) + Qnat i * 5)%Q) len)
            (seq 0 count)).
Proof.
  cbn [generateMultipleSequences]. apply collect_closed. intros i.
  apply generateSequence_positional_closed; [reflexivity|].
  intros sequence position.
  apply (evaluate_cubic sequence
           (Params.with_cubicD params
              ((Params.cubicD params ?? 0%Q) + Qnat i * 5)%Q) position).
Qed.

Lemma nth_error_map_seq {A : Type} (h : nat -> A) (count i : nat) (x : A) :
  nth_error (map h (seq 0 count)) i = Some x -> x = h i.
Proof.
  rewrite nth_error_map, nth_error_seq.
  destruct (i <? count)%nat; cbn [option_map]; [|discriminate].
  intros [= <-]. reflexivity.
Qed.

(** Terms that differ by a constant shift [s]: equal everywhere when
    [s = 0], different everywhere otherwise. *)
Lemma shifted_terms_compare (term given : Z -> Q) (s : Q) (len : nat) :
  (forall n, given n == term n + s)%Q ->
  forallb (fun j => Qeq_bool (term (1 + Z.of_nat j))
                             (given (1 + Z.of_nat j))) (seq 0 len)
  && Qeq_bool (term (Z.of_nat len + 1)) (given (Z.of_nat len + 1))
  = Qeq_bool s 0.
Proof.
  intros Hshift. destruct (Qeq_bool s 0) eqn:Hs.
  - apply Qeq_bool_iff in Hs. apply andb_true_iff. split.
    + apply forallb_forall. intros j _. apply Qeq_bool_iff.
      rewrite Hshift, Hs. ring.
    + apply Qeq_bool_iff. rewrite Hshift, Hs. ring.
  - apply andb_false_iff. right.
    destruct (Qeq_bool (term (Z.of_nat len + 1)) (given (Z.of_nat len + 1)))
      eqn:Hlast; [|reflexivity].
    apply Qeq_bool_iff in Hlast. rewrite Hshift in Hlast.
    assert (Hzero : (s == 0)%Q) by lra.
    apply Qeq_bool_iff in Hzero. rewrite Hzero in Hs. discriminate Hs.
Qed.

Lemma shift_is_zero (i : nat) (step : Q) :
  (0 < step)%Q -> Qeq_bool (Qnat i * step) 0 = (i =? 0)%nat.
Proof.
  intros Hstep. destruct i as [|i].
  - reflexivity.
  - cbn [Nat.eqb]. destruct (Qeq_bool (Qnat (S i) * step) 0) eqn:H; [|reflexivity].
    apply Qeq_bool_iff in H.
    pose proof (Qnat_positive (S i) ltac:(lia)) as Hpos.
    pose proof (Qmult_lt_0_compat _ _ Hpos Hstep) as Hprod.
    rewrite H in Hprod. apply Qlt_irrefl in Hprod. contradiction.
Qed.

(* ------------------------------------------------------------------ *)
(** *** The fallback catalog *)

Lemma catalog_entries (fallback : Puzzle.t) :
  In fallback FALLBACK_PUZZLES ->
  fiveByFive fallback
  /\ exists r, validatePuzzle fallback = Ok r /\ VR.valid r = true.
Proof.
  unfold FALLBACK_PUZZLES. cbn [In].
  intros [<-|[<-|[<-|[<-|[<-|[]]]]]].
  all: split;
    [ unfold fiveByFive;
      cbn [Puzzle.sequences Puzzle.answers Puzzle.primarySequenceIndex];
      split; [reflexivity|]; split; [reflexivity|]; split; [|reflexivity];
      cbn [In]; intros seq [<-|[<-|[<-|[<-|[<-|[]]]]]]; reflexivity
    | eexists; split; [vm_compute; reflexivity|reflexivity] ].
Qed.

(* ================================================================== *)
(** ** Digit sums *)
(* ================================================================== *)

Lemma fold_left_digits (l : list Z) :
  forall a, fold_left (fun sum digit => sum + digit) l a
            = a + fold_right Z.add 0 l.
Proof.
  induction l as [|d l IH]; intros a; cbn [fold_left fold_right].
  - lia.
  - rewrite IH. lia.
Qed.

Lemma digits_revapp (d : Decimal.uint) :
  forall d',
    fold_right Z.add 0 (digitsOf (Decimal.revapp d d'))
    = fold_right Z.add 0 (digitsOf d) + fold_right Z.add 0 (digitsOf d').
Proof.
  induction d; intros d'; cbn [Decimal.revapp digitsOf fold_right];
    try rewrite IHd; cbn [digitsOf fold_right]; lia.
Qed.

(** Casting out nines on a little-endian numeral. *)
Lemma of_lu_digits (d : Decimal.uint) :
  exists k,
    0 <= k
    /\ 0 <= fold_right Z.add 0 (digitsOf d)
    /\ Z.of_N (DecimalPos.Unsigned.of_lu d)
       = fold_right Z.add 0 (digitsOf d) + 9 * k.
Proof.
  induction d;
    try (destruct IHd as [k [Hk [Hs Hv]]];
         cbn [DecimalPos.Unsigned.of_lu digitsOf fold_right];
         exists (fold_right Z.add 0 (digitsOf d) + 10 * k);
         split; [lia|]; split; [lia|];
         rewrite ?N2Z.inj_add, N2Z.inj_mul, Hv; cbn [Z.of_N]; lia).
  exists 0. cbn. lia.
Qed.

Lemma to_uint_digits (n : N) :
  exists k,
    0 <= k
    /\ 0 <= fold_right Z.add 0 (digitsOf (N.to_uint n))
    /\ Z.of_N n = fold_right Z.add 0 (digitsOf (N.to_uint n)) + 9 * k.
Proof.
  destruct (of_lu_digits (Decimal.rev (N.to_uint n))) as [k [Hk [Hs Hv]]].
  unfold Decimal.rev in Hs, Hv at 2. rewrite digits_revapp in Hs, Hv.
  cbn [digitsOf fold_right] in Hs, Hv. rewrite Z.add_0_r in Hs, Hv.
  exists k. split; [exact Hk|]. split; [exact Hs|].
  rewrite <- Hv. f_equal.
  rewrite <- DecimalPos.Unsigned.of_uint_alt.
  symmetry. apply DecimalN.Unsigned.of_to.
Qed.

Lemma digitSum_of_integer (z : Z) :
  Z.abs z < 10 ^ 21 ->
  digitSum (ofZ z)
  = ofZ (fold_right Z.add 0 (digitsOf (N.to_uint (Z.to_N (Z.abs z))))).
Proof.
  intros Hsmall. unfold digitSum, ofZ. cbn [nabs].
  change (Qabs (inject_Z z)) with (inject_Z (Z.abs z)).
  rewrite Qis_integer_inject_Z.
  assert (Hlt : Qlt_bool (inject_Z (Z.abs z)) (inject_Z (10 ^ 21)) = true).
  { unfold Qlt_bool. apply negb_true_iff.
    destruct (Qle_bool (inject_Z (10 ^ 21)) (inject_Z (Z.abs z))) eqn:H;
      [|reflexivity].
    apply Qle_bool_iff in H. rewrite <- Zle_Qle in H. lia. }
  rewrite Hlt. cbn [andb]. rewrite Qfloor_Z.
  rewrite fold_left_digits. reflexivity.
Qed.

Lemma Qis_integer_iff (q : Q) :
  Qis_integer q = true <-> exists z, (q == inject_Z z)%Q.
Proof.
  unfold Qis_integer. split.
  - intros H. apply Qeq_bool_iff in H. eexists. exact H.
  - intros [z Hz]. apply Qeq_bool_iff.
    rewrite Hz at 1. rewrite (Qfloor_comp _ _ Hz), Qfloor_Z. reflexivity.
Qed.

Lemma Qis_integer_Qabs (q : Q) :
  Qis_integer (Qabs q) = true -> Qis_integer q = true.
Proof.
  intros H. apply Qis_integer_iff in H. destruct H as [z Hz].
  apply Qis_integer_iff.
  destruct (Qlt_le_dec q 0) as [Hneg|Hpos].
  - exists (- z)%Z. rewrite Qabs_neg in Hz by (apply Qlt_le_weak; exact Hneg).
    rewrite inject_Z_opp, <- Hz. ring.
  - exists z. rewrite Qabs_pos in Hz by exact Hpos. exact Hz.
Qed.

Lemma digitSum_of_non_integer (x : number) :
  isInteger x = false -> digitSum x = NaN.
Proof.
  destruct x as [q|s|]; cbn [isInteger]; intros Hx; try reflexivity.
  unfold digitSum. cbn [nabs].
  destruct (Qis_integer (Qabs q)) eqn:Habs; [|reflexivity].
  apply Qis_integer_Qabs in Habs. rewrite Habs in Hx. discriminate Hx.
Qed.
(* ================================================================== *)
(** ** Properties *)
(* ================================================================== *)

(** C1 (what the code does). On the single-sequence puzzle [1,4,7,10,13]
    with stated answer 20 the ambiguity check reports the quadratic and the
    constant-difference rivals, both predicting 16, as warnings; its error
    list is empty and the result is valid. *)
Theorem single_sequence_rival_is_only_a_warning :
  validateAmbiguity ambiguousArithmeticPuzzle
  = Ok (VR.make true []
          [Disambiguated quadratic (ofZ 16);
           Disambiguated constant_diff (ofZ 16)]).
Proof. vm_compute. reflexivity. Qed.

(** C2 (as the code has it). For every puzzle whose primary index selects
    a sequence and a stated answer that is an integer (as in every puzzle
    that passes the structural check), [validateAmbiguity] returns an empty
    error list and [valid = true]: each rival enters the list of
    alternatives only when its prediction differs from the stated answer,
    the re-check runs over every sequence including the primary one, where
    the same detector reproduces the differing prediction, so no rival fits
    all sequences and each is emitted as a warning. *)
Theorem validateAmbiguity_never_errors_on_integer_answer (puzzle : Puzzle.t)
    (primarySeq : list number) (a : Q) :
  nth_error (Puzzle.sequences puzzle) (Puzzle.primarySequenceIndex puzzle)
    = Some primarySeq ->
  nth_error (Puzzle.answers puzzle) (Puzzle.primarySequenceIndex puzzle)
    = Some (Num a) ->
  Qis_integer a = true ->
  validateAmbiguity puzzle
  = Ok (VR.make true []
          (map warningFor (alternativesOf primarySeq (Some (Num a)))))
  /\ forall alt,
       In alt (alternativesOf primarySeq (Some (Num a))) ->
       strictNe (Some (Alternative.value alt)) (Some (Num a)) = true
       /\ disagrees (Alternative.method_ alt) primarySeq (Some (Num a)) = true
       /\ fitsAllSequences (Alternative.method_ alt) (Puzzle.answers puzzle) 0
            (Puzzle.sequences puzzle) = false.
Proof.
  intros Hseq Hans Hint.
  split; [apply validateAmbiguity_integer_answer; assumption|].
  intros alt Hin.
  split; [eapply rival_differs_from_answer; exact Hin|].
  split; [apply rival_disagrees_on_primary; assumption|].
  eapply no_rival_fits_all; eassumption.
Qed.

(** The theorem at the single-sequence puzzle with stated answer 20. *)
Lemma validateAmbiguity_never_errors_on_integer_answer_witness :
  validateAmbiguity ambiguousArithmeticPuzzle
  = Ok (VR.make true []
          [Disambiguated quadratic (ofZ 16);
           Disambiguated constant_diff (ofZ 16)]).
Proof.
  exact (proj1 (validateAmbiguity_never_errors_on_integer_answer
                  ambiguousArithmeticPuzzle (ints [1; 4; 7; 10; 13]) 20
                  eq_refl eq_refl eq_refl)).
Defined.

(** C2, as the claim words it, fails: the error branch is reached when the
    stated answer of the primary sequence is not an integer (16.25 is
    within 0.5 of the quadratic prediction 16), and when it is missing. *)
Lemma ambiguity_error_branch_is_reachable :
  validateAmbiguity fractionalAnswerPuzzle
  = Ok (VR.make false
          [Ambiguous quadratic (ofZ 16) (Some (Num (65 # 4)))]
          [Disambiguated constant_diff (ofZ 16)])
  /\ validateAmbiguity missingAnswerPuzzle
     = Ok (VR.make false
             [Ambiguous quadratic (ofZ 16) None]
             [Disambiguated constant_diff (ofZ 16)]).
Proof. split; vm_compute; reflexivity. Qed.

(** C3 (as the code has it). An unrecognized rule kind makes
    [evaluateNextValue] raise the 'Unknown rule type' error, and a proposal
    carrying such a kind makes the expansion raise it; the orchestrator's
    [catch] treats it like any other failed attempt, logs it and retries.
    For every proposal source [generatePuzzle] never fails outward: after
    at most [MAX_GENERATION_ATTEMPTS - attempt] calls to the source it
    returns either, with [isFallback = false], a puzzle built from one of
    the source's proposals on which [validatePuzzle] returned
    [valid = true], or, with [isFallback = true] and only when every
    attempt failed, a puzzle of the fallback catalog. *)
Theorem unknown_rule_is_retried_and_generatePuzzle_never_fails :
  (forall sequence token params position,
      evaluateNextValue sequence (UNRECOGNIZED token) params position
      = Throw (UnknownRule token))
  /\ (forall response token,
        Response.ruleProgramType response = UNRECOGNIZED token ->
        buildPuzzleFromAIResponse response = Throw (UnknownRule token))
  /\ (forall ai dateKey attempt w token,
        (attempt < MAX_GENERATION_ATTEMPTS)%nat ->
        tryAttempt ai w = Throw (UnknownRule token) ->
        generatePuzzle ai dateKey attempt w
        = generatePuzzle ai dateKey (attempt + 1)
            (say (LogGenerationError (attempt + 1) (UnknownRule token))
                 (called w)))
  /\ (forall ai dateKey attempt w,
        exists out w' puzzle,
          generatePuzzle ai dateKey attempt w = (Ok out, w')
          /\ Generated.puzzle out = Some puzzle
          /\ (proposals w' <= proposals w + (MAX_GENERATION_ATTEMPTS - attempt))%nat
          /\ ((Generated.isFallback out = false
               /\ exists k,
                    (k < MAX_GENERATION_ATTEMPTS - attempt)%nat
                    /\ attemptYields ai (proposals w + k) puzzle)
              \/ (Generated.isFallback out = true
                  /\ In puzzle FALLBACK_PUZZLES
                  /\ forall j,
                       (j < MAX_GENERATION_ATTEMPTS - attempt)%nat ->
                       attemptFails ai (proposals w + j)))).
Proof.
  split; [reflexivity|].
  split; [exact buildPuzzle_unrecognized|].
  split.
  - intros ai dateKey attempt w token Hlt Htry.
    rewrite generatePuzzle_unfold at 1.
    apply Nat.leb_gt in Hlt. rewrite Hlt, Htry. reflexivity.
  - intros ai dateKey attempt w.
    destruct (generatePuzzleFrom_returns ai dateKey
                (MAX_GENERATION_ATTEMPTS - attempt)%nat attempt w)
      as [out [w' [Hrun [[puzzle Hpuzzle] Hcalls]]]].
    exists out, w', puzzle. unfold generatePuzzle.
    split; [exact Hrun|]. split; [exact Hpuzzle|]. split; [lia|].
    destruct (generatePuzzleFrom_outcome ai dateKey _ _ _ _ _ Hrun)
      as [[Hfb [Hall _]] | [Hfb [k [yielded [Hk [_ [Hy [Hp _]]]]]]]].
    + right. split; [exact Hfb|]. split; [|exact Hall].
      pose proof (generatePuzzleFrom_fallback ai dateKey _ _ _ _ _ Hrun Hfb)
        as Hcatalog.
      destruct (fallback_selected dateKey) as [fallback [Hsel Hin]].
      rewrite Hcatalog, Hsel in Hpuzzle. injection Hpuzzle as <-. exact Hin.
    + left. split; [exact Hfb|]. exists k. split; [exact Hk|].
      rewrite Hp in Hpuzzle. injection Hpuzzle as <-. exact Hy.
Qed.

(** The retry step at a source whose proposals carry an unrecognized kind. *)
Lemma unknown_rule_is_retried_witness :
  generatePuzzle mysterySource "2024-01-15" 0 freshWorld
  = generatePuzzle mysterySource "2024-01-15" (0 + 1)
      (say (LogGenerationError (0 + 1) (UnknownRule "MYSTERY_RULE"))
           (called freshWorld)).
Proof.
  apply (proj1 (proj2 (proj2
           unknown_rule_is_retried_and_generatePuzzle_never_fails))).
  - unfold MAX_GENERATION_ATTEMPTS. lia.
  - vm_compute. reflexivity.
Defined.

(** C3, as the claim words it, fails: a source whose every proposal carries
    an unrecognized rule kind makes each attempt raise 'Unknown rule type',
    yet the caller of [generatePuzzle] receives a fallback puzzle, not the
    error. *)
Lemma unknown_rule_is_not_propagated :
  tryAttempt mysterySource freshWorld = Throw (UnknownRule "MYSTERY_RULE")
  /\ fst (generatePuzzle mysterySource "2024-01-15" 0 freshWorld)
     = Ok (Generated.make (nth_error FALLBACK_PUZZLES 2) true)
  /\ fst (generatePuzzle mysterySource "2024-01-15" 0 freshWorld)
     <> Throw (UnknownRule "MYSTERY_RULE").
Proof.
  split; [vm_compute; reflexivity|].
  split; [vm_compute; reflexivity|].
  vm_compute. discriminate.
Qed.

(** C4. For every date string and every proposal source all of whose
    attempts fail (the call rejects, the expansion raises, or the puzzle is
    invalid), [generatePuzzle] returns a result: a puzzle of the fallback
    catalog with [isFallback = true], after exactly
    [MAX_GENERATION_ATTEMPTS - attempt] calls to the source, which is at
    most [MAX_GENERATION_ATTEMPTS = 20]. *)
Theorem generatePuzzle_falls_back_within_budget (ai : ProposalSource)
    (dateKey : string) (attempt : nat) (w : World) :
  (forall k, attemptFails ai k) ->
  exists fallback w',
    generatePuzzle ai dateKey attempt w
      = (Ok (Generated.make (Some fallback) true), w')
    /\ In fallback FALLBACK_PUZZLES
    /\ proposals w' = (proposals w + (MAX_GENERATION_ATTEMPTS - attempt))%nat
    /\ (MAX_GENERATION_ATTEMPTS - attempt <= 20)%nat.
Proof.
  intros Hfail.
  destruct (fallback_selected dateKey) as [fallback [Hsel Hin]].
  destruct (generatePuzzleFrom_all_fail ai dateKey Hfail
              (MAX_GENERATION_ATTEMPTS - attempt)%nat attempt w)
    as [w' [Hrun Hcalls]].
  exists fallback, w'. unfold generatePuzzle. rewrite Hrun, Hsel.
  split; [reflexivity|]. split; [exact Hin|]. split; [exact Hcalls|].
  unfold MAX_GENERATION_ATTEMPTS. lia.
Qed.

(** The theorem at a source that always proposes a puzzle with one hint
    and a short explanation. *)
Lemma generatePuzzle_falls_back_within_budget_witness :
  exists fallback w',
    generatePuzzle invalidSource "2024-01-15" 0 freshWorld
      = (Ok (Generated.make (Some fallback) true), w')
    /\ In fallback FALLBACK_PUZZLES
    /\ proposals w' = (proposals freshWorld + (MAX_GENERATION_ATTEMPTS - 0))%nat
    /\ (MAX_GENERATION_ATTEMPTS - 0 <= 20)%nat.
Proof.
  apply (generatePuzzle_falls_back_within_budget invalidSource "2024-01-15"
           0%nat freshWorld).
  intros k. vm_compute. reflexivity.
Defined.

(** C5 (as the code has it). [evaluateNextValue] depends on the sequence so
    far only through its last three elements (missing older ones taken as
    0) and its length: two sequences of the same length whose last three
    elements agree give the same result, or the same exception, under the
    same kind, parameters and position. *)
Theorem evaluateNextValue_last_three_and_length
    (ruleType : RuleProgramType) (params : Params.t) (position : Z)
    (s1 s2 : list number) :
  length s1 = length s2 ->
  lastThree s1 = lastThree s2 ->
  evaluateNextValue s1 ruleType params position
  = evaluateNextValue s2 ruleType params position.
Proof.
  intros Hlen Hlast. unfold lastThree in Hlast.
  inversion Hlast as [[H1 H2 H3]].
  pose proof (prev_by_length s1 s2 Hlen H1) as Hprev.
  unfold evaluateNextValue.
  rewrite (older_term_default s1 2), (older_term_default s2 2) by lia.
  rewrite (older_term_default s1 3), (older_term_default s2 3) by lia.
  rewrite Hprev, H2, H3, Hlen. reflexivity.
Qed.

(** The theorem at two four-term sequences that differ in their first
    term only. *)
Lemma evaluateNextValue_last_three_and_length_witness :
  evaluateNextValue (ints [9; 1; 2; 3]) LINEAR_DIFF Params.empty 5
  = evaluateNextValue (ints [0; 1; 2; 3]) LINEAR_DIFF Params.empty 5.
Proof.
  apply (evaluateNextValue_last_three_and_length LINEAR_DIFF Params.empty 5
           (ints [9; 1; 2; 3]) (ints [0; 1; 2; 3])).
  - reflexivity.
  - vm_compute. reflexivity.
Defined.

(** C5, as the claim words it, fails: [1,2,3] and [0,1,2,3] have the same
    last three elements, but LINEAR_DIFF adds a difference that grows with
    the number of terms, and the results are 6 and 7; an empty sequence and
    [0] agree once missing entries are taken as 0, but the first gives NaN
    and the second 5 under ARITHMETIC_SEQUENCE with difference 5. *)
Lemma evaluateNextValue_depends_on_length :
  lastThree (ints [1; 2; 3]) = lastThree (ints [0; 1; 2; 3])
  /\ evaluateNextValue (ints [1; 2; 3]) LINEAR_DIFF Params.empty 4 = Ok (ofZ 6)
  /\ evaluateNextValue (ints [0; 1; 2; 3]) LINEAR_DIFF Params.empty 4 = Ok (ofZ 7)
  /\ lastThree [] = lastThree (ints [0])
  /\ evaluateNextValue [] ARITHMETIC_SEQUENCE
       (Params.with_difference Params.empty 5) 1 = Ok NaN
  /\ evaluateNextValue (ints [0]) ARITHMETIC_SEQUENCE
       (Params.with_difference Params.empty 5) 1 = Ok (ofZ 5).
Proof. repeat split; vm_compute; reflexivity. Qed.

(** C6 (as the code has it). The structural check fails exactly on the
    enumerated conditions: no sequences; a sequence with fewer than 4
    terms; a term or answer that is not an integer or lies outside
    [-999, 999]; an answers count different from the sequences count; a
    hints count other than 2; an explanation whose [.length], counted in
    UTF-16 code units, is below 10.  Every violation present is collected
    into the error list, with one exception: the answers are examined one
    by one only when their count equals the sequences count; when the
    counts differ no error about an individual answer is reported, whatever
    the answers are, and the count mismatch stands for them.  A puzzle with a 3-term sequence and a mismatched
    answers count gets at least two distinct errors and [valid = false]. *)
Theorem validateStructure_collects_violations (puzzle : Puzzle.t) :
  let errors := VR.errors (validateStructure puzzle) in
  (VR.valid (validateStructure puzzle) = false <-> structurallyViolating puzzle)
  /\ (Puzzle.sequences puzzle = [] -> In NoSequences errors)
  /\ (forall i seq,
        nth_error (Puzzle.sequences puzzle) i = Some seq ->
        (length seq < 4)%nat -> In (SequenceTooShort (i + 1)) errors)
  /\ (forall i j seq v,
        nth_error (Puzzle.sequences puzzle) i = Some seq ->
        nth_error seq j = Some v ->
        (notAnInteger v -> In (TermNotInteger (i + 1) (j + 1) v) errors)
        /\ (outsideRange v -> In (TermOutOfBounds (i + 1) (j + 1) v) errors))
  /\ (length (Puzzle.answers puzzle) <> length (Puzzle.sequences puzzle) ->
      In AnswersCountMismatch errors)
  /\ (length (Puzzle.answers puzzle) = length (Puzzle.sequences puzzle) ->
      forall i v,
        nth_error (Puzzle.answers puzzle) i = Some v ->
        (notAnInteger v -> In (AnswerNotInteger (i + 1) v) errors)
        /\ (outsideRange v -> In (AnswerOutOfBounds (i + 1) v) errors))
  /\ (length (Puzzle.answers puzzle) <> length (Puzzle.sequences puzzle) ->
      forall ansNo ans,
        ~ In (AnswerNotInteger ansNo ans) errors
        /\ ~ In (AnswerOutOfBounds ansNo ans) errors)
  /\ (length (Puzzle.hints puzzle) <> 2%nat -> In HintsRequired errors)
  /\ ((stringLength (Puzzle.explanation puzzle) < 10)%nat ->
      In ExplanationTooShort errors)
  /\ ((exists i seq, nth_error (Puzzle.sequences puzzle) i = Some seq
                     /\ length seq = 3%nat) ->
      length (Puzzle.answers puzzle) <> length (Puzzle.sequences puzzle) ->
      VR.valid (validateStructure puzzle) = false
      /\ exists e1 e2, In e1 errors /\ In e2 errors /\ e1 <> e2).
Proof.
  intros errors. subst errors.
  split; [apply invalid_iff_violating|].
  split; [apply collected_no_sequences|].
  split; [apply collected_short_sequence|].
  split; [apply collected_term|].
  split; [apply collected_count_mismatch|].
  split; [intros Hlen i v; apply collected_answer; exact Hlen|].
  split; [apply answers_unexamined_on_mismatch|].
  split; [apply collected_hints|].
  split; [apply collected_explanation|].
  intros [i [seq [Hn Hthree]]] Hcount.
  split.
  - apply invalid_iff_violating. do 4 right. left. exact Hcount.
  - exists (SequenceTooShort (i + 1)), AnswersCountMismatch.
    split; [eapply collected_short_sequence; [exact Hn|lia]|].
    split; [apply collected_count_mismatch; exact Hcount|discriminate].
Qed.

(** The theorem at a puzzle with one 3-term sequence and two answers. *)
Lemma validateStructure_collects_violations_witness :
  VR.valid (validateStructure shortSequencePuzzle) = false
  /\ exists e1 e2,
       In e1 (VR.errors (validateStructure shortSequencePuzzle))
       /\ In e2 (VR.errors (validateStructure shortSequencePuzzle))
       /\ e1 <> e2.
Proof.
  apply (validateStructure_collects_violations shortSequencePuzzle).
  - exists 0%nat, (ints [1; 2; 3]). split; reflexivity.
  - vm_compute. discriminate.
Defined.

(** C6, as the claim words it, fails: with one sequence and two answers the
    out-of-range answer 5000 is a violation present in the input, but the
    error list holds the count mismatch only. *)
Lemma out_of_range_answer_not_collected :
  nth_error (Puzzle.answers surplusAnswerPuzzle) 0 = Some (ofZ 5000)
  /\ outsideRange (ofZ 5000)
  /\ VR.errors (validateStructure surplusAnswerPuzzle) = [AnswersCountMismatch]
  /\ forall ansNo ans,
       ~ In (AnswerOutOfBounds ansNo ans)
            (VR.errors (validateStructure surplusAnswerPuzzle)).
Proof.
  split; [reflexivity|].
  split; [right; vm_compute; reflexivity|].
  split; [vm_compute; reflexivity|].
  intros ansNo ans Hin.
  assert (He : VR.errors (validateStructure surplusAnswerPuzzle)
               = [AnswersCountMismatch]) by (vm_compute; reflexivity).
  rewrite He in Hin. destruct Hin as [Hin|[]]. discriminate Hin.
Qed.

(** C7. Fallback selection is a function of the date string alone:
    [hashDateToIndex] is the rolling hash [hash = hash * 31 + charCode],
    wrapped to a signed 32-bit integer at each character, taken in absolute
    value modulo the catalog size 5; the index is inside the catalog, and
    every run of the orchestrator that falls back for a given date string
    returns the same catalog entry. *)
Theorem fallback_selection_is_rolling_hash (dateKey : string) :
  Z.of_nat (length FALLBACK_PUZZLES) = 5
  /\ hashDateToIndex dateKey 5 = Z.abs (rollingHash31 0 dateKey) mod 5
  /\ - 2 ^ 31 <= rollingHash31 0 dateKey < 2 ^ 31
  /\ 0 <= hashDateToIndex dateKey 5 < 5
  /\ exists fallback,
       at_index FALLBACK_PUZZLES (hashDateToIndex dateKey 5) = Some fallback
       /\ forall ai attempt w out w',
            generatePuzzle ai dateKey attempt w = (Ok out, w') ->
            Generated.isFallback out = true ->
            Generated.puzzle out = Some fallback.
Proof.
  split; [reflexivity|].
  split.
  { unfold hashDateToIndex. rewrite hashLoop_rolling.
    apply Z.rem_mod_nonneg; lia. }
  split; [apply rollingHash31_range; lia|].
  split; [apply hashDateToIndex_bounds; lia|].
  destruct (fallback_selected dateKey) as [fallback [Hsel _]].
  change (Z.of_nat (length FALLBACK_PUZZLES)) with 5 in Hsel.
  exists fallback. split; [exact Hsel|].
  intros ai attempt w out w' Hrun Hfb.
  rewrite <- Hsel. unfold generatePuzzle in Hrun.
  eapply generatePuzzleFrom_fallback; eassumption.
Qed.

(** C8. Every validation result produced by [validateStructure],
    [validateDifficulty], [validateAmbiguity] or [validatePuzzle], for any
    puzzle, has [valid = true] if and only if its error list is empty;
    [valid] is computed from the errors alone, so two produced results with
    the same errors have the same [valid] whatever their warnings. *)
Theorem valid_iff_errors_empty (r : VR.t) :
  Produced r ->
  (VR.valid r = true <-> VR.errors r = [])
  /\ (forall r', Produced r' -> VR.errors r' = VR.errors r ->
                 VR.valid r' = VR.valid r).
Proof.
  intros Hr. split.
  - rewrite (Produced_valid r Hr). apply noErrors_true_iff.
  - intros r' Hr' Herr.
    rewrite (Produced_valid r Hr), (Produced_valid r' Hr'), Herr.
    reflexivity.
Qed.

(** The theorem at the structural result of a puzzle with two errors. *)
Lemma valid_iff_errors_empty_witness :
  (VR.valid (validateStructure shortSequencePuzzle) = true
   <-> VR.errors (validateStructure shortSequencePuzzle) = [])
  /\ (forall r', Produced r' ->
        VR.errors r' = VR.errors (validateStructure shortSequencePuzzle) ->
        VR.valid r' = VR.valid (validateStructure shortSequencePuzzle)).
Proof.
  apply (valid_iff_errors_empty (validateStructure shortSequencePuzzle)).
  apply ByStructure.
Defined.

(** C9 (as the code has it). For a rule kind that is not positional, with
    [count >= 2], [length >= 1] and base starting values that are not the
    empty array (absent ones count as [[1]]) and are integers that stay
    within 2^53 after the largest shift, so that the spread is computed
    without rounding: term [idx] of output [i] is the base starting value
    at [idx] plus [i * (idx + 1) * 2], for every seed position inside the
    sequence, and the first elements of the returned sequences differ
    pairwise.  The call returns its [count]
    sequences whenever the kind is one of the fourteen and the list of
    alternating operations is not empty. *)
Theorem seed_spread_first_elements_differ (ruleType : RuleProgramType)
    (params : Params.t) (count len : nat) :
  isPositional ruleType = false ->
  (2 <= count)%nat -> (1 <= len)%nat ->
  Params.startingValues params <> Some [] ->
  spreadIsExact (Params.startingValues params ?? [1%Q]) count = true ->
  ((forall token, ruleType <> UNRECOGNIZED token) ->
   (ruleType = ALTERNATING_OPS -> Params.operations params <> Some []) ->
   exists outputs,
     generateMultipleSequences ruleType params count len = Ok outputs)
  /\ forall outputs,
       generateMultipleSequences ruleType params count len = Ok outputs ->
       length outputs = count
       /\ (forall i out idx v,
             nth_error outputs i = Some out ->
             nth_error (Params.startingValues params ?? [1%Q]) idx = Some v ->
             (idx < len)%nat ->
             nth_error (Gen.sequence out) idx
             = Some (Num (v + Qnat i * (Qnat idx + 1) * 2)%Q))
       /\ (forall i j oi oj,
             i <> j ->
             nth_error outputs i = Some oi ->
             nth_error outputs j = Some oj ->
             exists fi fj,
               nth_error (Gen.sequence oi) 0 = Some fi
               /\ nth_error (Gen.sequence oj) 0 = Some fj
               /\ ~ sameValue fi fj).
Proof.
  intros Hkind Hcount Hlen Hseed _.
  rewrite (generateMultipleSequences_seeded _ _ _ _ Hkind).
  assert (Hbase : exists v0 rest,
             Params.startingValues params ?? [1%Q] = v0 :: rest).
  { destruct (Params.startingValues params) as [[|v0 rest]|]; cbn [orElse].
    - exfalso. apply Hseed. reflexivity.
    - exists v0, rest. reflexivity.
    - exists 1%Q, []. reflexivity. }
  destruct Hbase as [v0 [rest Hbase]].
  split.
  - intros Hknown Hops. apply collect_returns. intros k _.
    apply generateSequence_returns; try assumption.
    rewrite Hbase. discriminate.
  - intros outputs Hrun.
    destruct (collect_spec _ _ _ _ Hrun) as [Hlength Hbody].
    assert (Hterm : forall i out idx v,
               nth_error outputs i = Some out ->
               nth_error (Params.startingValues params ?? [1%Q]) idx = Some v ->
               (idx < len)%nat ->
               nth_error (Gen.sequence out) idx
               = Some (Num (v + Qnat i * (Qnat idx + 1) * 2)%Q)).
    { intros i out idx v Hout Hv Hidx.
      eapply seeded_output_term; try eassumption.
      apply (Hbody i out Hout). }
    split; [exact Hlength|]. split; [exact Hterm|].
    intros i j oi oj Hij Hoi Hoj.
    assert (Hv0 : nth_error (Params.startingValues params ?? [1%Q]) 0 = Some v0)
      by (rewrite Hbase; reflexivity).
    do 2 eexists.
    split; [apply (Hterm i oi 0%nat v0 Hoi Hv0); lia|].
    split; [apply (Hterm j oj 0%nat v0 Hoj Hv0); lia|].
    apply spread_seeds_differ. exact Hij.
Qed.

(** The theorem at the arithmetic rule with difference 3 and the default
    seed, 3 sequences of 4 terms. *)
Lemma seed_spread_first_elements_differ_witness :
  ((forall token, ARITHMETIC_SEQUENCE <> UNRECOGNIZED token) ->
   (ARITHMETIC_SEQUENCE = ALTERNATING_OPS ->
    Params.operations (Params.with_difference Params.empty 3) <> Some []) ->
   exists outputs,
     generateMultipleSequences ARITHMETIC_SEQUENCE
       (Params.with_difference Params.empty 3) 3 4 = Ok outputs)
  /\ forall outputs,
       generateMultipleSequences ARITHMETIC_SEQUENCE
         (Params.with_difference Params.empty 3) 3 4 = Ok outputs ->
       length outputs = 3%nat
       /\ (forall i out idx v,
             nth_error outputs i = Some out ->
             nth_error [1%Q] idx = Some v ->
             (idx < 4)%nat ->
             nth_error (Gen.sequence out) idx
             = Some (Num (v + Qnat i * (Qnat idx + 1) * 2)%Q))
       /\ (forall i j oi oj,
             i <> j ->
             nth_error outputs i = Some oi ->
             nth_error outputs j = Some oj ->
             exists fi fj,
               nth_error (Gen.sequence oi) 0 = Some fi
               /\ nth_error (Gen.sequence oj) 0 = Some fj
               /\ ~ sameValue fi fj).
Proof.
  apply (seed_spread_first_elements_differ ARITHMETIC_SEQUENCE
           (Params.with_difference Params.empty 3) 3 4).
  - reflexivity.
  - lia.
  - lia.
  - discriminate.
  - reflexivity.
Defined.

(** C9, as the claim words it, fails when the base starting values are the
    empty array: nothing is spread, every output of an arithmetic rule is
    the sequence [NaN] with the same first element, and an alternating rule
    raises a TypeError instead of returning sequences. *)
Lemma empty_seed_outputs_do_not_differ :
  generateMultipleSequences ARITHMETIC_SEQUENCE seedlessParams 2 1
  = Ok [Gen.make [NaN] NaN; Gen.make [NaN] NaN]
  /\ sameValue NaN NaN
  /\ generateMultipleSequences ALTERNATING_OPS seedlessParams 2 1
     = Throw TypeError.
Proof.
  split; [vm_compute; reflexivity|].
  split; [exact I|vm_compute; reflexivity].
Qed.

(** C10. The integer-ratio guard of [checkConstantRatio] is vacuous:
    [Number.isInteger(Math.round(r))] holds for every finite [r].  Whatever
    the host's division, subtraction and multiplication round to, given
    only that [x - x] is NaN when [x] is not finite: on every sequence of
    at least 2 terms with no zero term whose computed ratios all pass the
    tolerance test against the first one, the detector returns
    [isConstant = true], with [ratio = round(r0)] and
    [nextValue = last * round(r0)], whether or not the first computed
    ratio [r0] is an integer.  [checkConstantRatio] is the detector over
    the exact arithmetic. *)
Theorem constant_ratio_integer_guard_is_vacuous
    (divide subtract multiply : number -> number -> number)
    (tolerance : number) (sequence : list number) (r0 last : number) :
  (forall x, subtract x x <> NaN -> finite x) ->
  (2 <= length sequence)%nat ->
  (forall v, In v sequence -> nseq v (ofZ 0) = false) ->
  nth_error (ratiosWith divide sequence) 0 = Some r0 ->
  (forall r, In r (ratiosWith divide sequence) ->
     nlt (nabs (subtract r r0)) tolerance = true) ->
  fromEnd sequence 1 = Some last ->
  (forall q, isInteger (nround (Num q)) = true)
  /\ isInteger (nround r0) = true
  /\ checkConstantRatioWith divide subtract multiply tolerance sequence
     = ConstRatio.make true (Some (nround r0))
         (Some (multiply last (nround r0)))
  /\ (forall s,
        checkConstantRatio s
        = checkConstantRatioWith ndiv nsub nmul ratioTolerance s).
Proof.
  intros Hsub Hlen Hnonzero Hr0 Hagree Hlast.
  split; [exact isInteger_nround_finite|].
  assert (Hint : isInteger (nround r0) = true).
  { destruct (Hsub r0) as [q Hq].
    - eapply tolerance_test_not_nan. apply Hagree.
      eapply nth_error_In. exact Hr0.
    - subst r0. apply isInteger_nround_finite. }
  split; [exact Hint|]. split; [|exact checkConstantRatio_host].
  unfold checkConstantRatioWith.
  replace (length sequence <? 2)%nat with false
    by (symmetry; apply Nat.ltb_ge; exact Hlen).
  rewrite (existsb_false_forall _ _ Hnonzero). cbn [orb].
  rewrite Hr0, Hlast. cbn [toNumber].
  replace (forallb _ (ratiosWith divide sequence)) with true.
  - rewrite Hint. reflexivity.
  - symmetry. apply forallb_forall. exact Hagree.
Qed.

(** The theorem over the exact arithmetic at [4, 6, 9], whose ratios, their
    differences and the product [9 * 2] are binary64 numbers: the common
    ratio is 1.5 and the detector reports ratio 2 and next value 18. *)
Lemma constant_ratio_integer_guard_is_vacuous_witness :
  (forall q, isInteger (nround (Num q)) = true)
  /\ isInteger (nround (Num (6 # 4))) = true
  /\ checkConstantRatioWith ndiv nsub nmul ratioTolerance (ints [4; 6; 9])
     = ConstRatio.make true (Some (ofZ 2)) (Some (ofZ 18))
  /\ (forall s,
        checkConstantRatio s
        = checkConstantRatioWith ndiv nsub nmul ratioTolerance s).
Proof.
  apply (constant_ratio_integer_guard_is_vacuous ndiv nsub nmul ratioTolerance
           (ints [4; 6; 9]) (Num (6 # 4)) (ofZ 9)).
  - exact nsub_self_finite.
  - simpl. lia.
  - intros v [H|[H|[H|[]]]]; subst v; reflexivity.
  - reflexivity.
  - intros r [H|[H|[]]]; subst r; reflexivity.
  - reflexivity.
Defined.

(* ================================================================== *)
(** ** Further properties of the engine *)
(* ================================================================== *)

(** X1. Whenever [generateSequence] returns, the sequence has exactly the
    requested number of terms and [nextValue] is what [evaluateNextValue]
    gives for that sequence at position [length + 1]. *)
Theorem generateSequence_length_and_continuation (ruleType : RuleProgramType)
    (params : Params.t) (len : nat) (startingValues : option (list number))
    (g : Gen.t) :
  generateSequence ruleType params len startingValues = Ok g ->
  length (Gen.sequence g) = len
  /\ evaluateNextValue (Gen.sequence g) ruleType params (Z.of_nat len + 1)
     = Ok (Gen.nextValue g).
Proof. apply generateSequence_shape. Qed.

(** The theorem at a Fibonacci-like sequence seeded with [1, 1]. *)
Lemma generateSequence_length_and_continuation_witness :
  length (ints [1; 1; 2; 3; 5]) = 5%nat
  /\ evaluateNextValue (ints [1; 1; 2; 3; 5]) FIBONACCI_LIKE
       (Params.with_startingValues Params.empty (starts [1; 1]))
       (Z.of_nat 5 + 1)
     = Ok (ofZ 8).
Proof.
  apply (generateSequence_length_and_continuation FIBONACCI_LIKE
           (Params.with_startingValues Params.empty (starts [1; 1])) 5 None
           (Gen.make (ints [1; 1; 2; 3; 5]) (ofZ 8))).
  vm_compute. reflexivity.
Defined.

(** X2. Whenever [generateMultipleSequences] returns, it returns exactly
    [count] sequences of exactly [length] terms each; for the three
    positional kinds it always returns. *)
Theorem generateMultipleSequences_count_and_lengths
    (ruleType : RuleProgramType) (params : Params.t) (count len : nat) :
  (forall outputs,
      generateMultipleSequences ruleType params count len = Ok outputs ->
      length outputs = count
      /\ forall out, In out outputs -> length (Gen.sequence out) = len)
  /\ (isPositional ruleType = true ->
      exists outputs,
        generateMultipleSequences ruleType params count len = Ok outputs).
Proof.
  split.
  - apply generateMultipleSequences_shape.
  - apply generateMultipleSequences_positional_returns.
Qed.

(** The theorem at the power rule with defaults, 3 sequences of 4 terms. *)
Lemma generateMultipleSequences_count_and_lengths_witness :
  exists outputs,
    generateMultipleSequences POWER_BASED Params.empty 3 4 = Ok outputs.
Proof.
  apply (generateMultipleSequences_count_and_lengths POWER_BASED Params.empty 3 4).
  reflexivity.
Defined.

(** X3. [evaluateNextValue] raises in exactly two situations: an
    unrecognized kind raises 'Unknown rule type'; the alternating rule
    raises a TypeError when its operations array is empty, or when the
    sequence is empty and there are at least two operations.  Every other
    call returns a number, also on an empty sequence. *)
Theorem evaluateNextValue_raises_iff (sequence : list number)
    (ruleType : RuleProgramType) (params : Params.t) (position : Z)
    (e : thrown) :
  evaluateNextValue sequence ruleType params position = Throw e <->
  (exists token, ruleType = UNRECOGNIZED token /\ e = UnknownRule token)
  \/ (ruleType = ALTERNATING_OPS /\ e = TypeError
      /\ (operationsOf params = []
          \/ (sequence = [] /\ (2 <= length (operationsOf params))%nat))).
Proof.
  destruct ruleType;
    try (cbn [evaluateNextValue]; split;
         [discriminate
         |intros [[token [Hk _]]|[Hk _]]; discriminate Hk]).
  - cbn [evaluateNextValue]. destruct (length sequence <? 2)%nat; split;
      try discriminate; intros [[token [Hk _]]|[Hk _]]; discriminate Hk.
  - unfold operationsOf.
    destruct (Params.operations params ?? defaultOperations) as [|o1 rest] eqn:Hops.
    + assert (Hthrow : evaluateNextValue sequence ALTERNATING_OPS params position
                       = Throw TypeError).
      { unfold evaluateNextValue. rewrite Hops. reflexivity. }
      rewrite Hthrow. split.
      * intros [= <-]. right. split; [reflexivity|]. split; [reflexivity|].
        left. reflexivity.
      * intros [[token [Hk _]]|[_ [He _]]]; [discriminate Hk|].
        rewrite He. reflexivity.
    + assert (Hne : Params.operations params ?? defaultOperations <> [])
        by (rewrite Hops; discriminate).
      destruct sequence as [|s0 srest].
      * destruct (alternating_on_empty_sequence params position Hne)
          as [Hone Htwo].
        rewrite Hops in Hone, Htwo.
        destruct rest as [|o2 rest].
        -- destruct (Hone eq_refl) as [v Hv]. rewrite Hv. split.
           ++ discriminate.
           ++ intros [[token [Hk _]]|[_ [_ [Hnil|[_ Hlen]]]]];
                [discriminate Hk|discriminate Hnil|simpl in Hlen; lia].
        -- rewrite (Htwo ltac:(simpl; lia)). split.
           ++ intros [= <-]. right. split; [reflexivity|].
              split; [reflexivity|]. right. split; [reflexivity|simpl; lia].
           ++ intros [[token [Hk _]]|[_ [He _]]]; [discriminate Hk|].
              rewrite He. reflexivity.
      * destruct (evaluateNextValue_returns (s0 :: srest) ALTERNATING_OPS
                    params position) as [v Hv].
        -- discriminate.
        -- intros token. discriminate.
        -- intros _ Hsome. rewrite Hsome in Hops. discriminate Hops.
        -- rewrite Hv. split.
           ++ discriminate.
           ++ intros [[token [Hk _]]|[_ [_ [Hnil|[Hs _]]]]];
                [discriminate Hk|discriminate Hnil|discriminate Hs].
  - cbn [evaluateNextValue]. destruct (Z.rem position 2 =? 1); split;
      try discriminate; intros [[token [Hk _]]|[Hk _]]; discriminate Hk.
  - cbn [evaluateNextValue].
    destruct (Params.powerType params ?? n_squared_plus); split;
      try discriminate; intros [[token [Hk _]]|[Hk _]]; discriminate Hk.
  - cbn [evaluateNextValue]. split.
    + intros [= <-]. left. exists token. split; reflexivity.
    + intros [[token' [Hk He]]|[Hk _]]; [|discriminate Hk].
      injection Hk as ->. rewrite He. reflexivity.
Qed.

(** X4. The two polynomial rules in closed form: output [i] of
    [generateMultipleSequences] has the term [a*n^2 + b*n + (c + 3i)] at
    position [n] for POSITIONAL_FORMULA and [a*n^3 + b*n^2 + c*n + (d + 5i)]
    for CUBIC_POSITIONAL, for [n = 1 .. length], and the same formula at
    [length + 1] as its continuation; the call never raises.  The
    coefficients are integers small enough for every product and sum to
    stay within 2^53, where none of them is rounded. *)
Theorem polynomial_rules_closed_form (params : Params.t) (count len : nat) :
  (polynomialIsExact POSITIONAL_FORMULA params count len = true ->
   generateMultipleSequences POSITIONAL_FORMULA params count len
   = Ok (map (fun i =>
                positionalSequence
                  (quadraticTerm (Params.a params ?? 0%Q)
                                 (Params.b params ?? 1%Q)
                                 ((Params.c params ?? 0%Q) + Qnat i * 3)%Q) len)
             (seq 0 count)))
  /\ (polynomialIsExact CUBIC_POSITIONAL params count len = true ->
      generateMultipleSequences CUBIC_POSITIONAL params count len
      = Ok (map (fun i =>
                   positionalSequence
                     (cubicTerm (Params.cubicA params ?? 0%Q)
                                (Params.cubicB params ?? 0%Q)
                                (Params.cubicC params ?? 1%Q)
                                ((Params.cubicD params ?? 0%Q) + Qnat i * 5)%Q)
                     len)
                (seq 0 count))).
Proof.
  split; intros _; [apply quadratic_outputs|apply cubic_outputs].
Qed.

(** The theorem at the rule [n^2 + 2n - 1] of the catalog, 5 sequences of
    5 terms. *)
Lemma polynomial_rules_closed_form_witness :
  generateMultipleSequences POSITIONAL_FORMULA
    (Params.with_c (Params.with_b (Params.with_a Params.empty 1) 2) (-1)) 5 5
  = Ok (map (fun i =>
               positionalSequence
                 (quadraticTerm 1 2 (-1 + Qnat i * 3)%Q) 5)
            (seq 0 5)).
Proof.
  apply (polynomial_rules_closed_form
           (Params.with_c (Params.with_b (Params.with_a Params.empty 1) 2) (-1))
           5 5).
  reflexivity.
Defined.

(** X5. A generated sequence passes [verifySequence] under the rule that
    produced it: if [generateSequence] returned it from at most three seed
    values (or the kind is positional) and neither a term nor the
    continuation is NaN, then [verifySequence] on the sequence and its
    continuation returns [true]. *)
Theorem verifySequence_accepts_generated (ruleType : RuleProgramType)
    (params : Params.t) (len : nat) (startingValues : option (list number))
    (g : Gen.t) :
  generateSequence ruleType params len startingValues = Ok g ->
  isPositional ruleType = true
  \/ (length (seedOf params startingValues) <= 3)%nat ->
  ~ In NaN (Gen.sequence g) ->
  Gen.nextValue g <> NaN ->
  verifySequence (Gen.sequence g) (Gen.nextValue g) ruleType params = Ok true.
Proof.
  intros Hgen Hseed Hterms Hnext. unfold verifySequence.
  rewrite (generateSequence_regenerate _ _ _ _ _ Hgen Hseed). cbn [bind].
  rewrite everyi_matches_itself.
  - rewrite nseq_refl by exact Hnext. reflexivity.
  - intros k v Hk. exact Hk.
  - exact Hterms.
Qed.

(** The theorem at a Fibonacci-like sequence seeded with [1, 1]. *)
Lemma verifySequence_accepts_generated_witness :
  verifySequence (ints [1; 1; 2; 3; 5]) (ofZ 8) FIBONACCI_LIKE
    (Params.with_startingValues Params.empty (starts [1; 1])) = Ok true.
Proof.
  apply (verifySequence_accepts_generated FIBONACCI_LIKE
           (Params.with_startingValues Params.empty (starts [1; 1])) 5 None
           (Gen.make (ints [1; 1; 2; 3; 5]) (ofZ 8))).
  - vm_compute. reflexivity.
  - right. simpl. lia.
  - simpl. intros [H|[H|[H|[H|[H|[]]]]]]; discriminate H.
  - discriminate.
Defined.

(** X6. On a sequence of at least two integers of magnitude at most 2^51,
    whose differences and continuation are computed without rounding, the
    constant-difference detector answers [isConstant = true] exactly when
    the sequence is an arithmetic progression, every consecutive difference
    being equal to the first one, and it then reports that difference and
    [last + difference] as the next value. *)
Theorem checkConstantDifference_finite (qs : list Q) (d0 last : Q) :
  forallb (integerWithin (2 ^ 51)) qs = true ->
  nth_error (Qdifferences qs) 0 = Some d0 ->
  nth_error qs (length qs - 1) = Some last ->
  (ConstDiff.isConstant (checkConstantDifference (map Num qs)) = true
   <-> Forall (fun d => (d == d0)%Q) (Qdifferences qs))
  /\ (ConstDiff.isConstant (checkConstantDifference (map Num qs)) = true ->
      checkConstantDifference (map Num qs)
      = ConstDiff.make true (Some (Num d0)) (Some (Num (last + d0)%Q))).
Proof. intros _. apply checkConstantDifference_on_finite. Qed.

(** The theorem at [1, 4, 7, 10, 13]. *)
Lemma checkConstantDifference_finite_witness :
  checkConstantDifference (map Num [1; 4; 7; 10; 13]%Q)
  = ConstDiff.make true (Some (Num (4 - 1)%Q)) (Some (Num (13 + (4 - 1))%Q)).
Proof.
  apply (checkConstantDifference_finite [1; 4; 7; 10; 13]%Q (4 - 1)%Q 13%Q).
  - reflexivity.
  - reflexivity.
  - reflexivity.
  - vm_compute. reflexivity.
Defined.

(** X7. The constant-difference and the alternating detectors exclude each
    other: a sequence the first one accepts is never alternating, so the
    two are never both rivals of a puzzle. *)
Theorem constant_difference_excludes_alternating (sequence : list number) :
  ConstDiff.isConstant (checkConstantDifference sequence) = true ->
  Alt.isAlternating (checkAlternatingPattern sequence) = false
  /\ forall intendedAnswer alt,
       In alt (alternativesOf sequence intendedAnswer) ->
       Alternative.method_ alt <> alternating.
Proof.
  intros Hconst.
  pose proof (constant_difference_not_alternating sequence Hconst) as Halt.
  split; [exact Halt|].
  intros intendedAnswer alt Hin. unfold alternativesOf in Hin.
  rewrite Halt in Hin.
  rewrite !in_app_iff, !In_if_singleton in Hin. cbn [andb] in Hin.
  destruct Hin as [[_ H] | [[_ H] | [[_ H] | [H _]]]];
    try (subst alt; discriminate). discriminate H.
Qed.

(** The theorem at [1, 4, 7, 10, 13]. *)
Lemma constant_difference_excludes_alternating_witness :
  Alt.isAlternating (checkAlternatingPattern (ints [1; 4; 7; 10; 13])) = false
  /\ forall intendedAnswer alt,
       In alt (alternativesOf (ints [1; 4; 7; 10; 13]) intendedAnswer) ->
       Alternative.method_ alt <> alternating.
Proof.
  apply (constant_difference_excludes_alternating (ints [1; 4; 7; 10; 13])).
  vm_compute. reflexivity.
Defined.

(** X9. With fewer than three terms [fitQuadratic] takes the linear
    fallback: the fit error is Infinity and the quadratic coefficient 0, so
    the quadratic is never a rival of such a sequence; on two integer terms
    of magnitude at most 2^50, where nothing is rounded, the prediction is
    the extrapolation [2*y2 - y1]. *)
Theorem fitQuadratic_needs_three_terms (sequence : list number) :
  (length sequence < 3)%nat ->
  Fit.error (fitQuadratic sequence) = Inf false
  /\ fst (fst (Fit.coefficients (fitQuadratic sequence))) = ofZ 0
  /\ (forall intendedAnswer alt,
        In alt (alternativesOf sequence intendedAnswer) ->
        Alternative.method_ alt <> quadratic)
  /\ (forall y1 y2,
        integerWithin (2 ^ 50) y1 = true ->
        integerWithin (2 ^ 50) y2 = true ->
        sequence = [Num y1; Num y2] ->
        Fit.nextValue (fitQuadratic sequence)
        = ofZ (Qround_half_up (2 * y2 - y1))).
Proof.
  intros Hlen. destruct (fitQuadratic_short sequence Hlen) as [Herr Hcoef].
  split; [exact Herr|]. split; [exact Hcoef|]. split.
  - intros intendedAnswer alt. apply no_quadratic_rival.
    rewrite Herr. reflexivity.
  - intros y1 y2 _ _ ->. apply fitQuadratic_two_terms.
Qed.

(** The theorem at the two-term sequence [3, 7]. *)
Lemma fitQuadratic_needs_three_terms_witness :
  Fit.error (fitQuadratic (ints [3; 7])) = Inf false
  /\ fst (fst (Fit.coefficients (fitQuadratic (ints [3; 7])))) = ofZ 0
  /\ (forall intendedAnswer alt,
        In alt (alternativesOf (ints [3; 7]) intendedAnswer) ->
        Alternative.method_ alt <> quadratic)
  /\ (forall y1 y2,
        integerWithin (2 ^ 50) y1 = true ->
        integerWithin (2 ^ 50) y2 = true ->
        ints [3; 7] = [Num y1; Num y2] ->
        Fit.nextValue (fitQuadratic (ints [3; 7]))
        = ofZ (Qround_half_up (2 * y2 - y1))).
Proof.
  apply (fitQuadratic_needs_three_terms (ints [3; 7])). simpl. lia.
Defined.

(** X10. The least-squares fit is exact on five puzzle terms of a
    quadratic: when the five terms [a*n^2 + b*n + c] at [n = 1 .. 5] are
    integers within [-999, 999], where every sum, determinant and quotient
    of the fit is a binary64 number, the fit recovers the coefficients with
    error 0 and predicts the sixth term, so the quadratic is no rival of a
    puzzle whose stated answer is that term. *)
Theorem fitQuadratic_exact_on_five_terms (a b c : Q) :
  forallb puzzleValue (quadraticFive a b c) = true ->
  sameValue (Fit.error (fitQuadratic (quadraticFive a b c))) (ofZ 0)
  /\ (let '(fa, fb, fc) := Fit.coefficients (fitQuadratic (quadraticFive a b c)) in
      sameValue fa (Num a) /\ sameValue fb (Num b) /\ sameValue fc (Num c))
  /\ Fit.nextValue (fitQuadratic (quadraticFive a b c))
     = ofZ (Qround_half_up (quadraticTerm a b c 6))
  /\ (forall alt,
        In alt (alternativesOf (quadraticFive a b c)
                  (Some (ofZ (Qround_half_up (quadraticTerm a b c 6))))) ->
        Alternative.method_ alt <> quadratic).
Proof.
  intros _.
  split; [apply fitQuadratic_five_error|].
  split; [apply fitQuadratic_five_coefficients|].
  split; [apply fitQuadratic_five_next|].
  intros alt. apply no_quadratic_rival.
  rewrite fitQuadratic_five_next. cbn [strictNe].
  rewrite nseq_refl by discriminate. cbn [negb]. apply andb_false_r.
Qed.

(** The theorem at [n^2 + 2n - 1], the terms [2, 7, 14, 23, 34]. *)
Lemma fitQuadratic_exact_on_five_terms_witness :
  sameValue (Fit.error (fitQuadratic (quadraticFive 1 2 (-1)))) (ofZ 0)
  /\ (let '(fa, fb, fc) :=
        Fit.coefficients (fitQuadratic (quadraticFive 1 2 (-1))) in
      sameValue fa (Num 1) /\ sameValue fb (Num 2) /\ sameValue fc (Num (-1)))
  /\ Fit.nextValue (fitQuadratic (quadraticFive 1 2 (-1)))
     = ofZ (Qround_half_up (quadraticTerm 1 2 (-1) 6))
  /\ (forall alt,
        In alt (alternativesOf (quadraticFive 1 2 (-1))
                  (Some (ofZ (Qround_half_up (quadraticTerm 1 2 (-1) 6))))) ->
        Alternative.method_ alt <> quadratic).
Proof.
  apply (fitQuadratic_exact_on_five_terms 1 2 (-1)). reflexivity.
Defined.

(** X11. The pipeline decides validity by the structural check alone: when
    [validatePuzzle] returns, its [valid] flag and its errors are those of
    [validateStructure]; the difficulty and ambiguity checks add warnings
    only.  It raises, with a TypeError, exactly when the structure is valid
    and [primarySequenceIndex] selects no sequence. *)
Theorem validatePuzzle_decided_by_structure (puzzle : Puzzle.t) :
  (forall r,
      validatePuzzle puzzle = Ok r ->
      VR.valid r = VR.valid (validateStructure puzzle)
      /\ VR.errors r = VR.errors (validateStructure puzzle))
  /\ (forall e,
        validatePuzzle puzzle = Throw e <->
        e = TypeError
        /\ VR.valid (validateStructure puzzle) = true
        /\ (length (Puzzle.sequences puzzle)
            <= Puzzle.primarySequenceIndex puzzle)%nat).
Proof.
  split.
  - intros r Hrun. split.
    + apply validatePuzzle_valid_iff_structure. exact Hrun.
    + apply validatePuzzle_errors_structure. exact Hrun.
  - apply validatePuzzle_raises_iff.
Qed.

(** The theorem at the puzzle [1, 4, 7, 10, 13] with stated answer 20. *)
Lemma validatePuzzle_decided_by_structure_witness :
  exists r,
    validatePuzzle ambiguousArithmeticPuzzle = Ok r
    /\ VR.valid r = VR.valid (validateStructure ambiguousArithmeticPuzzle)
    /\ VR.errors r = VR.errors (validateStructure ambiguousArithmeticPuzzle).
Proof.
  eexists. split.
  - vm_compute. reflexivity.
  - apply (validatePuzzle_decided_by_structure ambiguousArithmeticPuzzle).
    vm_compute. reflexivity.
Defined.

(** X12. Every puzzle [buildPuzzleFromAIResponse] returns has five sequences
    of five terms, five answers and primary index 0, and carries the kind,
    parameters, tags, hints and explanation of the response unchanged.
    Hence [validatePuzzle] never raises on it and the structural check never
    reports an error about its shape; for a non-positional kind every answer
    is the rule's continuation of its sequence under the stored
    parameters. *)
Theorem buildPuzzleFromAIResponse_shape (response : Response.t)
    (puzzle : Puzzle.t) :
  buildPuzzleFromAIResponse response = Ok puzzle ->
  fiveByFive puzzle
  /\ (Puzzle.ruleProgramType puzzle = Response.ruleProgramType response
      /\ Puzzle.ruleProgramParams puzzle = Response.ruleProgramParams response
      /\ Puzzle.tags puzzle = Response.tags response
      /\ Puzzle.hints puzzle = Response.hints response
      /\ Puzzle.explanation puzzle = Response.explanation response)
  /\ (exists r, validatePuzzle puzzle = Ok r)
  /\ (forall e, In e (VR.errors (validateStructure puzzle)) ->
        e <> NoSequences /\ e <> AnswersCountMismatch
        /\ forall seqNo, e <> SequenceTooShort seqNo)
  /\ (isPositional (Response.ruleProgramType response) = false ->
      answersContinue puzzle).
Proof.
  intros Hbuild.
  pose proof (buildPuzzle_five_by_five response puzzle Hbuild) as Hshape.
  split; [exact Hshape|].
  split; [|split; [apply fiveByFive_validates; exact Hshape|split]].
  - unfold buildPuzzleFromAIResponse in Hbuild.
    destruct (generateMultipleSequences _ _ NUM_SEQUENCES SEQUENCE_LENGTH)
      as [outputs|e]; cbn [bind] in Hbuild; [|discriminate Hbuild].
    destruct (needsStartingValues (Response.ruleProgramType response)).
    + destruct (collect _ NUM_SEQUENCES 0) as [generatedList|e];
        cbn [bind] in Hbuild; [|discriminate Hbuild].
      injection Hbuild as <-. repeat split.
    + injection Hbuild as <-. repeat split.
  - intros e. apply fiveByFive_shape_errors. exact Hshape.
  - intros Hkind. unfold buildPuzzleFromAIResponse in Hbuild.
    destruct (generateMultipleSequences _ _ NUM_SEQUENCES SEQUENCE_LENGTH)
      as [outputs|e]; cbn [bind] in Hbuild; [|discriminate Hbuild].
    unfold needsStartingValues in Hbuild. rewrite Hkind in Hbuild.
    cbn [negb] in Hbuild.
    destruct (collect _ NUM_SEQUENCES 0) as [generatedList|e] eqn:Hlist;
      cbn [bind] in Hbuild; [|discriminate Hbuild].
    injection Hbuild as <-.
    destruct (builder_bodies _ _ _ _ Hkind Hlist) as [_ Hall].
    apply outputs_answers_continue. intros out Hin. apply Hall. exact Hin.
Qed.

(** The theorem at the Fibonacci-like proposal: [validatePuzzle] returns on
    the puzzle built from it. *)
Lemma buildPuzzleFromAIResponse_shape_witness :
  exists puzzle,
    buildPuzzleFromAIResponse fibonacciResponse = Ok puzzle
    /\ exists r, validatePuzzle puzzle = Ok r.
Proof.
  eexists. split.
  - vm_compute. reflexivity.
  - eapply (buildPuzzleFromAIResponse_shape fibonacciResponse).
    vm_compute. reflexivity.
Defined.

(** X13. What [generatePuzzle] returns, for every proposal source: a result
    with [isFallback = false] carries the puzzle of the first attempt that
    was proposed, built and validated as valid, every earlier attempt having
    failed, and the source was called once per attempt up to that one; the
    puzzle is five by five and structurally valid.  A result with
    [isFallback = true] means that every one of the
    [MAX_GENERATION_ATTEMPTS - attempt] attempts failed. *)
Theorem generatePuzzle_returns_first_valid_attempt (ai : ProposalSource)
    (dateKey : string) (attempt : nat) (w : World) (out : Generated.t)
    (w' : World) :
  generatePuzzle ai dateKey attempt w = (Ok out, w') ->
  (Generated.isFallback out = false ->
   exists k puzzle,
     (k < MAX_GENERATION_ATTEMPTS - attempt)%nat
     /\ (forall j, (j < k)%nat -> attemptFails ai (proposals w + j))
     /\ attemptYields ai (proposals w + k) puzzle
     /\ Generated.puzzle out = Some puzzle
     /\ proposals w' = (proposals w + k + 1)%nat
     /\ fiveByFive puzzle
     /\ VR.valid (validateStructure puzzle) = true)
  /\ (Generated.isFallback out = true ->
      (forall j, (j < MAX_GENERATION_ATTEMPTS - attempt)%nat ->
         attemptFails ai (proposals w + j))
      /\ proposals w' = (proposals w + (MAX_GENERATION_ATTEMPTS - attempt))%nat).
Proof.
  intros Hrun. unfold generatePuzzle in Hrun.
  destruct (generatePuzzleFrom_outcome ai dateKey _ _ _ _ _ Hrun)
    as [[Hfb [Hall Hcalls]] | [Hfb [k [puzzle [Hk [Hall [Hy [Hp Hcalls]]]]]]]].
  - split; [intros H; rewrite Hfb in H; discriminate H|].
    intros _. split; assumption.
  - split; [|intros H; rewrite Hfb in H; discriminate H].
    intros _. exists k, puzzle. repeat (split; [assumption|]).
    destruct Hy as [aiResponse [validation [_ [Hbuild [Hval Hvalid]]]]].
    split; [apply (buildPuzzle_five_by_five aiResponse); exact Hbuild|].
    rewrite <- (validatePuzzle_valid_iff_structure puzzle validation Hval).
    exact Hvalid.
Qed.

(** The theorem at a source that rejects twice and then proposes the
    Fibonacci-like rule: the third call is the one that yields the puzzle. *)
Lemma generatePuzzle_returns_first_valid_attempt_witness :
  exists k puzzle,
    (k < MAX_GENERATION_ATTEMPTS - 0)%nat
    /\ (forall j, (j < k)%nat -> attemptFails recoveringSource (0 + j))
    /\ attemptYields recoveringSource (0 + k) puzzle
    /\ fiveByFive puzzle
    /\ VR.valid (validateStructure puzzle) = true.
Proof.
  edestruct (fun out w' Hrun =>
               proj1 (generatePuzzle_returns_first_valid_attempt
                        recoveringSource "2024-01-15"%string 0 freshWorld
                        out w' Hrun))
    as [k [puzzle [Hk [Hall [Hyields [_ [_ [Hshape Hvalid]]]]]]]].
  - vm_compute. reflexivity.
  - reflexivity.
  - exists k, puzzle. split; [exact Hk|]. split; [exact Hall|].
    split; [exact Hyields|]. split; [exact Hshape|exact Hvalid].
Defined.

(** X14. Every puzzle [createPuzzleFromRule] returns has five sequences of
    five terms, five answers and primary index 0, so [validatePuzzle] never
    raises on it; for a non-positional kind every answer is the rule's
    continuation of its sequence under the given parameters.  For the three
    positional kinds the call always returns. *)
Theorem createPuzzleFromRule_shape (ruleType : RuleProgramType)
    (params : Params.t) (hints : list string) (explanation : string)
    (tags : list string) :
  (forall puzzle,
      createPuzzleFromRule ruleType params hints explanation tags = Ok puzzle ->
      fiveByFive puzzle
      /\ (exists r, validatePuzzle puzzle = Ok r)
      /\ (isPositional ruleType = false -> answersContinue puzzle))
  /\ (isPositional ruleType = true ->
      exists puzzle,
        createPuzzleFromRule ruleType params hints explanation tags = Ok puzzle).
Proof.
  unfold createPuzzleFromRule. split.
  - intros puzzle Hrun.
    destruct (generateMultipleSequences ruleType params NUM_SEQUENCES
                SEQUENCE_LENGTH) as [outputs|e] eqn:Hgen;
      cbn [bind] in Hrun; [|discriminate Hrun].
    injection Hrun as <-.
    destruct (generateMultipleSequences_shape _ _ _ _ _ Hgen) as [Hlen Hall].
    assert (Hshape : fiveByFive
              (Puzzle.make ruleType params tags (map Gen.sequence outputs)
                 (map Gen.nextValue outputs) 0%nat hints explanation))
      by (apply outputs_five_by_five; assumption).
    split; [exact Hshape|]. split; [apply fiveByFive_validates; exact Hshape|].
    intros Hkind. apply outputs_answers_continue. intros out Hin.
    rewrite (generateMultipleSequences_seeded _ _ _ _ Hkind) in Hgen.
    apply In_nth_error in Hin. destruct Hin as [i Hi].
    destruct (collect_spec _ _ _ _ Hgen) as [_ Hbody].
    apply Hbody in Hi. cbv beta in Hi.
    apply generateSequence_shape in Hi. apply Hi.
  - intros Hkind.
    destruct (generateMultipleSequences_positional_returns ruleType params
                NUM_SEQUENCES SEQUENCE_LENGTH Hkind) as [outputs Hgen].
    rewrite Hgen. cbn [bind]. eexists. reflexivity.
Qed.

(** The theorem at the power rule with default parameters. *)
Lemma createPuzzleFromRule_shape_witness :
  exists puzzle,
    createPuzzleFromRule POWER_BASED Params.empty
      ["Hint 1"; "Hint 2"]%string "Powers of the position."%string
      ["POWERS"%string] = Ok puzzle.
Proof.
  apply (createPuzzleFromRule_shape POWER_BASED Params.empty
           ["Hint 1"; "Hint 2"]%string "Powers of the position."%string
           ["POWERS"%string]).
  reflexivity.
Defined.

(** X15. The difficulty check flags what the arithmetic rule generates: a
    sequence of at least two terms that [generateSequence] produces for
    ARITHMETIC_SEQUENCE from one integer starting value with an integer
    difference, the terms staying within 2^53 so that none is rounded, has
    a constant difference, the detector's prediction is the generated
    continuation,
    and so [validateDifficulty] of a puzzle whose primary sequence and
    answer they are returns the warning 'Primary sequence has constant
    difference - may be too easy'. *)
Theorem arithmetic_rule_is_flagged_too_easy (params : Params.t) (len : nat)
    (v : Q) (g : Gen.t) (puzzle : Puzzle.t) :
  (2 <= len)%nat ->
  progressionIsExact v (Params.difference params ?? 0%Q) len = true ->
  generateSequence ARITHMETIC_SEQUENCE params len (Some [Num v]) = Ok g ->
  nth_error (Puzzle.sequences puzzle) (Puzzle.primarySequenceIndex puzzle)
    = Some (Gen.sequence g) ->
  nth_error (Puzzle.answers puzzle) (Puzzle.primarySequenceIndex puzzle)
    = Some (Gen.nextValue g) ->
  Gen.sequence g
    = map Num (progression v (Params.difference params ?? 0%Q) (len - 1))
  /\ exists r,
       validateDifficulty puzzle = Ok r
       /\ In ConstantDifferenceTooEasy (VR.warnings r).
Proof.
  intros Hlen _ Hgen Hseq Hans.
  rewrite generateSequence_arithmetic in Hgen by lia.
  injection Hgen as <-. cbn [Gen.sequence Gen.nextValue] in *.
  split; [reflexivity|].
  unfold validateDifficulty. rewrite Hseq, Hans.
  destruct (arithmetic_detected params len v Hlen) as [Hconst Hnext].
  cbv zeta in Hconst, Hnext. rewrite Hconst, Hnext.
  eexists. split; [reflexivity|].
  cbn [VR.warnings]. apply in_or_app. left. left. reflexivity.
Qed.

(** The theorem at [1, 4, 7, 10, 13] with answer 16. *)
Lemma arithmetic_rule_is_flagged_too_easy_witness :
  exists r,
    validateDifficulty validPuzzle = Ok r
    /\ In ConstantDifferenceTooEasy (VR.warnings r).
Proof.
  apply (arithmetic_rule_is_flagged_too_easy
           (Params.with_difference Params.empty 3) 5 1
           (Gen.make (ints [1; 4; 7; 10; 13]) (ofZ 16)) validPuzzle).
  - lia.
  - reflexivity.
  - vm_compute. reflexivity.
  - vm_compute. reflexivity.
  - vm_compute. reflexivity.
Defined.

(** X16. The starting values of a built puzzle, for a non-positional kind:
    sequence [i] begins with the values of [suggestedStartingValues[i]] when
    the response suggests them; when it does not, the sequence begins with
    the rule's base starting values (default [1]) shifted by
    [2 * (i + 1) * (idx + 1)] at array index [idx], for base values that
    are integers of magnitude at most 2^53 - 50, where the shift is added
    without rounding; so even the primary sequence does not start at the
    base values themselves. *)
Theorem buildPuzzleFromAIResponse_starting_values (response : Response.t)
    (puzzle : Puzzle.t) (i idx : nat) (seq : list number) :
  isPositional (Response.ruleProgramType response) = false ->
  buildPuzzleFromAIResponse response = Ok puzzle ->
  nth_error (Puzzle.sequences puzzle) i = Some seq ->
  (idx < SEQUENCE_LENGTH)%nat ->
  (forall set v,
      nth_error (Response.suggestedStartingValues response ?? []) i = Some set ->
      nth_error set idx = Some v ->
      exists t, nth_error seq idx = Some (Num t) /\ (t == v)%Q)
  /\ ((length (Response.suggestedStartingValues response ?? []) <= i)%nat ->
      forall v,
        nth_error (Params.startingValues (Response.ruleProgramParams response)
                     ?? [1%Q]) idx = Some v ->
        integerWithin (SAFE_LIMIT - 50) v = true ->
        exists t,
          nth_error seq idx = Some (Num t)
          /\ (t == v + 2 * (Qnat i + 1) * (Qnat idx + 1))%Q).
Proof.
  intros Hkind Hbuild Hseq Hidx.
  destruct (startingValueSetsOf_nth response i) as [Hsuggested Hderived].
  split.
  - intros set v Hset Hv.
    exists (v + Qnat 0 * (Qnat idx + 1) * 2)%Q. split.
    + apply (buildPuzzle_sequence_seed response puzzle i idx seq set v
               Hkind Hbuild Hseq (Hsuggested set Hset) Hv Hidx).
    + change (Qnat 0) with 0%Q. ring.
  - intros Hle v Hv _.
    assert (Hi : (i < NUM_SEQUENCES)%nat).
    { destruct (buildPuzzle_five_by_five response puzzle Hbuild) as [Hlen _].
      rewrite <- Hlen. apply nth_error_Some. rewrite Hseq. discriminate. }
    exists (vary (i + 1) v idx + Qnat 0 * (Qnat idx + 1) * 2)%Q. split.
    + apply (buildPuzzle_sequence_seed response puzzle i idx seq
               (mapi (vary (i + 1))
                  (Params.startingValues (Response.ruleProgramParams response)
                     ?? [1%Q]))
               (vary (i + 1) v idx) Hkind Hbuild Hseq (Hderived Hle Hi));
        [|exact Hidx].
      unfold mapi. apply (mapi_from_nth (vary (i + 1)) _ 0%nat idx v Hv).
    + unfold vary. rewrite Qnat_succ.
      change (Qnat 0) with 0%Q. ring.
Qed.

(** The theorem at the Fibonacci-like proposal, which suggests nothing: the
    primary sequence starts at [1 + 2 = 3]. *)
Lemma buildPuzzleFromAIResponse_starting_values_witness :
  exists t,
    nth_error (ints [3; 5; 8; 13; 21]) 0 = Some (Num t)
    /\ (t == 1 + 2 * (Qnat 0 + 1) * (Qnat 0 + 1))%Q.
Proof.
  eapply (buildPuzzleFromAIResponse_starting_values fibonacciResponse _ 0 0
            (ints [3; 5; 8; 13; 21])).
  - reflexivity.
  - vm_compute. reflexivity.
  - vm_compute. reflexivity.
  - unfold SEQUENCE_LENGTH. lia.
  - simpl. lia.
  - reflexivity.
  - reflexivity.
Defined.

(** X17. For the two polynomial kinds only the first generated sequence
    verifies under the parameters it was generated from: output [i] of
    [generateMultipleSequences] is built with the constant term shifted by
    [3 * i] (or [5 * i]), so [verifySequence] with the unshifted parameters
    returns [true] for output 0 and [false] for every later output.  The
    coefficients are integers small enough for every product and sum to
    stay within 2^53, where the shift is not absorbed. *)
Theorem polynomial_outputs_verify_only_first (ruleType : RuleProgramType)
    (params : Params.t) (count len i : nat) (outputs : list Gen.t)
    (out : Gen.t) :
  polynomialIsExact ruleType params count len = true ->
  generateMultipleSequences ruleType params count len = Ok outputs ->
  nth_error outputs i = Some out ->
  verifySequence (Gen.sequence out) (Gen.nextValue out) ruleType params
  = Ok (i =? 0)%nat.
Proof.
  intros Hexact Hgen Hout.
  destruct ruleType; try discriminate Hexact; clear Hexact.
  - rewrite quadratic_outputs in Hgen. injection Hgen as <-.
    apply nth_error_map_seq in Hout. subst out.
    rewrite (verifySequence_positional POSITIONAL_FORMULA params
               (quadraticTerm (Params.a params ?? 0%Q) (Params.b params ?? 1%Q)
                  (Params.c params ?? 0%Q)));
      [|reflexivity|intros sequence position; apply evaluate_quadratic].
    rewrite (shifted_terms_compare _ _ (Qnat i * 3)%Q).
    + rewrite shift_is_zero by reflexivity. reflexivity.
    + intros n. unfold quadraticTerm. ring.
  - rewrite cubic_outputs in Hgen. injection Hgen as <-.
    apply nth_error_map_seq in Hout. subst out.
    rewrite (verifySequence_positional CUBIC_POSITIONAL params
               (cubicTerm (Params.cubicA params ?? 0%Q)
                  (Params.cubicB params ?? 0%Q) (Params.cubicC params ?? 1%Q)
                  (Params.cubicD params ?? 0%Q)));
      [|reflexivity|intros sequence position; apply evaluate_cubic].
    rewrite (shifted_terms_compare _ _ (Qnat i * 5)%Q).
    + rewrite shift_is_zero by reflexivity. reflexivity.
    + intros n. unfold cubicTerm. ring.
Qed.

(** The theorem at the second sequence of the rule [n^2 + 2n - 1]:
    [5, 10, 17, 26, 37] with continuation 50 does not verify. *)
Lemma polynomial_outputs_verify_only_first_witness :
  verifySequence (ints [5; 10; 17; 26; 37]) (ofZ 50) POSITIONAL_FORMULA
    (Params.with_c (Params.with_b (Params.with_a Params.empty 1) 2) (-1))
  = Ok false.
Proof.
  apply (polynomial_outputs_verify_only_first POSITIONAL_FORMULA
           (Params.with_c (Params.with_b (Params.with_a Params.empty 1) 2) (-1))
           5 5 1
           (map (fun z => Gen.make (ints [z; z + 5; z + 12; z + 21; z + 32])
                            (ofZ (z + 45)))
                [2; 5; 8; 11; 14]%Z)
           (Gen.make (ints [5; 10; 17; 26; 37]) (ofZ 50))).
  - reflexivity.
  - vm_compute. reflexivity.
  - reflexivity.
Defined.

(** X18. [digitSum] casts out nines and ignores the sign: for an integer
    [z] of magnitude at most 2^53, whose numeral [toString] prints in full,
    it returns an integer [s] with
    [0 <= s <= |z|] and [s = |z|] modulo 9, the same for [-z]; on anything
    that is not an integer it returns NaN, and so does the next term of a
    DIGIT_SUM_BASED sequence whose last term is not an integer. *)
Theorem digitSum_casts_out_nines :
  (forall z,
      Z.abs z <= SAFE_LIMIT ->
      exists s,
        digitSum (ofZ z) = ofZ s
        /\ digitSum (ofZ (- z)) = ofZ s
        /\ 0 <= s <= Z.abs z
        /\ s mod 9 = Z.abs z mod 9)
  /\ (forall x, isInteger x = false -> digitSum x = NaN)
  /\ (forall sequence params position,
        isInteger (toNumber (fromEnd sequence 1)) = false ->
        evaluateNextValue sequence DIGIT_SUM_BASED params position = Ok NaN).
Proof.
  split; [|split].
  - intros z Hsafe.
    assert (Hsmall : Z.abs z < 10 ^ 21)
      by (unfold SAFE_LIMIT in Hsafe; lia).
    destruct (to_uint_digits (Z.to_N (Z.abs z))) as [k [Hk [Hs Hv]]].
    rewrite Z2N.id in Hv by lia.
    exists (fold_right Z.add 0 (digitsOf (N.to_uint (Z.to_N (Z.abs z))))).
    split; [apply digitSum_of_integer; exact Hsmall|].
    split.
    + rewrite digitSum_of_integer by (rewrite Z.abs_opp; exact Hsmall).
      rewrite Z.abs_opp. reflexivity.
    + split; [lia|]. rewrite Hv at 2. rewrite Z.mul_comm.
      symmetry. apply Z_mod_plus_full.
  - apply digitSum_of_non_integer.
  - intros sequence params position Hprev. cbn [evaluateNextValue].
    rewrite (digitSum_of_non_integer _ Hprev).
    destruct (toNumber (fromEnd sequence 1)); reflexivity.
Qed.

(** The theorem at 389, whose digits sum to 20. *)
Lemma digitSum_casts_out_nines_witness :
  exists s,
    digitSum (ofZ 389) = ofZ s
    /\ digitSum (ofZ (- 389)) = ofZ s
    /\ 0 <= s <= Z.abs 389
    /\ s mod 9 = Z.abs 389 mod 9.
Proof.
  apply (proj1 digitSum_casts_out_nines 389). vm_compute. discriminate.
Defined.

(** X19. Whatever the proposal source does, [generatePuzzle] returns a
    puzzle that has five sequences of five terms, five answers and primary
    index 0, and on which [validatePuzzle] returns [valid = true]: the
    generated ones because they were validated, the catalog ones because
    each of the five passes the same check. *)
Theorem generatePuzzle_output_is_valid (ai : ProposalSource)
    (dateKey : string) (attempt : nat) (w : World) :
  exists out w' puzzle r,
    generatePuzzle ai dateKey attempt w = (Ok out, w')
    /\ Generated.puzzle out = Some puzzle
    /\ fiveByFive puzzle
    /\ validatePuzzle puzzle = Ok r
    /\ VR.valid r = true.
Proof.
  unfold generatePuzzle.
  destruct (generatePuzzleFrom_returns ai dateKey
              (MAX_GENERATION_ATTEMPTS - attempt) attempt w)
    as [out [w' [Hrun _]]].
  exists out, w'.
  destruct (generatePuzzleFrom_outcome ai dateKey _ _ _ _ _ Hrun)
    as [[Hfb _] | [_ [k [puzzle [_ [_ [Hy [Hp _]]]]]]]].
  - pose proof (generatePuzzleFrom_fallback ai dateKey _ _ _ _ _ Hrun Hfb)
      as Hpuzzle.
    destruct (fallback_selected dateKey) as [fallback [Hsel Hin]].
    destruct (catalog_entries fallback Hin) as [Hshape [r [Hval Hvalid]]].
    exists fallback, r. split; [exact Hrun|].
    split; [rewrite Hpuzzle; exact Hsel|].
    split; [exact Hshape|]. split; [exact Hval|exact Hvalid].
  - destruct Hy as [aiResponse [validation [_ [Hbuild [Hval Hvalid]]]]].
    exists puzzle, validation. split; [exact Hrun|]. split; [exact Hp|].
    split; [apply (buildPuzzle_five_by_five aiResponse); exact Hbuild|].
    split; [exact Hval|exact Hvalid].
Qed.

(** X20. The code's own [verifySequence], run on the fallback catalog with
    each entry's stored rule and parameters, accepts every sequence with its
    answer except the third sequence of the Fibonacci-like entry
    ([1, 2, 4, 7, 13] with answer 24, where the rule gives 8 after 4) and
    the four shifted sequences of the positional entry, whose stored
    constant term is that of the first sequence only. *)
Theorem fallback_catalog_verification (n i : nat) (fallback : Puzzle.t)
    (seq : list number) (ans : number) :
  nth_error FALLBACK_PUZZLES n = Some fallback ->
  nth_error (Puzzle.sequences fallback) i = Some seq ->
  nth_error (Puzzle.answers fallback) i = Some ans ->
  verifySequence seq ans (Puzzle.ruleProgramType fallback)
    (Puzzle.ruleProgramParams fallback)
  = Ok (catalogSequenceVerifies n i).
Proof.
  intros Hentry Hseq Hans.
  do 5 (destruct n as [|n];
        [ cbn [nth_error FALLBACK_PUZZLES] in Hentry;
          injection Hentry as <-;
          cbn [Puzzle.sequences Puzzle.answers] in Hseq, Hans;
          do 5 (destruct i as [|i];
                [ cbn [nth_error ints map] in Hseq, Hans;
                  injection Hseq as <-; injection Hans as <-;
                  vm_compute; reflexivity | ]);
          cbn [nth_error] in Hseq; destruct i; discriminate Hseq | ]).
  cbn [nth_error FALLBACK_PUZZLES] in Hentry. destruct n; discriminate Hentry.
Qed.

(** The theorem at the third sequence of the Fibonacci-like entry. *)
Lemma fallback_catalog_verification_witness :
  verifySequence (ints [1; 2; 4; 7; 13]) (ofZ 24) FIBONACCI_LIKE
    (Params.with_startingValues
       (Params.with_prev2Multiplier
          (Params.with_prevMultiplier Params.empty 1) 2) (starts [1; 3]))
  = Ok false.
Proof.
  pose proof (fun fallback Hentry =>
                fallback_catalog_verification 1 2 fallback
                  (ints [1; 2; 4; 7; 13]) (ofZ 24) Hentry) as Hcatalog.
  apply (Hcatalog _ eq_refl); reflexivity.
Defined.
